(** * Multi-AI Business Consultant: structured-output recovery and report assembly

    A shallow embedding of the Python sources

      - [src/utils/json_parse.py]  (extract_json, validate_and_fix_json,
                                    _fix_common_issues),
      - [src/schemas.py]           (the pydantic models),
      - [src/agents/*.py]          (the six stages),
      - [src/utils/kpi.py], [src/utils/stitch.py],
      - [src/orchestrator.py], [src/main.py],

    followed by the properties established about them.

    Conventions.  A Python [str] is a [string]; one [ascii] stands for one
    character (code points below 256; the few characters of the source's
    progress lines that lie above are written as their UTF-8 bytes).  A
    Python value that can travel through [json.loads], a keyword dictionary
    or a pydantic field is a [value].  A Python [dict] is an association
    list in insertion order with unique keys, as Python iterates it.  The
    pydantic in use is version 2, the one that has [model_fields].
    Functions that print, read input, call the generation backend or raise
    are written in the monad [M] over [World].  What depends on the
    interpreter that runs the program is a parameter, [Interpreter]: [str]
    of a value that is no string, the nesting [json.loads] can enter before
    it raises [RecursionError], the longest integer it converts before it
    raises [ValueError].  A character that a [\u] escape of a JSON string
    names above U+00FF has no [ascii] of its own and is read as
    [Json.wide]. *)

From Stdlib Require Import String Ascii List ZArith NArith Bool Arith Lia.
Import ListNotations.
Local Open Scope list_scope.
Local Open Scope string_scope.

(* ===================================================================== *)
(** ** Characters and strings                                              *)
(* ===================================================================== *)

Module PyStr.

Definition dquote : ascii := ascii_of_nat 34.
Definition squote : ascii := ascii_of_nat 39.
Definition backslash : ascii := ascii_of_nat 92.
Definition LF : ascii := ascii_of_nat 10.

(** JSON and prompt literals are written with single quotes in this file;
    [qq] turns every single quote into the double quote of the source. *)
Fixpoint qq (s : string) : string :=
  match s with
  | EmptyString => EmptyString
  | String c r => String (if Ascii.eqb c squote then dquote else c) (qq r)
  end.

Definition nl : string := String LF EmptyString.

(** [str.isspace] on one character (code points below 256). *)
Definition isspace (c : ascii) : bool :=
  let n := nat_of_ascii c in
  ((9 <=? n)%nat && (n <=? 13)%nat) || ((28 <=? n)%nat && (n <=? 32)%nat)
  || (n =? 133)%nat || (n =? 160)%nat.

Fixpoint lstrip (s : string) : string :=
  match s with
  | EmptyString => EmptyString
  | String c r => if isspace c then lstrip r else s
  end.

(** [rstrip] keeps a character when something that is not white space
    follows it, or when it is not white space itself. *)
Fixpoint rstrip (s : string) : string :=
  match s with
  | EmptyString => EmptyString
  | String c r =>
      match rstrip r with
      | EmptyString => if isspace c then EmptyString else String c EmptyString
      | r' => String c r'
      end
  end.

(** [s.strip()] *)
Definition strip (s : string) : string := rstrip (lstrip s).

(** [s[:n]] *)
Definition slice_to (n : nat) (s : string) : string := substring 0 n s.

(** [sep.join(parts)] *)
Fixpoint join (sep : string) (parts : list string) : string :=
  match parts with
  | [] => ""
  | [p] => p
  | p :: rest => p ++ sep ++ join sep rest
  end.

(** [s.startswith(p)], returning what follows the prefix. *)
Fixpoint strip_prefix (p s : string) : option string :=
  match p, s with
  | EmptyString, _ => Some s
  | String a p', String b s' => if Ascii.eqb a b then strip_prefix p' s' else None
  | String _ _, EmptyString => None
  end.

(** The text [s] without its last [length rest] characters. *)
Definition consumed (s rest : string) : string :=
  substring 0 (String.length s - String.length rest) s.

End PyStr.
Import PyStr.

(* ===================================================================== *)
(** ** Python values                                                       *)
(* ===================================================================== *)

(** A float as [json.loads] reads it: the decimal numeral
    [(-1)^neg * mantissa * 10^exp10], before rounding to binary64. *)
Inductive pyfloat : Type :=
| F_nan
| F_inf (neg : bool)
| F_dec (neg : bool) (mantissa : N) (exp10 : Z).

#[warnings="-register-all"] Inductive value : Type :=
| VNone
| VBool (b : bool)
| VInt (z : Z)
| VFloat (f : pyfloat)
| VStr (s : string)
| VList (l : list value)
| VDict (d : list (string * value))
| VUndefined    (* pydantic's PydanticUndefined *)
| VEllipsis.    (* Python's [...] *)

Definition dict : Type := list (string * value).

Module Dict.

(** [d.get(k)] / [k in d] *)
Fixpoint get {A} (k : string) (d : list (string * A)) : option A :=
  match d with
  | [] => None
  | (k', v) :: r => if String.eqb k k' then Some v else get k r
  end.

Definition mem {A} (k : string) (d : list (string * A)) : bool :=
  match get k d with Some _ => true | None => false end.

(** [d[k] = v]: an existing key keeps its place, a new key goes last. *)
Fixpoint set {A} (k : string) (v : A) (d : list (string * A)) : list (string * A) :=
  match d with
  | [] => [(k, v)]
  | (k', v') :: r => if String.eqb k k' then (k, v) :: r else (k', v') :: set k v r
  end.

End Dict.

(** A binary64 float is zero when the numeral rounds to zero: the mantissa is
    zero, or the numeral is at most [2^-1075], half the least subnormal. *)
Definition float_is_zero (f : pyfloat) : bool :=
  match f with
  | F_nan | F_inf _ => false
  | F_dec _ m e =>
      (N.eqb m 0)
      || ((e <? 0)%Z && (Z.of_N m * 2 ^ 1075 <=? 10 ^ (- e))%Z)
  end.

(** [bool(v)] *)
Definition truthy (v : value) : bool :=
  match v with
  | VNone => false
  | VBool b => b
  | VInt z => negb (Z.eqb z 0)
  | VFloat f => negb (float_is_zero f)
  | VStr s => negb (String.eqb s "")
  | VList l => match l with [] => false | _ => true end
  | VDict d => match d with [] => false | _ => true end
  | VUndefined | VEllipsis => true
  end.

Definition isinstance_list (v : value) : bool :=
  match v with VList _ => true | _ => false end.
Definition isinstance_str (v : value) : bool :=
  match v with VStr _ => true | _ => false end.
Definition is_None (v : value) : bool :=
  match v with VNone => true | _ => false end.
Definition is_Ellipsis (v : value) : bool :=
  match v with VEllipsis => true | _ => false end.

(* ===================================================================== *)
(** ** Exceptions and the interpreter                                      *)
(* ===================================================================== *)

Inductive exn : Type :=
| ValidationError               (* pydantic.ValidationError *)
| TypeError
| EOFError
| BackendError (msg : string)   (* whatever the generation backend raises *)
| JSONDecodeError               (* json.JSONDecodeError *)
| RecursionError
| ValueError (message : string)
| KeyboardInterrupt
| SystemExit (code : Z).

(** What [except Exception] catches: everything but the two exceptions that
    derive from [BaseException] only. *)
Definition is_Exception (e : exn) : bool :=
  match e with
  | KeyboardInterrupt | SystemExit _ => false
  | _ => true
  end.

Definition is_ValidationError (e : exn) : bool :=
  match e with ValidationError => true | _ => false end.

(** What [except json.JSONDecodeError] catches.  [JSONDecodeError] derives
    from [ValueError], not the other way round: a plain [ValueError] passes. *)
Definition is_JSONDecodeError (e : exn) : bool :=
  match e with JSONDecodeError => true | _ => false end.

Inductive result (A : Type) : Type :=
| Ok (a : A)
| Raise (e : exn).
Arguments Ok {A} a.
Arguments Raise {A} e.

(** What the program takes from the interpreter it runs on: [str] on the
    values that are no [str]; the number of arrays and objects, one inside
    the other, that the JSON decoder may have open at a time (it enters
    each through [Py_EnterRecursiveCall], so this is the recursion limit
    less what the call stack holds when [json.loads] is called);
    [sys.get_int_max_str_digits()], 0 for no limit; and the message of the
    [ValueError] that [int] raises for a numeral of so many digits.  None of
    them is fixed by the sources. *)
Record Interpreter : Type := mkInterpreter {
  builtin_str : value -> string;
  recursion_limit : nat;
  int_max_str_digits : nat;
  int_too_long : nat -> string
}.

(* ===================================================================== *)
(** ** Regular expressions ([re])                                          *)
(* ===================================================================== *)

(** A backtracking matcher with Python's priorities: alternatives left to
    right, a greedy star tries one more iteration first, a lazy star tries
    to stop first.  [m r s k] matches [r] at the start of [s] and hands the
    rest of the text to the continuation [k]; the first success wins. *)
Module Re.

Inductive re : Type :=
| Eps
| Chr (p : ascii -> bool)
| Seq (a b : re)
| Alt (a b : re)
| Star (greedy : bool) (a : re).

Fixpoint lit (s : string) : re :=
  match s with
  | EmptyString => Eps
  | String c r => Seq (Chr (Ascii.eqb c)) (lit r)
  end.

(** [(?:a)?] *)
Definition opt (a : re) : re := Alt a Eps.

Definition or_else {A} (x : option A) (y : option A) : option A :=
  match x with Some _ => x | None => y end.

Fixpoint m {A} (r : re) (s : string) (k : string -> option A) : option A :=
  match r with
  | Eps => k s
  | Chr p =>
      match s with
      | String c s' => if p c then k s' else None
      | EmptyString => None
      end
  | Seq a b => m a s (fun s' => m b s' k)
  | Alt a b => or_else (m a s k) (m b s k)
  | Star greedy a =>
      (fix loop (n : nat) (s : string) {struct n} : option A :=
         match n with
         | O => k s
         | S n' =>
             let again :=
               m a s (fun s' =>
                        if (String.length s' <? String.length s)%nat
                        then loop n' s' else None) in
             if greedy then or_else again (k s) else or_else (k s) again
         end) (String.length s) s
  end.

(** [re.findall(r, text)] for a pattern that never matches the empty
    string: the non-overlapping matches from left to right.  [pick] says
    what one match contributes, from the text at the match's start. *)
Fixpoint findall_from {A} (at_start : string -> option (A * string))
         (fuel : nat) (s : string) : list A :=
  match fuel with
  | O => []
  | S fuel' =>
      match at_start s with
      | Some (x, rest) =>
          if (String.length rest <? String.length s)%nat
          then x :: findall_from at_start fuel' rest
          else match s with
               | EmptyString => [x]
               | String _ s' => x :: findall_from at_start fuel' s'
               end
      | None =>
          match s with
          | EmptyString => []
          | String _ s' => findall_from at_start fuel' s'
          end
      end
  end.

Definition findall {A} (at_start : string -> option (A * string)) (s : string) : list A :=
  findall_from at_start (S (String.length s)) s.

Definition not_brace (c : ascii) : bool :=
  negb (Ascii.eqb c "{"%char || Ascii.eqb c "}"%char).
Definition any (c : ascii) : bool := true.

Definition lbrace : re := Chr (Ascii.eqb "{"%char).
Definition rbrace : re := Chr (Ascii.eqb "}"%char).
Definition ws : re := Star true (Chr isspace).
Definition fence : re := lit "```".

End Re.

(* ===================================================================== *)
(** ** [json.loads]                                                        *)
(* ===================================================================== *)

(** The decoder of Python's [json] module with its default settings: strict
    strings, [NaN]/[Infinity] accepted, a repeated key keeps its first place
    and its last value.  It raises [JSONDecodeError] on text that is no
    JSON, [RecursionError] when arrays and objects are nested deeper than
    the interpreter lets it go, and the [ValueError] of [int] on an integer
    literal with more digits than the interpreter converts.  The fuel of
    [scan_once] bounds the calls made for nested and successive values; a
    call consumes a character or is followed by one that does, so the fuel
    [loads] gives, twice the length of the text and one more, is never
    exhausted. *)
Module Json.

Definition is_ws (c : ascii) : bool :=
  Ascii.eqb c " "%char || (nat_of_ascii c =? 9)%nat
  || (nat_of_ascii c =? 10)%nat || (nat_of_ascii c =? 13)%nat.

Fixpoint skip_ws (s : string) : string :=
  match s with
  | EmptyString => EmptyString
  | String c r => if is_ws c then skip_ws r else s
  end.

Definition digit_of (c : ascii) : option N :=
  let n := nat_of_ascii c in
  if ((48 <=? n) && (n <=? 57))%nat then Some (N.of_nat (n - 48)) else None.

Definition hex_of (c : ascii) : option N :=
  let n := nat_of_ascii c in
  if ((48 <=? n) && (n <=? 57))%nat then Some (N.of_nat (n - 48))
  else if ((65 <=? n) && (n <=? 70))%nat then Some (N.of_nat (n - 55))
  else if ((97 <=? n) && (n <=? 102))%nat then Some (N.of_nat (n - 87))
  else None.

(** The digits at the start of [s]: their value after [acc], how many there
    are, and the rest of the text. *)
Fixpoint digits (s : string) (acc : N) (count : nat) : N * nat * string :=
  match s with
  | EmptyString => (acc, count, s)
  | String c r =>
      match digit_of c with
      | Some d => digits r (acc * 10 + d)%N (S count)
      | None => (acc, count, s)
      end
  end.

(** The integer part of [NUMBER_RE], an optional minus sign and then
    either 0 or a digit string with no leading zero: sign, value, number of
    digits, rest. *)
Definition int_part (s : string) : option (bool * N * nat * string) :=
  let '(neg, s1) :=
    match s with
    | String "-"%char r => (true, r)
    | _ => (false, s)
    end in
  match s1 with
  | String "0"%char r => Some (neg, 0%N, 1, r)
  | _ =>
      match digits s1 0%N 0 with
      | (_, O, _) => None
      | (n, S k, r) => Some (neg, n, S k, r)
      end
  end.

(** [(\.\d+)?] after mantissa [mant]: the mantissa with the fraction's
    digits, their number, the rest. *)
Definition frac_part (mant : N) (s : string) : option (N * nat * string) :=
  match s with
  | String "."%char r =>
      match digits r mant 0 with
      | (_, O, _) => None
      | (n, S k, r') => Some (n, S k, r')
      end
  | _ => None
  end.

(** [([eE][-+]?\d+)?] *)
Definition exp_part (s : string) : option (Z * string) :=
  match s with
  | String c r =>
      if Ascii.eqb c "e"%char || Ascii.eqb c "E"%char then
        let '(neg, r1) :=
          match r with
          | String "-"%char r' => (true, r')
          | String "+"%char r' => (false, r')
          | _ => (false, r)
          end in
        match digits r1 0%N 0 with
        | (_, O, _) => None
        | (n, S _, r2) => Some (if neg then (- Z.of_N n)%Z else Z.of_N n, r2)
        end
      else None
  | EmptyString => None
  end.

(** [int(numstr)]: beyond 640 digits the interpreter's limit on the
    conversion applies, when it has one. *)
Definition int_of (py : Interpreter) (neg : bool) (n : N) (count : nat) : result value :=
  if ((640 <? count) && (0 <? int_max_str_digits py)
      && (int_max_str_digits py <? count))%nat
  then Raise (ValueError (int_too_long py count))
  else Ok (VInt (if neg then (- Z.of_N n)%Z else Z.of_N n)).

(** [NUMBER_RE.match] and the conversion of what it matched: an integer
    when neither fraction nor exponent follows, a float otherwise.  [None]
    when no number stands at the start of [s]. *)
Definition number (py : Interpreter) (s : string) : option (result (value * string)) :=
  match int_part s with
  | None => None
  | Some (neg, n, count, r) =>
      match frac_part n r, exp_part r with
      | None, None =>
          match int_of py neg n count with
          | Ok v => Some (Ok (v, r))
          | Raise e => Some (Raise e)
          end
      | None, Some (e, r') => Some (Ok (VFloat (F_dec neg n e), r'))
      | Some (mant, k, r1), _ =>
          match exp_part r1 with
          | None => Some (Ok (VFloat (F_dec neg mant (- Z.of_nat k)), r1))
          | Some (e, r2) => Some (Ok (VFloat (F_dec neg mant (e - Z.of_nat k)), r2))
          end
      end
  end.

(** The character a one-letter escape stands for. *)
Definition unescape (c : ascii) : option ascii :=
  if Ascii.eqb c dquote then Some dquote
  else if Ascii.eqb c backslash then Some backslash
  else if Ascii.eqb c "/"%char then Some "/"%char
  else if Ascii.eqb c "b"%char then Some (ascii_of_nat 8)
  else if Ascii.eqb c "f"%char then Some (ascii_of_nat 12)
  else if Ascii.eqb c "n"%char then Some (ascii_of_nat 10)
  else if Ascii.eqb c "r"%char then Some (ascii_of_nat 13)
  else if Ascii.eqb c "t"%char then Some (ascii_of_nat 9)
  else None.

Definition hex4 (a b c d : ascii) : option N :=
  match hex_of a, hex_of b, hex_of c, hex_of d with
  | Some x, Some y, Some z, Some w => Some (((x * 16 + y) * 16 + z) * 16 + w)%N
  | _, _, _, _ => None
  end.

Definition cons_char (c : ascii) (r : option (string * string)) : option (string * string) :=
  match r with
  | Some (s, rest) => Some (String c s, rest)
  | None => None
  end.

(** The character of a [\u] escape.  One that lies above U+00FF has no
    character of its own here: every such character is written [wide]. *)
Definition wide : ascii := "?"%char.

Definition narrow (n : N) : ascii :=
  if (n <? 256)%N then ascii_of_N n else wide.

Definition is_high_surrogate (n : N) : bool := ((55296 <=? n) && (n <=? 56319))%N.
Definition is_low_surrogate (n : N) : bool := ((56320 <=? n) && (n <=? 57343))%N.

(** [scanstring], from just after the opening quote.  After the escape of
    a high surrogate, the escape of a low surrogate that is not the end of
    the text makes one character with it. *)
Fixpoint scanstring (s : string) : option (string * string) :=
  match s with
  | EmptyString => None
  | String c r =>
      if Ascii.eqb c dquote then Some (EmptyString, r)
      else if Ascii.eqb c backslash then
        match r with
        | EmptyString => None
        | String e r' =>
            if Ascii.eqb e "u"%char then
              match r' with
              | String h1 (String h2 (String h3 (String h4 r''))) =>
                  match hex4 h1 h2 h3 h4 with
                  | Some n =>
                      if is_high_surrogate n then
                        match r'' with
                        | String b (String u (String g1 (String g2 (String g3
                            (String g4 ((String _ _) as r3)))))) =>
                            if Ascii.eqb b backslash && Ascii.eqb u "u"%char then
                              match hex4 g1 g2 g3 g4 with
                              | Some n2 =>
                                  if is_low_surrogate n2
                                  then cons_char wide (scanstring r3)
                                  else cons_char (narrow n) (scanstring r'')
                              | None => None
                              end
                            else cons_char (narrow n) (scanstring r'')
                        | _ => cons_char (narrow n) (scanstring r'')
                        end
                      else cons_char (narrow n) (scanstring r'')
                  | None => None
                  end
              | _ => None
              end
            else
              match unescape e with
              | Some ch => cons_char ch (scanstring r')
              | None => None
              end
        end
      else if (nat_of_ascii c <? 32)%nat then None
      else cons_char c (scanstring r)
  end.

Definition constant (s : string) : option (value * string) :=
  match strip_prefix "NaN" s with
  | Some r => Some (VFloat F_nan, r)
  | None =>
      match strip_prefix "Infinity" s with
      | Some r => Some (VFloat (F_inf false), r)
      | None =>
          match strip_prefix "-Infinity" s with
          | Some r => Some (VFloat (F_inf true), r)
          | None => None
          end
      end
  end.

Definition literal (s : string) : option (value * string) :=
  match strip_prefix "null" s with
  | Some r => Some (VNone, r)
  | None =>
      match strip_prefix "true" s with
      | Some r => Some (VBool true, r)
      | None =>
          match strip_prefix "false" s with
          | Some r => Some (VBool false, r)
          | None => None
          end
      end
  end.

(** [scan_once] with [depth] more arrays and objects to enter. *)
Fixpoint scan_once (py : Interpreter) (fuel depth : nat) (s : string) {struct fuel}
  : result (value * string) :=
  match fuel with
  | O => Raise JSONDecodeError
  | S fuel' =>
      match s with
      | EmptyString => Raise JSONDecodeError
      | String c rest =>
          if Ascii.eqb c dquote then
            match scanstring rest with
            | Some (str, r) => Ok (VStr str, r)
            | None => Raise JSONDecodeError
            end
          else if Ascii.eqb c "{"%char then
            match depth with
            | O => Raise RecursionError
            | S depth' =>
                match skip_ws rest with
                | String "}"%char r => Ok (VDict [], r)
                | r =>
                    match members py fuel' depth' r [] with
                    | Ok (d, r') => Ok (VDict d, r')
                    | Raise e => Raise e
                    end
                end
            end
          else if Ascii.eqb c "["%char then
            match depth with
            | O => Raise RecursionError
            | S depth' =>
                match skip_ws rest with
                | String "]"%char r => Ok (VList [], r)
                | r =>
                    match elements py fuel' depth' r with
                    | Ok (l, r') => Ok (VList l, r')
                    | Raise e => Raise e
                    end
                end
            end
          else
            match literal s with
            | Some x => Ok x
            | None =>
                match number py s with
                | Some x => x
                | None =>
                    match constant s with
                    | Some x => Ok x
                    | None => Raise JSONDecodeError
                    end
                end
            end
      end
  end

(** [JSONObject]'s loop, at the quote that opens a key. *)
with members (py : Interpreter) (fuel depth : nat) (s : string) (acc : dict) {struct fuel}
  : result (dict * string) :=
  match fuel with
  | O => Raise JSONDecodeError
  | S fuel' =>
      match s with
      | EmptyString => Raise JSONDecodeError
      | String c r =>
          if Ascii.eqb c dquote then
            match scanstring r with
            | None => Raise JSONDecodeError
            | Some (key, r1) =>
                match skip_ws r1 with
                | String ":"%char r2 =>
                    match scan_once py fuel' depth (skip_ws r2) with
                    | Raise e => Raise e
                    | Ok (v, r3) =>
                        let acc' := Dict.set key v acc in
                        match skip_ws r3 with
                        | String "}"%char r4 => Ok (acc', r4)
                        | String ","%char r4 => members py fuel' depth (skip_ws r4) acc'
                        | _ => Raise JSONDecodeError
                        end
                    end
                | _ => Raise JSONDecodeError
                end
            end
          else Raise JSONDecodeError
      end
  end

(** [JSONArray]'s loop, at the start of an element. *)
with elements (py : Interpreter) (fuel depth : nat) (s : string) {struct fuel}
  : result (list value * string) :=
  match fuel with
  | O => Raise JSONDecodeError
  | S fuel' =>
      match scan_once py fuel' depth s with
      | Raise e => Raise e
      | Ok (v, r) =>
          match skip_ws r with
          | String "]"%char r' => Ok ([v], r')
          | String ","%char r' =>
              match elements py fuel' depth (skip_ws r') with
              | Ok (l, r'') => Ok (v :: l, r'')
              | Raise e => Raise e
              end
          | _ => Raise JSONDecodeError
          end
      end
  end.

(** [json.loads(s)]: one value, white space around it, nothing else. *)
Definition loads (py : Interpreter) (s : string) : result value :=
  match scan_once py (S (2 * String.length s)) (recursion_limit py) (skip_ws s) with
  | Ok (v, rest) =>
      match skip_ws rest with
      | EmptyString => Ok v
      | _ => Raise JSONDecodeError
      end
  | Raise e => Raise e
  end.

End Json.

(* ===================================================================== *)
(** ** [utils/json_parse.py]: the extractor                                *)
(* ===================================================================== *)

(** [r'```(?:json)?\s*(\{.*?\})\s*```'] with [re.DOTALL], tried at the start
    of [s]: the text of group 1 and what follows the match. *)
Definition json_block_pattern (s : string) : option (string * string) :=
  Re.m (Re.Seq Re.fence (Re.Seq (Re.opt (Re.lit "json")) Re.ws)) s
    (fun s1 =>
       Re.m (Re.Seq Re.lbrace (Re.Seq (Re.Star false (Re.Chr Re.any)) Re.rbrace)) s1
         (fun s2 =>
            Re.m (Re.Seq Re.ws Re.fence) s2
              (fun s3 => Some (consumed s1 s2, s3)))).

(** The pattern of [json_pattern]: an opening brace, characters other than
    braces, any number of groups (a brace pair around characters other than
    braces, then characters other than braces), and a closing brace. *)
Definition json_pattern_re : Re.re :=
  Re.Seq Re.lbrace
    (Re.Seq (Re.Star true (Re.Chr Re.not_brace))
       (Re.Seq
          (Re.Star true
             (Re.Seq Re.lbrace
                (Re.Seq (Re.Star true (Re.Chr Re.not_brace))
                   (Re.Seq Re.rbrace (Re.Star true (Re.Chr Re.not_brace))))))
          Re.rbrace)).

Definition json_pattern (s : string) : option (string * string) :=
  Re.m json_pattern_re s (fun s' => Some (consumed s s', s')).

(** [try: return json.loads(s)  except json.JSONDecodeError: otherwise] *)
Definition loads_or (py : Interpreter) (s : string) (otherwise : result value)
  : result value :=
  match Json.loads py s with
  | Ok v => Ok v
  | Raise e => if is_JSONDecodeError e then otherwise else Raise e
  end.

(** [for match in matches: try: return json.loads(match) ... continue],
    and the [return None] that follows the loop. *)
Fixpoint first_loads (py : Interpreter) (matches : list string) : result value :=
  match matches with
  | [] => Ok VNone
  | x :: rest => loads_or py x (first_loads py rest)
  end.

(** [extract_json(text)].  The Python function returns whatever
    [json.loads] returned, or [None] ([VNone]); what [json.loads] raises
    other than [JSONDecodeError] is not caught. *)
Definition extract_json (py : Interpreter) (text : string) : result value :=
  (* Try direct JSON parse first *)
  loads_or py (strip text)
    (let in_text := first_loads py (Re.findall json_pattern text) in
     (* Try to find JSON in code blocks *)
     match Re.findall json_block_pattern text with
     | m0 :: _ => loads_or py m0 in_text
     (* Try to find JSON object in text *)
     | [] => in_text
     end).

(* ===================================================================== *)
(** ** The world and the monad of effects                                  *)
(* ===================================================================== *)

(** One piece of text written by [print] or as the prompt of [input];
    [PrintedExn] is a line that ends with the
    text of an exception, which is not modelled. *)
Inductive output : Type :=
| Printed (s : string)
| PrintedExn (s : string) (e : exn).

(** One request to the generation client: prompt, system prompt, json_mode. *)
Record LLMCall : Type := mkCall {
  call_prompt : string;
  call_system_prompt : string;
  call_json_mode : bool
}.

(** What the user does at a prompt: enter a line, or interrupt. *)
Inductive keyboard : Type :=
| Line (s : string)
| CtrlC.

(** The world outside the program: what the user will still do on standard
    input, what was printed, the generation backend (its answer to the n-th
    request), the requests made so far, and the clock. *)
Record World : Type := mkWorld {
  stdin : list keyboard;
  stdout : list output;
  backend : nat -> LLMCall -> result string;
  llm_calls : list LLMCall;
  clock : Z
}.

Definition M (A : Type) : Type := World -> result A * World.

Definition ret {A} (a : A) : M A := fun w => (Ok a, w).
Definition raise {A} (e : exn) : M A := fun w => (Raise e, w).
Definition bind {A B} (c : M A) (k : A -> M B) : M B :=
  fun w =>
    match c w with
    | (Ok a, w') => k a w'
    | (Raise e, w') => (Raise e, w')
    end.
Definition lift {A} (r : result A) : M A := fun w => (r, w).

Declare Scope py_scope.
Delimit Scope py_scope with py.
Notation "x <- c ;; k" := (bind c (fun x => k))
  (at level 61, c at next level, right associativity) : py_scope.
Notation "c ;; k" := (bind c (fun _ => k))
  (at level 61, right associativity) : py_scope.
Local Open Scope py_scope.

(** [try: c  except <catches> as e: handler e] *)
Definition try_except {A} (c : M A) (catches : exn -> bool) (handler : exn -> M A) : M A :=
  fun w =>
    match c w with
    | (Raise e, w') => if catches e then handler e w' else (Raise e, w')
    | r => r
    end.

Definition print (s : string) : M unit :=
  fun w => (Ok tt, mkWorld (stdin w) (stdout w ++ [Printed s])%list (backend w) (llm_calls w) (clock w)).

Definition print_exn (s : string) (e : exn) : M unit :=
  fun w => (Ok tt, mkWorld (stdin w) (stdout w ++ [PrintedExn s e])%list (backend w) (llm_calls w) (clock w)).

(** [input(prompt)]: the prompt is written, a line is read; the end of
    the input is an [EOFError], an interrupt a [KeyboardInterrupt]. *)
Definition input (prompt : string) : M string :=
  fun w =>
    let out := (stdout w ++ [Printed prompt])%list in
    match stdin w with
    | [] => (Raise EOFError, mkWorld [] out (backend w) (llm_calls w) (clock w))
    | Line line :: rest => (Ok line, mkWorld rest out (backend w) (llm_calls w) (clock w))
    | CtrlC :: rest => (Raise KeyboardInterrupt, mkWorld rest out (backend w) (llm_calls w) (clock w))
    end.

(** [sys.exit(code)] *)
Definition sys_exit {A} (code : Z) : M A := raise (SystemExit code).

(** [datetime.now()] *)
Definition datetime_now : M Z := fun w => (Ok (clock w), w).

(** [QwenLLM.generate(prompt, system_prompt, json_mode=...)]: the request is
    handed to the backend; what the backend raises is raised again. *)
Definition generate (prompt system_prompt : string) (json_mode : bool) : M string :=
  fun w =>
    let call := mkCall prompt system_prompt json_mode in
    (backend w (List.length (llm_calls w)) call,
     mkWorld (stdin w) (stdout w) (backend w) (llm_calls w ++ [call])%list (clock w)).

(* ===================================================================== *)
(** ** pydantic: annotations, fields and model construction                *)
(* ===================================================================== *)

(** The annotations [schemas.py] uses.  [t_Dict a] is [Dict[str, a]] and
    [t_Optional a] is [Optional[a]], that is [Union[a, None]]. *)
Inductive annotation : Type :=
| t_str
| t_Any
| t_NoneType
| t_List (a : annotation)
| t_Dict (a : annotation)
| t_Optional (a : annotation).

Fixpoint annotation_eqb (a b : annotation) : bool :=
  match a, b with
  | t_str, t_str | t_Any, t_Any | t_NoneType, t_NoneType => true
  | t_List x, t_List y | t_Dict x, t_Dict y | t_Optional x, t_Optional y => annotation_eqb x y
  | _, _ => false
  end.

(** [hasattr(annotation, '__origin__')] and the origin itself. *)
Inductive origin : Type := o_list | o_dict | o_Union.

Definition origin_of (a : annotation) : option origin :=
  match a with
  | t_List _ => Some o_list
  | t_Dict _ => Some o_dict
  | t_Optional _ => Some o_Union
  | _ => None
  end.

(** [annotation.__args__] (empty where there is no such attribute). *)
Definition args_of (a : annotation) : list annotation :=
  match a with
  | t_List x => [x]
  | t_Dict x => [t_str; x]
  | t_Optional x => [x; t_NoneType]
  | _ => []
  end.

(** The Rocq type of a validated field. *)
Fixpoint denote (a : annotation) : Type :=
  match a with
  | t_str => string
  | t_Any => value
  | t_NoneType => unit
  | t_List x => list (denote x)
  | t_Dict x => list (string * denote x)
  | t_Optional x => option (denote x)
  end.

Fixpoint traverse {A B} (f : A -> option B) (l : list A) : option (list B) :=
  match l with
  | [] => Some []
  | x :: r =>
      match f x, traverse f r with
      | Some y, Some ys => Some (y :: ys)
      | _, _ => None
      end
  end.

Definition on_snd {A B} (f : A -> option B) (kv : string * A) : option (string * B) :=
  match f (snd kv) with
  | Some y => Some (fst kv, y)
  | None => None
  end.

(** Validation of one value against an annotation (pydantic 2, lax mode, on
    the values of this model): a [str] field takes a [str] only, a list
    field a [list] whose items validate, a dict field a [dict] whose values
    validate, [Any] anything. *)
Fixpoint validate (a : annotation) (v : value) : option (denote a) :=
  match a return option (denote a) with
  | t_str => match v with VStr s => Some s | _ => None end
  | t_Any => Some v
  | t_NoneType => match v with VNone => Some tt | _ => None end
  | t_List x => match v with VList l => traverse (validate x) l | _ => None end
  | t_Dict x => match v with VDict d => traverse (on_snd (validate x)) d | _ => None end
  | t_Optional x =>
      match v with
      | VNone => Some None
      | _ => option_map Some (validate x v)
      end
  end.

(** [FieldInfo]: pydantic 2 stores [PydanticUndefined] as the default of a
    field declared without one (also when it is declared with [Field(...)]),
    and [None] as the factory of a field without a factory.  A factory is
    modelled by the value it returns. *)
Record FieldInfo : Type := mkField {
  f_annotation : annotation;
  f_default : value;
  f_default_factory : option value
}.

Definition required (a : annotation) : FieldInfo := mkField a VUndefined None.
Definition with_default (a : annotation) (d : value) : FieldInfo := mkField a d None.

Definition Fields : Type := list (string * FieldInfo).

(** The value of one field of a new instance: the keyword argument when one
    is given, otherwise the factory's value or the default; a field with
    neither is missing. *)
Definition field_value (fi : FieldInfo) (given : option value) : option (denote (f_annotation fi)) :=
  match given with
  | Some v => validate (f_annotation fi) v
  | None =>
      match f_default_factory fi with
      | Some d => validate (f_annotation fi) d
      | None =>
          match f_default fi with
          | VUndefined => None
          | d => validate (f_annotation fi) d
          end
      end
  end.

Fixpoint fields_type (fs : Fields) : Type :=
  match fs with
  | [] => unit
  | f :: r => (denote (f_annotation (snd f)) * fields_type r)%type
  end.

(** Validation of the keyword arguments against every field; arguments
    that name no field are ignored (pydantic's default [extra='ignore']). *)
Fixpoint construct (fs : Fields) (kw : dict) : option (fields_type fs) :=
  match fs return option (fields_type fs) with
  | [] => Some tt
  | f :: r =>
      match field_value (snd f) (Dict.get (fst f) kw), construct r kw with
      | Some x, Some xs => Some (x, xs)
      | _, _ => None
      end
  end.

(** A pydantic model class: its [model_fields] and the instance built from
    the validated fields. *)
Class BaseModel (T : Type) : Type := {
  model_fields : Fields;
  of_fields : fields_type model_fields -> T
}.
Arguments model_fields T {_}.

(** [schema( **kw)] for a dictionary [kw]. *)
Definition model_new (T : Type) `{BaseModel T} (kw : dict) : result T :=
  match construct (model_fields T) kw with
  | Some t => Ok (of_fields t)
  | None => Raise ValidationError
  end.

(** [schema( **data)] for any value: only a mapping can be unpacked. *)
Definition call_schema (T : Type) `{BaseModel T} (data : value) : result T :=
  match data with
  | VDict kw => model_new T kw
  | _ => Raise TypeError
  end.

(* ===================================================================== *)
(** ** [schemas.py]                                                        *)
(* ===================================================================== *)

Record ClientInput : Type := mkClientInput {
  business : string;
  industry : string;
  goal : string;
  constraints : string;
  additional_context : option string
}.

Record DiscoveryOutput : Type := mkDiscoveryOutput {
  problem_statement : string;
  key_assumptions : list string;
  facts_gathered : list string;
  questions_clarified : list string;
  business_model : string;
  target_market : string
}.

Record MarketAnalysis : Type := mkMarketAnalysis {
  competitors : list dict;
  competitor_map : dict;
  differentiation_opportunities : list string;
  positioning_strategy : string;
  market_size : option string;
  market_trends : list string
}.

Record StrategyOutput : Type := mkStrategyOutput {
  strategic_options : list dict;
  tradeoffs : dict;
  recommendation : string;
  rationale : string;
  success_metrics : list string
}.

Record ExecutionPlan : Type := mkExecutionPlan {
  plan_30_days : list (list (string * string));
  plan_60_days : list (list (string * string));
  plan_90_days : list (list (string * string));
  process_improvements : list string;
  org_changes : list string;
  resource_requirements : dict
}.

Record FinancialModel : Type := mkFinancialModel {
  unit_economics : dict;
  pricing_strategy : string;
  revenue_projections : dict;
  cost_structure : dict;
  roi_model : dict;
  break_even_analysis : dict
}.

Record RiskAnalysis : Type := mkRiskAnalysis {
  risks : list dict;
  mitigations : list dict;
  compliance_flags : list string;
  legal_considerations : list string
}.

Record KPIMetrics : Type := mkKPIMetrics {
  revenue_metrics : dict;
  operational_metrics : dict;
  customer_metrics : dict;
  financial_metrics : dict;
  targets : dict
}.

Record FullReport : Type := mkFullReport {
  executive_summary : string;
  discovery : DiscoveryOutput;
  market_analysis : MarketAnalysis;
  strategy : StrategyOutput;
  execution_plan : ExecutionPlan;
  financial_model : FinancialModel;
  risk_analysis : RiskAnalysis;
  kpi_dashboard : KPIMetrics;
  generated_at : Z
}.

Definition DiscoveryOutput_fields : Fields :=
  [ ("problem_statement", required t_str);
    ("key_assumptions", required (t_List t_str));
    ("facts_gathered", required (t_List t_str));
    ("questions_clarified", required (t_List t_str));
    ("business_model", required t_str);
    ("target_market", required t_str) ].

Definition MarketAnalysis_fields : Fields :=
  [ ("competitors", required (t_List (t_Dict t_Any)));
    ("competitor_map", required (t_Dict t_Any));
    ("differentiation_opportunities", required (t_List t_str));
    ("positioning_strategy", required t_str);
    ("market_size", with_default (t_Optional t_str) VNone);
    ("market_trends", with_default (t_List t_str) (VList [])) ].

Definition StrategyOutput_fields : Fields :=
  [ ("strategic_options", required (t_List (t_Dict t_Any)));
    ("tradeoffs", required (t_Dict t_Any));
    ("recommendation", required t_str);
    ("rationale", required t_str);
    ("success_metrics", required (t_List t_str)) ].

Definition ExecutionPlan_fields : Fields :=
  [ ("plan_30_days", required (t_List (t_Dict t_str)));
    ("plan_60_days", required (t_List (t_Dict t_str)));
    ("plan_90_days", required (t_List (t_Dict t_str)));
    ("process_improvements", required (t_List t_str));
    ("org_changes", required (t_List t_str));
    ("resource_requirements", required (t_Dict t_Any)) ].

Definition FinancialModel_fields : Fields :=
  [ ("unit_economics", required (t_Dict t_Any));
    ("pricing_strategy", required t_str);
    ("revenue_projections", required (t_Dict t_Any));
    ("cost_structure", required (t_Dict t_Any));
    ("roi_model", required (t_Dict t_Any));
    ("break_even_analysis", required (t_Dict t_Any)) ].

Definition RiskAnalysis_fields : Fields :=
  [ ("risks", required (t_List (t_Dict t_Any)));
    ("mitigations", required (t_List (t_Dict t_Any)));
    ("compliance_flags", required (t_List t_str));
    ("legal_considerations", required (t_List t_str)) ].

Definition KPIMetrics_fields : Fields :=
  [ ("revenue_metrics", required (t_Dict t_Any));
    ("operational_metrics", required (t_Dict t_Any));
    ("customer_metrics", required (t_Dict t_Any));
    ("financial_metrics", required (t_Dict t_Any));
    ("targets", required (t_Dict t_Any)) ].

#[export] Instance DiscoveryOutput_model : BaseModel DiscoveryOutput := {|
  model_fields := DiscoveryOutput_fields;
  of_fields := fun '(a, (b, (c, (d, (e, (f, _)))))) => mkDiscoveryOutput a b c d e f
|}.

#[export] Instance MarketAnalysis_model : BaseModel MarketAnalysis := {|
  model_fields := MarketAnalysis_fields;
  of_fields := fun '(a, (b, (c, (d, (e, (f, _)))))) => mkMarketAnalysis a b c d e f
|}.

#[export] Instance StrategyOutput_model : BaseModel StrategyOutput := {|
  model_fields := StrategyOutput_fields;
  of_fields := fun '(a, (b, (c, (d, (e, _))))) => mkStrategyOutput a b c d e
|}.

#[export] Instance ExecutionPlan_model : BaseModel ExecutionPlan := {|
  model_fields := ExecutionPlan_fields;
  of_fields := fun '(a, (b, (c, (d, (e, (f, _)))))) => mkExecutionPlan a b c d e f
|}.

#[export] Instance FinancialModel_model : BaseModel FinancialModel := {|
  model_fields := FinancialModel_fields;
  of_fields := fun '(a, (b, (c, (d, (e, (f, _)))))) => mkFinancialModel a b c d e f
|}.

#[export] Instance RiskAnalysis_model : BaseModel RiskAnalysis := {|
  model_fields := RiskAnalysis_fields;
  of_fields := fun '(a, (b, (c, (d, _)))) => mkRiskAnalysis a b c d
|}.

#[export] Instance KPIMetrics_model : BaseModel KPIMetrics := {|
  model_fields := KPIMetrics_fields;
  of_fields := fun '(a, (b, (c, (d, (e, _))))) => mkKPIMetrics a b c d e
|}.

(* ===================================================================== *)
(** ** [utils/json_parse.py]: the validator                                *)
(* ===================================================================== *)

Section Runtime.

(** The interpreter: its [str(v)] for a value [v] that is not a [str] (the
    text of a number, a list, a dictionary, ...) is left open, and no
    property below depends on what it returns. *)
Variable py : Interpreter.

(** [str(v)], and [f"{v}"] *)
Definition py_str (v : value) : string :=
  match v with
  | VStr s => s
  | _ => builtin_str py v
  end.

(** The empty value [_fix_common_issues] chooses from an annotation, in the
    order of its tests: [str] itself or any annotation with [str] among its
    arguments, then a list, then a dictionary. *)
Definition empty_value_for (a : annotation) : option value :=
  if annotation_eqb a t_str
     || (match origin_of a with Some _ => true | None => false end
         && existsb (annotation_eqb t_str) (args_of a))
  then Some (VStr "")
  else match origin_of a with
       | Some o_list => Some (VList [])
       | Some o_dict => Some (VDict [])
       | _ => None
       end.

(** The body of the first loop, "ensure required fields exist". *)
Definition ensure_field (fixed : dict) (f : string * FieldInfo) : dict :=
  let '(field_name, field_info) := f in
  if Dict.mem field_name fixed then fixed
  else if negb (is_Ellipsis (f_default field_info)) then
    Dict.set field_name (f_default field_info) fixed
  else
    match f_default_factory field_info with
    | Some made => Dict.set field_name made fixed
    | None =>
        match empty_value_for (f_annotation field_info) with
        | Some e => Dict.set field_name e fixed
        | None => fixed
        end
    end.

(** [isinstance(value, actual_type)]: a class for [str], a [TypeError] for
    [Any] and for a subscripted generic. *)
Definition isinstance (v : value) (actual_type : annotation) : result bool :=
  match actual_type with
  | t_str => Ok (isinstance_str v)
  | t_NoneType => Ok (is_None v)
  | _ => Raise TypeError
  end.

Definition is_NoneType (a : annotation) : bool := annotation_eqb a t_NoneType.

(** The body of the second loop, "convert types if needed". *)
Definition convert_field (fixed : dict) (f : string * FieldInfo) : result dict :=
  let '(field_name, field_info) := f in
  match Dict.get field_name fixed with
  | None => Ok fixed
  | Some v =>
      let annotation := f_annotation field_info in
      (* Handle List types *)
      let fixed1 :=
        match origin_of annotation with
        | Some o_list =>
            if negb (isinstance_list v)
            then Dict.set field_name (if truthy v then VList [v] else VList []) fixed
            else fixed
        | _ => fixed
        end in
      (* Handle Optional types *)
      match origin_of annotation with
      | Some _ =>
          if existsb is_NoneType (args_of annotation) then
            match filter (fun a => negb (is_NoneType a)) (args_of annotation) with
            | actual_type :: _ =>
                match isinstance v actual_type with
                | Raise e => Raise e
                | Ok is_inst =>
                    if negb is_inst && negb (is_None v)
                    then Ok (Dict.set field_name (VStr (py_str v)) fixed1)
                    else Ok fixed1
                end
            | [] => Ok fixed1
            end
          else Ok fixed1
      | None => Ok fixed1
      end
  end.

Fixpoint convert_fields (fixed : dict) (fs : Fields) : result dict :=
  match fs with
  | [] => Ok fixed
  | f :: r =>
      match convert_field fixed f with
      | Ok fixed' => convert_fields fixed' r
      | Raise e => Raise e
      end
  end.

(** [_fix_common_issues(data, schema)] *)
Definition _fix_common_issues (T : Type) `{BaseModel T} (data : dict) : result dict :=
  let fixed := data in
  let schema_fields := model_fields T in
  let fixed := fold_left ensure_field schema_fields fixed in
  convert_fields fixed schema_fields.

(** [validate_and_fix_json(data, schema, strict)].  The handler is entered
    on a [ValidationError] only, which [schema( **data)] raises for a
    dictionary only. *)
Definition validate_and_fix_json (T : Type) `{BaseModel T} (data : value) (strict : bool) : M T :=
  try_except (lift (call_schema T data)) is_ValidationError
    (fun e =>
       if strict then raise e
       else
         match data with
         | VDict kw =>
             fixed_data <- lift (_fix_common_issues T kw) ;;
             try_except (lift (model_new T fixed_data)) is_ValidationError
               (fun _ =>
                  print_exn "Warning: Could not fully validate data: " e ;;
                  lift (model_new T
                          (filter (fun kv => Dict.mem (fst kv) (model_fields T)) kw)))
         | _ => raise TypeError
         end).

End Runtime.

(* ===================================================================== *)
(** ** [agents/*.py]: prompts and fallback mappings                        *)
(* ===================================================================== *)

(** The conditional line of the discovery prompt. *)
Definition additional_context_line (client_input : ClientInput) : string :=
  match additional_context client_input with
  | Some c => if String.eqb c "" then "" else "**Additional Context**: " ++ c
  | None => ""
  end.

Definition discovery_system_prompt : string :=
  "You are a business discovery consultant. Your role is to:
1. Clarify the problem statement
2. Identify key assumptions
3. Gather relevant facts
4. Understand the business model
5. Identify the target market

Respond in a structured format that helps understand the client's situation.".

Definition discovery_prompt (client_input : ClientInput) : string :=
  "Analyze the following client information and provide a comprehensive discovery analysis:

**Business**: "
  ++ (business client_input)
  ++ "
**Industry**: "
  ++ (industry client_input)
  ++ "
**Goal**: "
  ++ (goal client_input)
  ++ "
**Constraints**: "
  ++ (constraints client_input)
  ++ "
"
  ++ (additional_context_line client_input)
  ++ qq "

Please provide:
1. A clear problem statement
2. Key assumptions that need validation
3. Facts gathered from the information
4. Questions that need clarification
5. Business model description
6. Target market identification

Format your response as JSON with the following structure:
{
    'problem_statement': 'Clear statement of the problem',
    'key_assumptions': ['assumption1', 'assumption2', ...],
    'facts_gathered': ['fact1', 'fact2', ...],
    'questions_clarified': ['question1', 'question2', ...],
    'business_model': 'Description of how the business works',
    'target_market': 'Description of target market'
}".

Definition market_system_prompt : string :=
  "You are a market research and competitive intelligence expert. Your role is to:
1. Identify key competitors
2. Create a competitor map
3. Find differentiation opportunities
4. Recommend positioning strategies
5. Analyze market size and trends

Provide actionable insights based on the business context.".

Definition market_prompt (client_input : ClientInput) (discovery : DiscoveryOutput) : string :=
  "Conduct a comprehensive market and competitor analysis:

**Business**: "
  ++ (business client_input)
  ++ "
**Industry**: "
  ++ (industry client_input)
  ++ "
**Target Market**: "
  ++ (target_market discovery)
  ++ "
**Business Model**: "
  ++ (business_model discovery)
  ++ qq "

Please provide:
1. List of key competitors with their strengths/weaknesses
2. A competitor positioning map
3. Differentiation opportunities
4. Recommended positioning strategy
5. Market size estimate (if possible)
6. Key market trends

Format your response as JSON:
{
    'competitors': [
        {
            'name': 'Competitor Name',
            'strengths': ['strength1', 'strength2'],
            'weaknesses': ['weakness1', 'weakness2'],
            'market_position': 'description'
        }
    ],
    'competitor_map': {
        'dimensions': ['dimension1', 'dimension2'],
        'positions': {'competitor_name': [x, y]}
    },
    'differentiation_opportunities': ['opportunity1', 'opportunity2', ...],
    'positioning_strategy': 'Recommended positioning strategy',
    'market_size': 'Market size estimate or description',
    'market_trends': ['trend1', 'trend2', ...]
}".

Definition strategy_system_prompt : string :=
  "You are a strategic business consultant. Your role is to:
1. Develop multiple strategic options
2. Analyze tradeoffs between options
3. Provide a clear recommendation
4. Explain the rationale
5. Define success metrics

Think strategically and consider long-term implications.".

Definition strategy_prompt (client_input : ClientInput) (discovery : DiscoveryOutput) (market : MarketAnalysis) : string :=
  "Develop strategic recommendations:

**Business Goal**: "
  ++ (goal client_input)
  ++ "
**Problem Statement**: "
  ++ (problem_statement discovery)
  ++ "
**Constraints**: "
  ++ (constraints client_input)
  ++ "
**Market Position**: "
  ++ (positioning_strategy market)
  ++ "
**Differentiation Opportunities**: "
  ++ (join ", " (firstn 3 (differentiation_opportunities market)))
  ++ qq "

Please provide:
1. 3-5 strategic options with descriptions
2. Tradeoffs analysis for each option
3. A clear recommendation
4. Rationale for the recommendation
5. Success metrics to track

Format your response as JSON:
{
    'strategic_options': [
        {
            'name': 'Option Name',
            'description': 'Detailed description',
            'pros': ['pro1', 'pro2'],
            'cons': ['con1', 'con2'],
            'feasibility': 'high/medium/low',
            'impact': 'high/medium/low'
        }
    ],
    'tradeoffs': {
        'option1_vs_option2': 'Comparison description',
        'risk_vs_reward': 'Analysis'
    },
    'recommendation': 'Recommended strategic option with justification',
    'rationale': 'Detailed rationale for the recommendation',
    'success_metrics': ['metric1', 'metric2', ...]
}".

Definition ops_system_prompt : string :=
  "You are an operations and execution consultant. Your role is to:
1. Create actionable 30/60/90 day plans
2. Identify process improvements
3. Recommend organizational changes
4. Define resource requirements

Be specific and actionable in your recommendations.".

Definition ops_prompt (client_input : ClientInput) (strategy : StrategyOutput) : string :=
  "Create a detailed execution plan:

**Business**: "
  ++ (business client_input)
  ++ "
**Recommended Strategy**: "
  ++ (recommendation strategy)
  ++ "
**Rationale**: "
  ++ (rationale strategy)
  ++ "
**Constraints**: "
  ++ (constraints client_input)
  ++ "
**Success Metrics**: "
  ++ (join ", " (success_metrics strategy))
  ++ qq "

Please provide:
1. 30-day action plan with specific tasks
2. 60-day action plan with milestones
3. 90-day action plan with goals
4. Process improvements needed
5. Organizational changes required
6. Resource requirements (people, budget, tools)

Format your response as JSON:
{
    'plan_30_days': [
        {
            'task': 'Task description',
            'owner': 'Responsible party',
            'priority': 'high/medium/low',
            'status': 'not_started'
        }
    ],
    'plan_60_days': [
        {
            'task': 'Task description',
            'owner': 'Responsible party',
            'priority': 'high/medium/low',
            'status': 'not_started'
        }
    ],
    'plan_90_days': [
        {
            'task': 'Task description',
            'owner': 'Responsible party',
            'priority': 'high/medium/low',
            'status': 'not_started'
        }
    ],
    'process_improvements': ['improvement1', 'improvement2', ...],
    'org_changes': ['change1', 'change2', ...],
    'resource_requirements': {
        'people': 'Description of staffing needs',
        'budget': 'Budget estimate or description',
        'tools': ['tool1', 'tool2', ...]
    }
}".

Definition finance_system_prompt : string :=
  "You are a financial modeling consultant. Your role is to:
1. Build unit economics models
2. Develop pricing strategies
3. Create revenue projections
4. Analyze cost structures
5. Calculate ROI and break-even points

Even if data is limited, provide reasonable estimates and assumptions.".

Definition finance_prompt (client_input : ClientInput) (discovery : DiscoveryOutput) (strategy : StrategyOutput) : string :=
  "Build a financial model:

**Business**: "
  ++ (business client_input)
  ++ "
**Business Model**: "
  ++ (business_model discovery)
  ++ "
**Target Market**: "
  ++ (target_market discovery)
  ++ "
**Strategy**: "
  ++ (recommendation strategy)
  ++ "
**Constraints**: "
  ++ (constraints client_input)
  ++ qq "

Please provide:
1. Unit economics (CAC, LTV, margins, etc.)
2. Pricing strategy recommendations
3. Revenue projections (monthly/quarterly/annual)
4. Cost structure breakdown
5. ROI model with assumptions
6. Break-even analysis

Format your response as JSON:
{
    'unit_economics': {
        'customer_acquisition_cost': 'CAC estimate or description',
        'lifetime_value': 'LTV estimate or description',
        'gross_margin': 'Margin percentage or description',
        'contribution_margin': 'Margin description'
    },
    'pricing_strategy': 'Recommended pricing approach',
    'revenue_projections': {
        'month_1': 'Revenue estimate',
        'month_3': 'Revenue estimate',
        'month_6': 'Revenue estimate',
        'year_1': 'Revenue estimate'
    },
    'cost_structure': {
        'fixed_costs': 'Description of fixed costs',
        'variable_costs': 'Description of variable costs',
        'cost_breakdown': 'Detailed breakdown'
    },
    'roi_model': {
        'investment': 'Required investment',
        'expected_return': 'Expected return',
        'roi': 'ROI percentage or description',
        'payback_period': 'Payback period estimate',
        'assumptions': ['assumption1', 'assumption2']
    },
    'break_even_analysis': {
        'break_even_point': 'Break-even point description',
        'break_even_timeline': 'Timeline to break even',
        'key_assumptions': ['assumption1', 'assumption2']
    }
}".

Definition risk_system_prompt : string :=
  "You are a risk management and legal compliance consultant. Your role is to:
1. Identify business risks
2. Recommend mitigation strategies
3. Flag compliance issues
4. Highlight legal considerations

Be thorough and consider both obvious and hidden risks.".

Definition risk_prompt (client_input : ClientInput) (discovery : DiscoveryOutput) (strategy : StrategyOutput) : string :=
  "Conduct a comprehensive risk analysis:

**Business**: "
  ++ (business client_input)
  ++ "
**Industry**: "
  ++ (industry client_input)
  ++ "
**Strategy**: "
  ++ (recommendation strategy)
  ++ "
**Constraints**: "
  ++ (constraints client_input)
  ++ "
**Business Model**: "
  ++ (business_model discovery)
  ++ qq "

Please provide:
1. List of key risks with severity and likelihood
2. Mitigation strategies for each risk
3. Compliance flags specific to the industry
4. Legal considerations

Format your response as JSON:
{
    'risks': [
        {
            'category': 'Financial/Operational/Legal/Strategic',
            'description': 'Risk description',
            'severity': 'high/medium/low',
            'likelihood': 'high/medium/low',
            'impact': 'Impact description'
        }
    ],
    'mitigations': [
        {
            'risk_id': 'Reference to risk',
            'strategy': 'Mitigation strategy',
            'owner': 'Responsible party',
            'timeline': 'When to implement'
        }
    ],
    'compliance_flags': ['flag1', 'flag2', ...],
    'legal_considerations': ['consideration1', 'consideration2', ...]
}".

Definition strs (l : list string) : value := VList (map VStr l).

(** [DiscoveryAgent._parse_fallback(text)] *)
Definition DiscoveryAgent_parse_fallback (text : string) : dict :=
  [ ("problem_statement",
     VStr (if truthy (VStr text) then slice_to 200 text else "Problem to be clarified"));
    ("key_assumptions", VList []);
    ("facts_gathered", if truthy (VStr text) then VList [VStr text] else VList []);
    ("questions_clarified", VList []);
    ("business_model", VStr "To be determined");
    ("target_market", VStr "To be determined") ].

(** [MarketAgent._parse_fallback(client_input, discovery)] *)
Definition MarketAgent_parse_fallback (client_input : ClientInput) (discovery : DiscoveryOutput) : dict :=
  [ ("competitors", VList []);
    ("competitor_map", VDict []);
    ("differentiation_opportunities",
     strs [ "Focus on " ++ industry client_input ++ " expertise";
            "Leverage unique business model" ]);
    ("positioning_strategy",
     VStr ("Position as a " ++ business_model discovery ++ " in " ++ industry client_input));
    ("market_size", VStr "To be researched");
    ("market_trends", VList []) ].

(** [StrategyAgent._parse_fallback(client_input, discovery)] *)
Definition StrategyAgent_parse_fallback (client_input : ClientInput) (discovery : DiscoveryOutput) : dict :=
  [ ("strategic_options",
     VList [ VDict [ ("name", VStr "Primary Strategy");
                     ("description", VStr ("Focus on " ++ goal client_input));
                     ("pros", strs ["Aligned with goals"]);
                     ("cons", strs ["Requires resources"]);
                     ("feasibility", VStr "medium");
                     ("impact", VStr "high") ] ]);
    ("tradeoffs", VDict []);
    ("recommendation", VStr ("Implement strategy to achieve " ++ goal client_input));
    ("rationale", VStr ("Addresses " ++ problem_statement discovery));
    ("success_metrics", strs ["Goal achievement"; "Progress tracking"]) ].

Definition task (what owner priority : string) : value :=
  VDict [ ("task", VStr what); ("owner", VStr owner);
          ("priority", VStr priority); ("status", VStr "not_started") ].

(** [OpsAgent._parse_fallback(strategy)] *)
Definition OpsAgent_parse_fallback (strategy : StrategyOutput) : dict :=
  [ ("plan_30_days", VList [task "Initiate strategy implementation" "Leadership team" "high"]);
    ("plan_60_days", VList [task "Execute key initiatives" "Operations team" "high"]);
    ("plan_90_days", VList [task "Review progress and adjust" "Leadership team" "medium"]);
    ("process_improvements", strs ["Streamline operations"; "Improve efficiency"]);
    ("org_changes", strs ["Align team structure with strategy"]);
    ("resource_requirements",
     VDict [ ("people", VStr "To be determined");
             ("budget", VStr "To be determined");
             ("tools", VList []) ]) ].

(** [FinanceAgent._parse_fallback()] *)
Definition FinanceAgent_parse_fallback : dict :=
  [ ("unit_economics",
     VDict [ ("customer_acquisition_cost", VStr "To be calculated");
             ("lifetime_value", VStr "To be calculated");
             ("gross_margin", VStr "To be determined");
             ("contribution_margin", VStr "To be determined") ]);
    ("pricing_strategy", VStr "Competitive pricing based on market analysis");
    ("revenue_projections",
     VDict [ ("month_1", VStr "Initial revenue");
             ("month_3", VStr "Growing revenue");
             ("month_6", VStr "Established revenue");
             ("year_1", VStr "Annual revenue projection") ]);
    ("cost_structure",
     VDict [ ("fixed_costs", VStr "Operational overhead");
             ("variable_costs", VStr "Cost of goods/services");
             ("cost_breakdown", VStr "To be detailed") ]);
    ("roi_model",
     VDict [ ("investment", VStr "To be calculated");
             ("expected_return", VStr "To be projected");
             ("roi", VStr "To be calculated");
             ("payback_period", VStr "To be determined");
             ("assumptions", strs ["Market conditions"; "Execution success"]) ]);
    ("break_even_analysis",
     VDict [ ("break_even_point", VStr "To be calculated");
             ("break_even_timeline", VStr "To be determined");
             ("key_assumptions", strs ["Revenue growth"; "Cost management"]) ]) ].

(** [RiskAgent._parse_fallback(client_input, strategy)] *)
Definition RiskAgent_parse_fallback (client_input : ClientInput) (strategy : StrategyOutput) : dict :=
  [ ("risks",
     VList [ VDict [ ("category", VStr "Strategic");
                     ("description", VStr "Strategy execution risk");
                     ("severity", VStr "medium");
                     ("likelihood", VStr "medium");
                     ("impact", VStr "May affect goal achievement") ] ]);
    ("mitigations",
     VList [ VDict [ ("risk_id", VStr "Strategy execution risk");
                     ("strategy", VStr "Regular monitoring and adjustment");
                     ("owner", VStr "Leadership team");
                     ("timeline", VStr "Ongoing") ] ]);
    ("compliance_flags",
     strs [ "Industry-specific regulations for " ++ industry client_input;
            "Data privacy and security requirements" ]);
    ("legal_considerations",
     strs [ "Contractual obligations"; "Regulatory compliance";
            "Intellectual property protection" ]) ].

(* ===================================================================== *)
(** ** [agents/*.py]: the six stages                                       *)
(* ===================================================================== *)

Section Pipeline.

Variable py : Interpreter.

(** The steps every [analyze] shares after its prompt is built: the
    generation call, the extractor, the fallback mapping when the extractor
    returned nothing (or anything falsy), the validator, and the hand-built
    minimal artifact when the validator raised. *)
Definition run_stage (T : Type) `{BaseModel T}
    (prompt system_prompt : string) (fallback : string -> dict)
    (error_line : string) (minimal : T) : M T :=
  response <- generate prompt system_prompt true ;;
  data <- lift (extract_json py response) ;;
  let data := if negb (truthy data) then VDict (fallback response) else data in
  try_except (validate_and_fix_json py T data false) is_Exception
    (fun e => print_exn error_line e ;; ret minimal).

(** [DiscoveryAgent.analyze(client_input)] *)
Definition DiscoveryAgent_analyze (client_input : ClientInput) : M DiscoveryOutput :=
  run_stage DiscoveryOutput
    (discovery_prompt client_input) discovery_system_prompt
    DiscoveryAgent_parse_fallback
    "Error validating discovery output: "
    (mkDiscoveryOutput
       (goal client_input)
       []
       [business client_input; industry client_input]
       []
       (business client_input)
       "To be determined").

(** [MarketAgent.analyze(client_input, discovery)] *)
Definition MarketAgent_analyze (client_input : ClientInput) (discovery : DiscoveryOutput)
  : M MarketAnalysis :=
  run_stage MarketAnalysis
    (market_prompt client_input discovery) market_system_prompt
    (fun _ => MarketAgent_parse_fallback client_input discovery)
    "Error validating market analysis: "
    (mkMarketAnalysis [] [] [] "To be developed based on market research" None []).

(** [StrategyAgent.analyze(client_input, discovery, market)] *)
Definition StrategyAgent_analyze (client_input : ClientInput) (discovery : DiscoveryOutput)
    (market : MarketAnalysis) : M StrategyOutput :=
  run_stage StrategyOutput
    (strategy_prompt client_input discovery market) strategy_system_prompt
    (fun _ => StrategyAgent_parse_fallback client_input discovery)
    "Error validating strategy output: "
    (mkStrategyOutput
       [] []
       ("Focus on achieving " ++ goal client_input ++ " while addressing "
          ++ problem_statement discovery)
       "Based on business context and constraints"
       ["Revenue growth"; "Market share"; "Customer satisfaction"]).

(** [OpsAgent.analyze(client_input, discovery, strategy)] *)
Definition OpsAgent_analyze (client_input : ClientInput) (discovery : DiscoveryOutput)
    (strategy : StrategyOutput) : M ExecutionPlan :=
  run_stage ExecutionPlan
    (ops_prompt client_input strategy) ops_system_prompt
    (fun _ => OpsAgent_parse_fallback strategy)
    "Error validating execution plan: "
    (mkExecutionPlan [] [] [] [] [] []).

(** [FinanceAgent.analyze(client_input, discovery, strategy)] *)
Definition FinanceAgent_analyze (client_input : ClientInput) (discovery : DiscoveryOutput)
    (strategy : StrategyOutput) : M FinancialModel :=
  run_stage FinancialModel
    (finance_prompt client_input discovery strategy) finance_system_prompt
    (fun _ => FinanceAgent_parse_fallback)
    "Error validating financial model: "
    (mkFinancialModel [] "To be determined based on market research" [] [] [] []).

(** [RiskAgent.analyze(client_input, discovery, strategy)] *)
Definition RiskAgent_analyze (client_input : ClientInput) (discovery : DiscoveryOutput)
    (strategy : StrategyOutput) : M RiskAnalysis :=
  run_stage RiskAnalysis
    (risk_prompt client_input discovery strategy) risk_system_prompt
    (fun _ => RiskAgent_parse_fallback client_input strategy)
    "Error validating risk analysis: "
    (mkRiskAnalysis [] [] [] []).

(* ===================================================================== *)
(** ** [utils/kpi.py]                                                      *)
(* ===================================================================== *)

Record KPIGenerator : Type := mkKPIGenerator { metrics : dict }.

(** [d[k] = v] when the test holds, [d] otherwise. *)
Definition set_if (test : bool) (k : string) (v : value) (d : dict) : dict :=
  if test then Dict.set k v d else d.

Definition nonempty {A} (l : list A) : bool :=
  match l with [] => false | _ => true end.

Definition len {A} (l : list A) : value := VInt (Z.of_nat (List.length l)).

(** [KPIGenerator.generate_from_agents(financial, strategy, execution)].  A
    model instance is always truthy, so [if financial:] asks whether the
    argument is [None]. *)
Definition generate_from_agents (self : KPIGenerator)
    (financial : option FinancialModel) (strategy : option StrategyOutput)
    (execution : option ExecutionPlan) : result KPIMetrics :=
  let revenue_metrics : dict := [] in
  let operational_metrics : dict := [] in
  let customer_metrics : dict := [] in
  let financial_metrics : dict := [] in
  let targets : dict := [] in
  (* Extract from financial model *)
  let '(revenue_metrics, financial_metrics) :=
    match financial with
    | Some financial =>
        let revenue_metrics :=
          set_if (nonempty (unit_economics financial))
            "unit_economics" (VDict (unit_economics financial)) revenue_metrics in
        let revenue_metrics :=
          set_if (nonempty (revenue_projections financial))
            "projections" (VDict (revenue_projections financial)) revenue_metrics in
        let financial_metrics :=
          set_if (nonempty (roi_model financial))
            "roi" (VDict (roi_model financial)) financial_metrics in
        let financial_metrics :=
          set_if (nonempty (break_even_analysis financial))
            "break_even" (VDict (break_even_analysis financial)) financial_metrics in
        (revenue_metrics, financial_metrics)
    | None => (revenue_metrics, financial_metrics)
    end in
  (* Extract from strategy *)
  let targets :=
    match strategy with
    | Some strategy =>
        set_if (nonempty (success_metrics strategy))
          "strategic_metrics" (strs (success_metrics strategy)) targets
    | None => targets
    end in
  (* Extract from execution plan *)
  let operational_metrics :=
    match execution with
    | Some execution =>
        let operational_metrics :=
          Dict.set "milestones_30" (len (plan_30_days execution)) operational_metrics in
        let operational_metrics :=
          Dict.set "milestones_60" (len (plan_60_days execution)) operational_metrics in
        let operational_metrics :=
          Dict.set "milestones_90" (len (plan_90_days execution)) operational_metrics in
        set_if (nonempty (resource_requirements execution))
          "resources" (VDict (resource_requirements execution)) operational_metrics
    | None => operational_metrics
    end in
  model_new KPIMetrics
    [ ("revenue_metrics", VDict revenue_metrics);
      ("operational_metrics", VDict operational_metrics);
      ("customer_metrics", VDict customer_metrics);
      ("financial_metrics", VDict financial_metrics);
      ("targets", VDict targets) ].

(* ===================================================================== *)
(** ** [utils/stitch.py]                                                   *)
(* ===================================================================== *)

(** [ReportStitcher.sections]: a dictionary that only ever holds the seven
    keys below, each with an instance of its own model. *)
Record Sections : Type := mkSections {
  sec_discovery : option DiscoveryOutput;
  sec_market_analysis : option MarketAnalysis;
  sec_strategy : option StrategyOutput;
  sec_execution_plan : option ExecutionPlan;
  sec_financial_model : option FinancialModel;
  sec_risk_analysis : option RiskAnalysis;
  sec_kpi_dashboard : option KPIMetrics
}.

Record ReportStitcher : Type := mkReportStitcher { sections : Sections }.

Definition no_sections : Sections := mkSections None None None None None None None.

Definition add_discovery (self : ReportStitcher) (x : DiscoveryOutput) : ReportStitcher :=
  let s := sections self in
  mkReportStitcher
    (mkSections (Some x) (sec_market_analysis s) (sec_strategy s) (sec_execution_plan s)
       (sec_financial_model s) (sec_risk_analysis s) (sec_kpi_dashboard s)).

Definition add_market_analysis (self : ReportStitcher) (x : MarketAnalysis) : ReportStitcher :=
  let s := sections self in
  mkReportStitcher
    (mkSections (sec_discovery s) (Some x) (sec_strategy s) (sec_execution_plan s)
       (sec_financial_model s) (sec_risk_analysis s) (sec_kpi_dashboard s)).

Definition add_strategy (self : ReportStitcher) (x : StrategyOutput) : ReportStitcher :=
  let s := sections self in
  mkReportStitcher
    (mkSections (sec_discovery s) (sec_market_analysis s) (Some x) (sec_execution_plan s)
       (sec_financial_model s) (sec_risk_analysis s) (sec_kpi_dashboard s)).

Definition add_execution_plan (self : ReportStitcher) (x : ExecutionPlan) : ReportStitcher :=
  let s := sections self in
  mkReportStitcher
    (mkSections (sec_discovery s) (sec_market_analysis s) (sec_strategy s) (Some x)
       (sec_financial_model s) (sec_risk_analysis s) (sec_kpi_dashboard s)).

Definition add_financial_model (self : ReportStitcher) (x : FinancialModel) : ReportStitcher :=
  let s := sections self in
  mkReportStitcher
    (mkSections (sec_discovery s) (sec_market_analysis s) (sec_strategy s) (sec_execution_plan s)
       (Some x) (sec_risk_analysis s) (sec_kpi_dashboard s)).

Definition add_risk_analysis (self : ReportStitcher) (x : RiskAnalysis) : ReportStitcher :=
  let s := sections self in
  mkReportStitcher
    (mkSections (sec_discovery s) (sec_market_analysis s) (sec_strategy s) (sec_execution_plan s)
       (sec_financial_model s) (Some x) (sec_kpi_dashboard s)).

Definition add_kpi_metrics (self : ReportStitcher) (x : KPIMetrics) : ReportStitcher :=
  let s := sections self in
  mkReportStitcher
    (mkSections (sec_discovery s) (sec_market_analysis s) (sec_strategy s) (sec_execution_plan s)
       (sec_financial_model s) (sec_risk_analysis s) (Some x)).

(** [d.get(k, default)] *)
Definition get_or (k : string) (default : value) (d : dict) : value :=
  match Dict.get k d with Some v => v | None => default end.

(** The four parts of the summary, each a list with at most one line. *)
Definition problem_part (s : Sections) : list string :=
  match sec_discovery s with
  | Some discovery => ["**Problem Statement**: " ++ problem_statement discovery]
  | None => []
  end.

Definition recommendation_part (s : Sections) : list string :=
  match sec_strategy s with
  | Some strategy => ["**Strategic Recommendation**: " ++ recommendation strategy]
  | None => []
  end.

Definition roi_part (s : Sections) : list string :=
  match sec_financial_model s with
  | Some financial =>
      if Dict.mem "roi_model" (roi_model financial) then
        let roi := get_or "roi" (VStr "N/A") (roi_model financial) in
        ["**Expected ROI**: " ++ py_str py roi]
      else []
  | None => []
  end.

Definition risk_part (s : Sections) : list string :=
  match sec_risk_analysis s with
  | Some risk =>
      match risks risk with
      | top_risk :: _ =>
          ["**Primary Risk**: " ++ py_str py (get_or "description" (VStr "N/A") top_risk)]
      | [] => []
      end
  | None => []
  end.

(** [ReportStitcher.generate_executive_summary()] *)
Definition generate_executive_summary (self : ReportStitcher) : string :=
  let s := sections self in
  let summary_parts :=
    (problem_part s ++ recommendation_part s ++ roi_part s ++ risk_part s)%list in
  join (nl ++ nl) summary_parts.

(** [FullReport(...)]: every section is required and must be an instance
    of its model, so a [None] is a [ValidationError]; [generated_at] comes
    from its factory [datetime.now]. *)
Definition FullReport_new (executive_summary : string) (s : Sections) : M FullReport :=
  match sec_discovery s, sec_market_analysis s, sec_strategy s, sec_execution_plan s,
        sec_financial_model s, sec_risk_analysis s, sec_kpi_dashboard s with
  | Some d, Some m, Some st, Some e, Some f, Some r, Some k =>
      generated_at <- datetime_now ;;
      ret (mkFullReport executive_summary d m st e f r k generated_at)
  | _, _, _, _, _, _, _ => raise ValidationError
  end.

(** [ReportStitcher.build_full_report()] *)
Definition build_full_report (self : ReportStitcher) : M FullReport :=
  let executive_summary := generate_executive_summary self in
  FullReport_new executive_summary (sections self).

(* ===================================================================== *)
(** ** [orchestrator.py]                                                   *)
(* ===================================================================== *)

(** The orchestrator's mutable parts; its agents have no state of their
    own beyond the shared generation client. *)
Record BusinessConsultantOrchestrator : Type := mkOrchestrator {
  stitcher : ReportStitcher;
  kpi_generator : KPIGenerator
}.

Definition with_stitcher (self : BusinessConsultantOrchestrator) (st : ReportStitcher) :=
  mkOrchestrator st (kpi_generator self).

(** [BusinessConsultantOrchestrator()] *)
Definition new_orchestrator : BusinessConsultantOrchestrator :=
  mkOrchestrator (mkReportStitcher no_sections) (mkKPIGenerator []).

(** [generate_report(client_input)]: the report and the orchestrator with
    its stitcher as the calls left it. *)
Definition generate_report (self : BusinessConsultantOrchestrator) (client_input : ClientInput)
  : M (FullReport * BusinessConsultantOrchestrator) :=
  print "🔍 Starting Discovery Phase..." ;;
  discovery <- DiscoveryAgent_analyze client_input ;;
  let self := with_stitcher self (add_discovery (stitcher self) discovery) in
  print "✓ Discovery complete" ;;

  print (nl ++ "📊 Starting Market Analysis...") ;;
  market <- MarketAgent_analyze client_input discovery ;;
  let self := with_stitcher self (add_market_analysis (stitcher self) market) in
  print "✓ Market analysis complete" ;;

  print (nl ++ "🎯 Starting Strategy Development...") ;;
  strategy <- StrategyAgent_analyze client_input discovery market ;;
  let self := with_stitcher self (add_strategy (stitcher self) strategy) in
  print "✓ Strategy development complete" ;;

  print (nl ++ "⚙️  Starting Operations Planning...") ;;
  execution <- OpsAgent_analyze client_input discovery strategy ;;
  let self := with_stitcher self (add_execution_plan (stitcher self) execution) in
  print "✓ Operations planning complete" ;;

  print (nl ++ "💰 Starting Financial Modeling...") ;;
  financial <- FinanceAgent_analyze client_input discovery strategy ;;
  let self := with_stitcher self (add_financial_model (stitcher self) financial) in
  print "✓ Financial modeling complete" ;;

  print (nl ++ "⚠️  Starting Risk Analysis...") ;;
  risk <- RiskAgent_analyze client_input discovery strategy ;;
  let self := with_stitcher self (add_risk_analysis (stitcher self) risk) in
  print "✓ Risk analysis complete" ;;

  print (nl ++ "📈 Generating KPI Dashboard...") ;;
  kpi <- lift (generate_from_agents (kpi_generator self)
                 (Some financial) (Some strategy) (Some execution)) ;;
  let self := with_stitcher self (add_kpi_metrics (stitcher self) kpi) in
  print "✓ KPI dashboard complete" ;;

  print (nl ++ "📝 Synthesizing Final Report...") ;;
  full_report <- build_full_report (stitcher self) ;;
  print "✓ Report synthesis complete" ;;

  ret (full_report, self).

(* ===================================================================== *)
(** ** [main.py]                                                           *)
(* ===================================================================== *)

(** [s * n] *)
Fixpoint times (s : string) (n : nat) : string :=
  match n with
  | O => ""
  | S n' => s ++ times s n'
  end.

Definition rule : string := times "=" 60.

(** [get_client_input()] *)
Definition get_client_input : M ClientInput :=
  print rule ;;
  print "Multi-AI Business Consultant" ;;
  print rule ;;
  print (nl ++ "Please provide the following information:" ++ nl) ;;

  line <- input "Business Description: " ;;
  let business := strip line in
  (if negb (truthy (VStr business)) then
     print "Error: Business description is required" ;; sys_exit 1
   else ret tt) ;;

  line <- input "Industry: " ;;
  let industry := strip line in
  (if negb (truthy (VStr industry)) then
     print "Error: Industry is required" ;; sys_exit 1
   else ret tt) ;;

  line <- input "Primary Business Goal: " ;;
  let goal := strip line in
  (if negb (truthy (VStr goal)) then
     print "Error: Business goal is required" ;; sys_exit 1
   else ret tt) ;;

  line <- input "Constraints (press Enter if none): " ;;
  let constraints := strip line in

  line <- input "Additional Context (press Enter if none): " ;;
  let additional_context := strip line in

  ret (mkClientInput
         business
         industry
         goal
         (if truthy (VStr constraints) then constraints else "None specified")
         (if truthy (VStr additional_context) then Some additional_context else None)).

(** [orchestrator.save_report(report, output_dir)] with the directory read
    from the environment: rendering through the templates and writing the
    file belong to the presentation layer and are not modelled. *)
Variable save_report : BusinessConsultantOrchestrator -> FullReport -> M string.

Definition is_KeyboardInterrupt (e : exn) : bool :=
  match e with KeyboardInterrupt => true | _ => false end.

(** [main()].  One [try] with two handlers: [KeyboardInterrupt] leaves with
    status 0, any [Exception] is reported and leaves with status 1; a
    [SystemExit] raised inside passes through both.  The traceback goes to
    standard error, which is not modelled. *)
Definition main : M unit :=
  try_except
    (client_input <- get_client_input ;;

     print (nl ++ rule) ;;
     print "Generating Business Report..." ;;
     print (rule ++ nl) ;;

     let orchestrator := new_orchestrator in
     r <- generate_report orchestrator client_input ;;
     let '(report, orchestrator) := r in

     report_path <- save_report orchestrator report ;;

     print (nl ++ rule) ;;
     print "Report Generation Complete!" ;;
     print rule ;;
     print (nl ++ "Report saved to: " ++ report_path) ;;
     print "Report includes:" ;;
     print "  - Executive Summary" ;;
     print "  - Discovery Analysis" ;;
     print "  - Market & Competitor Analysis" ;;
     print "  - Strategic Recommendations" ;;
     print "  - 30/60/90 Day Execution Plan" ;;
     print "  - Financial Model & ROI Analysis" ;;
     print "  - Risk Analysis & Mitigations" ;;
     print "  - KPI Dashboard" ;;
     print nl)
    (fun e => is_KeyboardInterrupt e || is_Exception e)
    (fun e =>
       if is_KeyboardInterrupt e then
         print (nl ++ nl ++ "Process interrupted by user.") ;; sys_exit 0
       else
         print_exn (nl ++ "❌ Error: ") e ;; sys_exit 1).

End Pipeline.

(* ===================================================================== *)
(** ** The spec's own reading of the extractor's third step                *)
(* ===================================================================== *)

(** The spec asks for "the first syntactically balanced brace-delimited
    substring", found with a bracket-depth matcher.  [balanced_end depth s]
    walks [s] with [depth] braces open and returns what follows the brace
    that closes the outermost one. *)
Fixpoint balanced_end (depth : nat) (s : string) : option string :=
  match s with
  | EmptyString => None
  | String c r =>
      if Ascii.eqb c "{"%char then balanced_end (S depth) r
      else if Ascii.eqb c "}"%char then
        match depth with
        | O => None
        | 1 => Some r
        | S d => balanced_end d r
        end
      else balanced_end depth r
  end.

(** The first balanced substring of [s] by the spec's words: from the first
    opening brace whose braces close, to the brace that closes it. *)
Fixpoint spec_first_balanced (s : string) : option string :=
  match s with
  | EmptyString => None
  | String c r =>
      if Ascii.eqb c "{"%char then
        match balanced_end 1 r with
        | Some rest => Some (consumed s rest)
        | None => spec_first_balanced r
        end
      else spec_first_balanced r
  end.

(** Worlds used to run the program on concrete inputs: [stub_world text
    lines] has a generation backend that always answers [text] and [lines]
    waiting on standard input. *)
Definition stub_world (text : string) (lines : list string) : World :=
  mkWorld (map Line lines) [] (fun _ _ => Ok text) [] 0.

(** A stand-in for [str] on values that are not strings, for the concrete
    runs below (none of them reaches it with such a value). *)
Definition no_str : value -> string := fun _ => "<value>".

(** An interpreter with CPython's default limits, for the concrete runs: a
    thousand nested arrays and objects, integers of 4300 digits (the
    message of the [ValueError] is cut to its first words). *)
Definition cpython : Interpreter :=
  mkInterpreter no_str 1000 4300 (fun _ => "Exceeds the limit for integer string conversion").

Definition no_save : BusinessConsultantOrchestrator -> FullReport -> M string :=
  fun _ _ => ret "outputs/business_report.md".

Definition example_client : ClientInput :=
  mkClientInput "B2B SaaS for logistics" "Logistics" "Increase ARR" "Bootstrapped" None.

(** ** Concrete inputs *)

(** A text whose first balanced substring nests braces two levels deep. *)
Definition nested_text : string := qq "x {'a': {'b': {'c': 1}}} y".
Definition nested_object : string := qq "{'a': {'b': {'c': 1}}}".

(** The same with one level of inner braces only. *)
Definition nested_once_text : string := qq "x {'a': {'b': 1}} y".

(** What [extract_json] is documented to return: a dictionary or [None]. *)
Definition is_dict_or_None (v : value) : bool :=
  match v with
  | VDict _ | VNone => true
  | _ => false
  end.

(** The mapping [{"risks": "single risk text"}]. *)
Definition single_risk_mapping : dict := [("risks", VStr "single risk text")].
Definition single_risk_text : string := qq "{'risks': 'single risk text'}".

(** A finance mapping that has a pricing strategy and nothing else. *)
Definition incomplete_finance : dict := [("pricing_strategy", VStr "Freemium")].

(** A Finance artifact that carries an ROI entry. *)
Definition finance_with_roi : FinancialModel :=
  mkFinancialModel [] "Tiered pricing" [] [] [("roi", VStr "25%")] [].

(** A mapping whose only defect is a scalar where a list of strings is
    expected, which the repair step mends. *)
Definition repairable_risk_mapping : dict :=
  [ ("risks", VList []); ("mitigations", VList []);
    ("compliance_flags", VStr "GDPR"); ("legal_considerations", VList []) ].

(** ** Vocabulary of the properties *)

(** [c], run in the world [w], returns normally, with a result and a world
    that satisfy [P]. *)
Definition returns {A} (c : M A) (w : World) (P : A -> World -> Prop) : Prop :=
  exists a w', c w = (Ok a, w') /\ P a w'.

(** Ill-formed model output: text that [json.loads] does not parse. *)
Definition ill_formed (py : Interpreter) (text : string) : Prop :=
  forall v, Json.loads py (strip text) <> Ok v.

(** The generation client answers every request of the world [w] with
    ill-formed text (and so never fails in transport). *)
Definition always_ill_formed (py : Interpreter) (w : World) : Prop :=
  forall n call, exists text, backend w n call = Ok text /\ ill_formed py text.

(** The generation client answers every request with a text on which the
    extractor returns, whatever it finds. *)
Definition always_extractable (py : Interpreter) (w : World) : Prop :=
  forall n call,
    exists text v, backend w n call = Ok text /\ extract_json py text = Ok v.

(** [e] is what [json.loads] raises at a limit of the interpreter: the
    nesting it can enter, the digits of an integer it converts. *)
Definition interpreter_limit (py : Interpreter) (e : exn) : Prop :=
  e = RecursionError \/ exists count, e = ValueError (int_too_long py count).

(** More opening brackets than the decoder may enter. *)
Definition too_deep (py : Interpreter) : string := times "[" (S (recursion_limit py)).

(** Text around an object whose one integer has 4301 digits, one more than
    [cpython] converts. *)
Definition long_integer_text : string :=
  "x " ++ qq "{'a': " ++ times "1" 4301 ++ "} y".

(** All seven sections of the stitcher are set, to the sections of [r]. *)
Definition holds_report (s : Sections) (r : FullReport) : Prop :=
  s = mkSections (Some (discovery r)) (Some (market_analysis r)) (Some (strategy r))
        (Some (execution_plan r)) (Some (financial_model r)) (Some (risk_analysis r))
        (Some (kpi_dashboard r)).


(** ** Vocabulary of the further properties *)

(** What a computation does in the world [w]: [Q] of its result and world
    when it returns, [E] of the exception and world when it raises. *)
Definition outcome {A} (c : M A) (w : World)
    (Q : A -> World -> Prop) (E : exn -> World -> Prop) : Prop :=
  match c w with
  | (Ok a, w') => Q a w'
  | (Raise e, w') => E e w'
  end.

(** [wc] is [w] after the generation requests [made], in this order, and
    after some output: same backend, same input left, same clock. *)
Definition reached (w : World) (made : list LLMCall) (wc : World) : Prop :=
  backend wc = backend w /\ stdin wc = stdin w /\ clock wc = clock w
  /\ llm_calls wc = (llm_calls w ++ made)%list.

(** [e] is what the backend answered to the last request made since [w]. *)
Definition transport_failure (w : World) (e : exn) (w' : World) : Prop :=
  exists made call,
    llm_calls w' = (llm_calls w ++ made ++ [call])%list
    /\ backend w (List.length (llm_calls w ++ made)%list) call = Raise e.

(** [e] is what the extractor raised on the answer to the last request made
    since [w]. *)
Definition decoding_failure (py : Interpreter) (w : World) (e : exn) (w' : World) : Prop :=
  exists made call text,
    llm_calls w' = (llm_calls w ++ made ++ [call])%list
    /\ backend w (List.length (llm_calls w ++ made)%list) call = Ok text
    /\ extract_json py text = Raise e.

(** The six requests behind a report, each with the prompt its stage builds
    from the client input and the sections that came before. *)
Definition requests_of (client_input : ClientInput) (r : FullReport) : list LLMCall :=
  [ mkCall (discovery_prompt client_input) discovery_system_prompt true;
    mkCall (market_prompt client_input (discovery r)) market_system_prompt true;
    mkCall (strategy_prompt client_input (discovery r) (market_analysis r))
      strategy_system_prompt true;
    mkCall (ops_prompt client_input (strategy r)) ops_system_prompt true;
    mkCall (finance_prompt client_input (discovery r) (strategy r))
      finance_system_prompt true;
    mkCall (risk_prompt client_input (discovery r) (strategy r))
      risk_system_prompt true ].

(** A world whose generation backend fails on every request. *)
Definition down_world (lines : list string) : World :=
  mkWorld (map Line lines) [] (fun _ _ => Raise (BackendError "connection refused")) [] 0.

(** The sections a report holds, as the stitcher stores them. *)
Definition sections_of (r : FullReport) : Sections :=
  mkSections (Some (discovery r)) (Some (market_analysis r)) (Some (strategy r))
    (Some (execution_plan r)) (Some (financial_model r)) (Some (risk_analysis r))
    (Some (kpi_dashboard r)).

(** The request the discovery stage makes for a client input. *)
Definition discovery_call (client_input : ClientInput) : LLMCall :=
  mkCall (discovery_prompt client_input) discovery_system_prompt true.

(** Five well-formed answers at the prompts of [get_client_input]. *)
Definition valid_lines : list string :=
  ["Acme Freight"; "Logistics"; "Increase ARR"; "Bootstrapped"; ""].

(** The world after one generation request and the output [out]. *)
Definition after_request (w : World) (call : LLMCall) (out : list output) : World :=
  mkWorld (stdin w) (stdout w ++ out)%list (backend w) (llm_calls w ++ [call])%list (clock w).

(** The artifacts the stages build by hand when validation raises. *)
Definition minimal_discovery (client_input : ClientInput) : DiscoveryOutput :=
  mkDiscoveryOutput (goal client_input) []
    [business client_input; industry client_input] []
    (business client_input) "To be determined".

(** The artifacts the stages validate from their fallback mappings. *)
Definition fallback_discovery (text : string) : DiscoveryOutput :=
  mkDiscoveryOutput
    (if String.eqb text "" then "Problem to be clarified" else slice_to 200 text)
    []
    (if String.eqb text "" then [] else [text])
    []
    "To be determined" "To be determined".

Definition fallback_market (client_input : ClientInput) (discovery : DiscoveryOutput)
  : MarketAnalysis :=
  mkMarketAnalysis [] []
    [ "Focus on " ++ industry client_input ++ " expertise";
      "Leverage unique business model" ]
    ("Position as a " ++ business_model discovery ++ " in " ++ industry client_input)
    (Some "To be researched")
    [].

Definition fallback_strategy (client_input : ClientInput) (discovery : DiscoveryOutput)
  : StrategyOutput :=
  mkStrategyOutput
    [ [ ("name", VStr "Primary Strategy");
        ("description", VStr ("Focus on " ++ goal client_input));
        ("pros", strs ["Aligned with goals"]);
        ("cons", strs ["Requires resources"]);
        ("feasibility", VStr "medium");
        ("impact", VStr "high") ] ]
    []
    ("Implement strategy to achieve " ++ goal client_input)
    ("Addresses " ++ problem_statement discovery)
    ["Goal achievement"; "Progress tracking"].

Definition fallback_task (what owner priority : string) : list (string * string) :=
  [("task", what); ("owner", owner); ("priority", priority); ("status", "not_started")].

Definition fallback_execution : ExecutionPlan :=
  mkExecutionPlan
    [fallback_task "Initiate strategy implementation" "Leadership team" "high"]
    [fallback_task "Execute key initiatives" "Operations team" "high"]
    [fallback_task "Review progress and adjust" "Leadership team" "medium"]
    ["Streamline operations"; "Improve efficiency"]
    ["Align team structure with strategy"]
    [ ("people", VStr "To be determined");
      ("budget", VStr "To be determined");
      ("tools", VList []) ].

Definition as_dict (v : value) : dict :=
  match v with VDict d => d | _ => [] end.

Definition fallback_finance : FinancialModel :=
  mkFinancialModel
    (as_dict (get_or "unit_economics" VNone FinanceAgent_parse_fallback))
    "Competitive pricing based on market analysis"
    (as_dict (get_or "revenue_projections" VNone FinanceAgent_parse_fallback))
    (as_dict (get_or "cost_structure" VNone FinanceAgent_parse_fallback))
    (as_dict (get_or "roi_model" VNone FinanceAgent_parse_fallback))
    (as_dict (get_or "break_even_analysis" VNone FinanceAgent_parse_fallback)).

Definition fallback_risk (client_input : ClientInput) : RiskAnalysis :=
  mkRiskAnalysis
    [ [ ("category", VStr "Strategic");
        ("description", VStr "Strategy execution risk");
        ("severity", VStr "medium");
        ("likelihood", VStr "medium");
        ("impact", VStr "May affect goal achievement") ] ]
    [ [ ("risk_id", VStr "Strategy execution risk");
        ("strategy", VStr "Regular monitoring and adjustment");
        ("owner", VStr "Leadership team");
        ("timeline", VStr "Ongoing") ] ]
    [ "Industry-specific regulations for " ++ industry client_input;
      "Data privacy and security requirements" ]
    [ "Contractual obligations"; "Regulatory compliance";
      "Intellectual property protection" ].

(** The annotations [schemas.py] gives to the fields of its models. *)
Definition schema_annotations : list annotation :=
  [ t_str; t_List t_str; t_List (t_Dict t_Any); t_List (t_Dict t_str);
    t_Dict t_Any; t_Optional t_str ].

Definition uses_schema_annotations (fs : Fields) : Prop :=
  Forall (fun f => In (f_annotation (snd f)) schema_annotations) fs.

(** What the second loop of [_fix_common_issues] leaves under the key of a
    list field that held [v]. *)
Definition as_list (v : value) : value :=
  if isinstance_list v then v else if truthy v then VList [v] else VList [].

(** A list of keys extends another by keys taken from [names]. *)
Definition extends_by (names new old : list string) : Prop :=
  exists added, new = (old ++ added)%list /\ incl added names.

(** The seven models of [schemas.py] that the validator is used with. *)
Definition stage_schemas : list Fields :=
  [ DiscoveryOutput_fields; MarketAnalysis_fields; StrategyOutput_fields;
    ExecutionPlan_fields; FinancialModel_fields; RiskAnalysis_fields; KPIMetrics_fields ].

(** [model_dump()] of one validated field: the value validation started
    from, for the values of this model. *)
Fixpoint dump (a : annotation) : denote a -> value :=
  match a return denote a -> value with
  | t_str => VStr
  | t_Any => fun v => v
  | t_NoneType => fun _ => VNone
  | t_List x => fun l => VList (map (dump x) l)
  | t_Dict x => fun d => VDict (map (fun kv => (fst kv, dump x (snd kv))) d)
  | t_Optional x => fun o => match o with Some y => dump x y | None => VNone end
  end.

Fixpoint dump_fields (fs : Fields) : fields_type fs -> dict :=
  match fs return fields_type fs -> dict with
  | [] => fun _ => []
  | f :: r => fun t => (fst f, dump (f_annotation (snd f)) (fst t)) :: dump_fields r (snd t)
  end.

(** Annotations whose values survive [model_dump] and validation: an
    optional field must not wrap a type that dumps to [None]. *)
Fixpoint round_trips (a : annotation) : bool :=
  match a with
  | t_str | t_Any | t_NoneType => true
  | t_List x | t_Dict x => round_trips x
  | t_Optional x =>
      round_trips x
      && match x with t_str | t_List _ | t_Dict _ => true | _ => false end
  end.

(** [x.model_dump()] for the models of [schemas.py]: the fields in the
    order of their declaration. *)
Definition DiscoveryOutput_model_dump (x : DiscoveryOutput) : dict :=
  [ ("problem_statement", dump t_str (problem_statement x));
    ("key_assumptions", dump (t_List t_str) (key_assumptions x));
    ("facts_gathered", dump (t_List t_str) (facts_gathered x));
    ("questions_clarified", dump (t_List t_str) (questions_clarified x));
    ("business_model", dump t_str (business_model x));
    ("target_market", dump t_str (target_market x)) ].

Definition MarketAnalysis_model_dump (x : MarketAnalysis) : dict :=
  [ ("competitors", dump (t_List (t_Dict t_Any)) (competitors x));
    ("competitor_map", dump (t_Dict t_Any) (competitor_map x));
    ("differentiation_opportunities", dump (t_List t_str) (differentiation_opportunities x));
    ("positioning_strategy", dump t_str (positioning_strategy x));
    ("market_size", dump (t_Optional t_str) (market_size x));
    ("market_trends", dump (t_List t_str) (market_trends x)) ].

Definition StrategyOutput_model_dump (x : StrategyOutput) : dict :=
  [ ("strategic_options", dump (t_List (t_Dict t_Any)) (strategic_options x));
    ("tradeoffs", dump (t_Dict t_Any) (tradeoffs x));
    ("recommendation", dump t_str (recommendation x));
    ("rationale", dump t_str (rationale x));
    ("success_metrics", dump (t_List t_str) (success_metrics x)) ].

Definition ExecutionPlan_model_dump (x : ExecutionPlan) : dict :=
  [ ("plan_30_days", dump (t_List (t_Dict t_str)) (plan_30_days x));
    ("plan_60_days", dump (t_List (t_Dict t_str)) (plan_60_days x));
    ("plan_90_days", dump (t_List (t_Dict t_str)) (plan_90_days x));
    ("process_improvements", dump (t_List t_str) (process_improvements x));
    ("org_changes", dump (t_List t_str) (org_changes x));
    ("resource_requirements", dump (t_Dict t_Any) (resource_requirements x)) ].

Definition FinancialModel_model_dump (x : FinancialModel) : dict :=
  [ ("unit_economics", dump (t_Dict t_Any) (unit_economics x));
    ("pricing_strategy", dump t_str (pricing_strategy x));
    ("revenue_projections", dump (t_Dict t_Any) (revenue_projections x));
    ("cost_structure", dump (t_Dict t_Any) (cost_structure x));
    ("roi_model", dump (t_Dict t_Any) (roi_model x));
    ("break_even_analysis", dump (t_Dict t_Any) (break_even_analysis x)) ].

Definition RiskAnalysis_model_dump (x : RiskAnalysis) : dict :=
  [ ("risks", dump (t_List (t_Dict t_Any)) (risks x));
    ("mitigations", dump (t_List (t_Dict t_Any)) (mitigations x));
    ("compliance_flags", dump (t_List t_str) (compliance_flags x));
    ("legal_considerations", dump (t_List t_str) (legal_considerations x)) ].

Definition KPIMetrics_model_dump (x : KPIMetrics) : dict :=
  [ ("revenue_metrics", dump (t_Dict t_Any) (revenue_metrics x));
    ("operational_metrics", dump (t_Dict t_Any) (operational_metrics x));
    ("customer_metrics", dump (t_Dict t_Any) (customer_metrics x));
    ("financial_metrics", dump (t_Dict t_Any) (financial_metrics x));
    ("targets", dump (t_Dict t_Any) (targets x)) ].

Section Rendering.

Variable py : Interpreter.

(** [datetime.isoformat()], left open. *)
Variable isoformat : Z -> string.

(** [ReportStitcher.to_dict()].  Each section is written as
    [x.model_dump() if x else {}]; a model instance is always truthy, so
    the dump is what the entry holds. *)
Definition to_dict (self : ReportStitcher) : M dict :=
  report <- build_full_report py self ;;
  ret [ ("executive_summary", VStr (executive_summary report));
        ("discovery", VDict (DiscoveryOutput_model_dump (discovery report)));
        ("market_analysis", VDict (MarketAnalysis_model_dump (market_analysis report)));
        ("strategy", VDict (StrategyOutput_model_dump (strategy report)));
        ("execution_plan", VDict (ExecutionPlan_model_dump (execution_plan report)));
        ("financial_model", VDict (FinancialModel_model_dump (financial_model report)));
        ("risk_analysis", VDict (RiskAnalysis_model_dump (risk_analysis report)));
        ("kpi_dashboard", VDict (KPIMetrics_model_dump (kpi_dashboard report)));
        ("generated_at", VStr (isoformat (generated_at report))) ].

End Rendering.

(** A stand-in for [isoformat] in the concrete runs. *)
Definition no_isoformat : Z -> string := fun _ => "<time>".

(** The text opens with a brace. *)
Definition opens_object (s : string) : Prop := exists r, s = String "{"%char r.

Section Display.

Variable py : Interpreter.

(** [f"- **{key}**: {value}"] *)
Definition metric_line (kv : string * value) : string :=
  "- **" ++ fst kv ++ "**: " ++ py_str py (snd kv).

(** The list [lines] of [format_metrics_for_display] before it is joined:
    the title, then for each non-empty group its heading and one line for
    each entry; an empty line closes every group but the last. *)
Definition format_metrics_lines (kpi : KPIMetrics) : list string :=
  let lines := ["# KPI Dashboard" ++ nl] in
  let lines :=
    if nonempty (revenue_metrics kpi) then
      (lines ++ ["## Revenue Metrics"] ++ map metric_line (revenue_metrics kpi) ++ [""])%list
    else lines in
  let lines :=
    if nonempty (operational_metrics kpi) then
      (lines ++ ["## Operational Metrics"] ++ map metric_line (operational_metrics kpi)
         ++ [""])%list
    else lines in
  let lines :=
    if nonempty (financial_metrics kpi) then
      (lines ++ ["## Financial Metrics"] ++ map metric_line (financial_metrics kpi) ++ [""])%list
    else lines in
  let lines :=
    if nonempty (targets kpi) then
      (lines ++ ["## Target Metrics"] ++ map metric_line (targets kpi))%list
    else lines in
  lines.

(** [KPIGenerator.format_metrics_for_display(kpi)] *)
Definition format_metrics_for_display (self : KPIGenerator) (kpi : KPIMetrics) : string :=
  join nl (format_metrics_lines kpi).

End Display.

(** A line of the display that shows a metric. *)
Definition is_metric_line (line : string) : bool :=
  match strip_prefix "- **" line with Some _ => true | None => false end.

(** [re.search(r, text)]: the match at the leftmost position that has
    one. *)
Fixpoint search {A} (at_start : string -> option A) (s : string) : option A :=
  match at_start s with
  | Some x => Some x
  | None =>
      match s with
      | EmptyString => None
      | String _ s' => search at_start s'
      end
  end.

(** The pattern of [generate_json] with [re.DOTALL], at the start of [s]: an
    opening brace, as many characters as possible, a closing brace; the
    matched text. *)
Definition object_span (s : string) : option string :=
  Re.m (Re.Seq Re.lbrace (Re.Seq (Re.Star true (Re.Chr Re.any)) Re.rbrace)) s
    (fun s' => Some (consumed s s')).

(** The first success of [k] on the suffixes of [s], the shortest first:
    what a greedy [.*] followed by [k] finds. *)
Fixpoint from_the_end {A} (k : string -> option A) (s : string) : option A :=
  match s with
  | EmptyString => k s
  | String _ s' => Re.or_else (from_the_end k s') (k s)
  end.

(** What follows the [.*] of [object_span] in the text [whole]: a closing
    brace, which ends the match. *)
Definition closing_brace (whole s : string) : option string :=
  Re.m Re.rbrace s (fun s' => Some (consumed whole s')).

Section GenerateJson.

Variable py : Interpreter.

(** [json.dumps(schema, indent=2)], left open. *)
Variable json_dumps : value -> string.

(** The prompt that is sent: the schema, when one is given, follows it. *)
Definition with_schema (prompt : string) (schema : value) : string :=
  if truthy schema then
    let schema_prompt :=
      nl ++ nl ++ "Please respond in JSON format matching this schema:" ++ nl
      ++ json_dumps schema in
    prompt ++ schema_prompt
  else prompt.

(** [QwenLLM.generate_json(prompt, system_prompt, schema)].  The handler
    catches [JSONDecodeError] only, and nothing surrounds the second
    [json.loads]. *)
Definition generate_json (prompt system_prompt : string) (schema : value) : M value :=
  let prompt := with_schema prompt schema in
  response <- generate prompt system_prompt true ;;
  try_except (lift (Json.loads py response)) is_JSONDecodeError
    (fun _ =>
       (* Try to extract JSON from response *)
       match search object_span response with
       | Some group => lift (Json.loads py group)
       | None =>
           raise (ValueError ("Could not parse JSON from response: "
                              ++ slice_to 200 response))
       end).

End GenerateJson.

(** [c in s] for a character. *)
Fixpoint contains (c : ascii) (s : string) : bool :=
  match s with
  | EmptyString => false
  | String a r => Ascii.eqb c a || contains c r
  end.

Definition no_dumps : value -> string := fun _ => "{}".

(** [re.sub(pattern, repl, text)] for a pattern that never matches the
    empty string: the text with every non-overlapping match, from left to
    right, replaced.  [at_start] says, from the text at a match's start,
    what takes the place of the match and where the text goes on. *)
Fixpoint sub_from (at_start : string -> option (string * string))
         (fuel : nat) (s : string) : string :=
  match fuel with
  | O => s
  | S fuel' =>
      let skip_one :=
        match s with
        | EmptyString => EmptyString
        | String c s' => String c (sub_from at_start fuel' s')
        end in
      match at_start s with
      | Some (repl, rest) =>
          if (String.length rest <? String.length s)%nat
          then repl ++ sub_from at_start fuel' rest
          else repl ++ skip_one
      | None => skip_one
      end
  end.

Definition sub (at_start : string -> option (string * string)) (s : string) : string :=
  sub_from at_start (S (String.length s)) s.

(** A comma, white space, and the closing character; the closing character
    replaces the match. *)
Definition trailing_comma (closing : ascii) (s : string) : option (string * string) :=
  Re.m (Re.Seq (Re.Chr (Ascii.eqb ","%char)) (Re.Seq Re.ws (Re.Chr (Ascii.eqb closing)))) s
    (fun rest => Some (String closing "", rest)).

Definition not_squote (c : ascii) : bool := negb (Ascii.eqb c squote).

(** A single quote, characters other than the single quote (group 1), a
    single quote; group 1 between double quotes replaces the match. *)
Definition single_quoted (s : string) : option (string * string) :=
  Re.m (Re.Chr (Ascii.eqb squote)) s
    (fun s1 =>
       Re.m (Re.Star true (Re.Chr not_squote)) s1
         (fun s2 =>
            Re.m (Re.Chr (Ascii.eqb squote)) s2
              (fun rest =>
                 Some (String dquote (consumed s1 s2 ++ String dquote ""), rest)))).

Definition not_newline (c : ascii) : bool := negb (Ascii.eqb c LF).

(** [$] with [re.MULTILINE]: at the end of the text and before a newline. *)
Definition at_line_end (s : string) : bool :=
  match s with
  | EmptyString => true
  | String c _ => Ascii.eqb c LF
  end.

(** Two slashes and as few characters as possible, none a newline, up to
    the end of a line; nothing replaces the match. *)
Definition line_comment (s : string) : option (string * string) :=
  Re.m (Re.Seq (Re.lit "//") (Re.Star false (Re.Chr not_newline))) s
    (fun rest => if at_line_end rest then Some ("", rest) else None).

(** A slash and a star, as few characters as possible, a star and a slash;
    nothing replaces the match. *)
Definition block_comment (s : string) : option (string * string) :=
  Re.m (Re.Seq (Re.lit "/*") (Re.Seq (Re.Star false (Re.Chr Re.any)) (Re.lit "*/"))) s
    (fun rest => Some ("", rest)).

(** [clean_json_string(json_str)] *)
Definition clean_json_string (json_str : string) : string :=
  (* Remove trailing commas *)
  let json_str := sub (trailing_comma "}"%char) json_str in
  let json_str := sub (trailing_comma "]"%char) json_str in
  (* Fix single quotes to double quotes *)
  let json_str := sub single_quoted json_str in
  (* Remove comments *)
  let json_str := sub line_comment json_str in
  let json_str := sub block_comment json_str in
  json_str.

(** Every character of [s] satisfies [p]. *)
Fixpoint all_chars (p : ascii -> bool) (s : string) : bool :=
  match s with
  | EmptyString => true
  | String c r => p c && all_chars p r
  end.

(** None of the three characters that open a pattern of
    [clean_json_string] occurs in [s]. *)
Definition plain_text (s : string) : bool :=
  negb (contains ","%char s || contains squote s || contains "/"%char s).

(** The three lines [main] prints before the pipeline starts. *)
Definition announced (w : World) : World :=
  mkWorld (stdin w)
    (stdout w ++ [Printed (nl ++ rule); Printed "Generating Business Report...";
                  Printed (rule ++ nl)])%list
    (backend w) (llm_calls w) (clock w).

(** The lines [main] prints after the report is saved at [report_path]. *)
Definition closing_lines (report_path : string) : list output :=
  [ Printed (nl ++ rule);
    Printed "Report Generation Complete!";
    Printed rule;
    Printed (nl ++ "Report saved to: " ++ report_path);
    Printed "Report includes:";
    Printed "  - Executive Summary";
    Printed "  - Discovery Analysis";
    Printed "  - Market & Competitor Analysis";
    Printed "  - Strategic Recommendations";
    Printed "  - 30/60/90 Day Execution Plan";
    Printed "  - Financial Model & ROI Analysis";
    Printed "  - Risk Analysis & Mitigations";
    Printed "  - KPI Dashboard";
    Printed nl ].

(** A full answer of the model at the discovery stage. *)
Definition discovery_answer : string :=
  qq "{'problem_statement': 'Churn is high', 'key_assumptions': ['Users leave early'], 'facts_gathered': [], 'questions_clarified': [], 'business_model': 'SaaS', 'target_market': 'Freight forwarders'}".

(* ===================================================================== *)
(** * Properties                                                           *)
(* ===================================================================== *)

(** ** Validation of what the program itself builds *)

Lemma traverse_on_snd_id {A} (f : A -> option A) (d : list (string * A)) :
  (forall v, f v = Some v) -> traverse (on_snd f) d = Some d.
Proof.
  intros Hf. induction d as [| [k v] d IH]; cbn [traverse]; [reflexivity |].
  rewrite IH. unfold on_snd; cbn [fst snd]. rewrite Hf. reflexivity.
Qed.

Lemma validate_dict_any (d : dict) :
  validate (t_Dict t_Any) (VDict d) = Some d.
Proof. cbn [validate]. apply traverse_on_snd_id. reflexivity. Qed.

Lemma validate_list_str (l : list string) :
  validate (t_List t_str) (strs l) = Some l.
Proof.
  unfold strs; simpl.
  induction l as [| s l IH]; simpl; [reflexivity |].
  rewrite IH. reflexivity.
Qed.

(** [KPIMetrics(...)] accepts any five dictionaries. *)
Lemma KPIMetrics_new (rev ops cus fin tg : dict) :
  model_new KPIMetrics
    [ ("revenue_metrics", VDict rev); ("operational_metrics", VDict ops);
      ("customer_metrics", VDict cus); ("financial_metrics", VDict fin);
      ("targets", VDict tg) ]
  = Ok (mkKPIMetrics rev ops cus fin tg).
Proof.
  unfold model_new. cbn [model_fields KPIMetrics_model KPIMetrics_fields construct fst snd].
  cbn [Dict.get String.eqb Ascii.eqb Bool.eqb].
  unfold field_value, required; cbn [f_annotation f_default f_default_factory].
  rewrite !validate_dict_any. reflexivity.
Qed.

(** The five mappings of the metrics, as functions of the three artifacts. *)
Lemma generate_from_agents_kpi (self : KPIGenerator)
    (financial : option FinancialModel) (strategy : option StrategyOutput)
    (execution : option ExecutionPlan) :
  exists rev ops fin tg,
    generate_from_agents self financial strategy execution
    = Ok (mkKPIMetrics rev ops [] fin tg)
    /\ (financial = None -> rev = [] /\ fin = [])
    /\ (strategy = None -> tg = [])
    /\ (execution = None -> ops = []).
Proof.
  unfold generate_from_agents.
  destruct financial as [f |], strategy as [s |], execution as [e |];
    rewrite KPIMetrics_new; do 4 eexists; (split; [reflexivity |]);
    repeat split; intros; try discriminate; reflexivity.
Qed.

(** ** The extractor *)

(** C3 (the code departs from the claim).  On a text that is no parseable
    literal and has no fenced block, and whose first balanced substring
    nests braces two levels deep, the third step does not return the mapping
    parsed from that substring: its pattern allows one level of inner braces
    only, so it matches, and returns, the inner object.  With one level of
    inner braces the whole object is returned.  This is so under every
    interpreter that lets [json.loads] enter the three levels of the
    example. *)
Theorem C3_third_step_misses_deeper_nesting (py : Interpreter) :
  3 <= recursion_limit py ->
  Json.loads py (strip nested_text) = Raise JSONDecodeError
  /\ Re.findall json_block_pattern nested_text = []
  /\ spec_first_balanced nested_text = Some nested_object
  /\ Json.loads py nested_object
     = Ok (VDict [("a", VDict [("b", VDict [("c", VInt 1)])])])
  /\ Re.findall json_pattern nested_text = [qq "{'b': {'c': 1}}"]
  /\ extract_json py nested_text = Ok (VDict [("b", VDict [("c", VInt 1)])])
  /\ extract_json py nested_once_text = Ok (VDict [("a", VDict [("b", VInt 1)])]).
Proof.
  destruct py as [str [| [| [| depth]]] digits message]; cbn [recursion_limit]; try lia.
  intros _. vm_compute. repeat split.
Qed.

Lemma C3_witness :
  extract_json cpython nested_text = Ok (VDict [("b", VDict [("c", VInt 1)])]).
Proof.
  apply (C3_third_step_misses_deeper_nesting cpython). cbn. lia.
Defined.

(** C8 (the code departs from the claim).  The extractor returns whatever
    [json.loads] returns: on the text of a JSON array it returns a list,
    which is neither a dictionary nor [None] (under every interpreter that
    lets [json.loads] enter one array). *)
Theorem C8_extractor_returns_a_list (py : Interpreter) :
  1 <= recursion_limit py ->
  extract_json py "[1, 2]" = Ok (VList [VInt 1; VInt 2])
  /\ is_dict_or_None (VList [VInt 1; VInt 2]) = false.
Proof.
  destruct py as [str [| depth] digits message]; cbn [recursion_limit]; try lia.
  intros _. vm_compute. split; reflexivity.
Qed.

Lemma C8_witness :
  extract_json cpython "[1, 2]" = Ok (VList [VInt 1; VInt 2]).
Proof.
  apply (C8_extractor_returns_a_list cpython). cbn. lia.
Defined.

(** ** Metrics *)

(** C7.  The metrics are a function of the three artifacts alone: the state
    of the generator plays no part, the call always returns (validation of
    the five mappings cannot fail), it leaves the world as it is, so no
    generation request is made, and an absent artifact contributes empty
    mappings. *)
Theorem C7_metrics_are_a_pure_function (self1 self2 : KPIGenerator) (w : World)
    (financial : option FinancialModel) (strategy : option StrategyOutput)
    (execution : option ExecutionPlan) :
  generate_from_agents self1 financial strategy execution
  = generate_from_agents self2 financial strategy execution
  /\ (exists kpi, generate_from_agents self1 financial strategy execution = Ok kpi)
  /\ snd (lift (generate_from_agents self1 financial strategy execution) w) = w
  /\ (exists ops tg,
         generate_from_agents self1 None strategy execution
         = Ok (mkKPIMetrics [] ops [] [] tg))
  /\ (exists rev ops fin,
         generate_from_agents self1 financial None execution
         = Ok (mkKPIMetrics rev ops [] fin []))
  /\ (exists rev fin tg,
         generate_from_agents self1 financial strategy None
         = Ok (mkKPIMetrics rev [] [] fin tg)).
Proof.
  split; [reflexivity |].
  split.
  { destruct (generate_from_agents_kpi self1 financial strategy execution)
      as (rev & ops & fin & tg & E & _). eexists; exact E. }
  split; [reflexivity |].
  split.
  { destruct (generate_from_agents_kpi self1 None strategy execution)
      as (rev & ops & fin & tg & E & Hf & _).
    destruct (Hf eq_refl) as [-> ->]. do 2 eexists; exact E. }
  split.
  { destruct (generate_from_agents_kpi self1 financial None execution)
      as (rev & ops & fin & tg & E & _ & Hs & _).
    rewrite (Hs eq_refl) in E. do 3 eexists; exact E. }
  destruct (generate_from_agents_kpi self1 financial strategy None)
    as (rev & ops & fin & tg & E & _ & _ & He).
  rewrite (He eq_refl) in E. do 3 eexists; exact E.
Qed.

(** C10.  Whatever the three arguments are, the call returns metrics whose
    [customer_metrics] is the empty mapping. *)
Theorem C10_customer_metrics_empty (self : KPIGenerator)
    (financial : option FinancialModel) (strategy : option StrategyOutput)
    (execution : option ExecutionPlan) :
  exists kpi,
    generate_from_agents self financial strategy execution = Ok kpi
    /\ customer_metrics kpi = [].
Proof.
  destruct (generate_from_agents_kpi self financial strategy execution)
    as (rev & ops & fin & tg & E & _).
  eexists; split; [exact E | reflexivity].
Qed.

(** ** Executive summary *)

(** C6 (the code departs from the claim).  The ROI line is written only
    when the key "roi_model" occurs inside the [roi_model] mapping itself;
    an ROI entry under "roi" does not count.  A Finance artifact that
    carries an ROI entry therefore contributes nothing to the summary. *)
Theorem C6_roi_entry_is_left_out (py : Interpreter) :
  Dict.get "roi" (roi_model finance_with_roi) = Some (VStr "25%")
  /\ generate_executive_summary py
       (add_financial_model (mkReportStitcher no_sections) finance_with_roi) = ""
  /\ (forall st f,
        roi_part py (sections (add_financial_model st f))
        = if Dict.mem "roi_model" (roi_model f)
          then ["**Expected ROI**: "
                  ++ py_str py (get_or "roi" (VStr "N/A") (roi_model f))]
          else []).
Proof.
  split; [reflexivity |]. split; [reflexivity |].
  intros st f. reflexivity.
Qed.

(** ** The validator *)

Section ValidatorFacts.

Variable py : Interpreter.
Context {T : Type} `{BaseModel T}.

Lemma model_new_raises (kw : dict) (e : exn) :
  model_new T kw = Raise e -> e = ValidationError.
Proof.
  unfold model_new. destruct (construct (model_fields T) kw); congruence.
Qed.

Lemma call_schema_raises (data : value) (e : exn) :
  call_schema T data = Raise e -> is_Exception e = true.
Proof.
  destruct data; simpl; try (intros [= <-]; reflexivity).
  intros E. apply model_new_raises in E. subst e. reflexivity.
Qed.

Lemma convert_field_raises (fixed : dict) (f : string * FieldInfo) (e : exn) :
  convert_field py fixed f = Raise e -> e = TypeError.
Proof.
  unfold convert_field. destruct f as [name fi].
  destruct (Dict.get name fixed); [| discriminate].
  destruct (origin_of (f_annotation fi)); [| discriminate].
  destruct (existsb is_NoneType (args_of (f_annotation fi))); [| discriminate].
  destruct (filter _ _) as [| a ?]; [discriminate |].
  unfold isinstance.
  destruct a; try congruence;
    match goal with |- context [if ?b then _ else _] => destruct b end; discriminate.
Qed.

Lemma convert_fields_raises (fs : Fields) (fixed : dict) (e : exn) :
  convert_fields py fixed fs = Raise e -> e = TypeError.
Proof.
  revert fixed. induction fs as [| f fs IH]; intros fixed; simpl; [discriminate |].
  destruct (convert_field py fixed f) eqn:E.
  - apply IH.
  - intros [= <-]. eapply convert_field_raises; eassumption.
Qed.

Lemma fix_common_issues_raises (kw : dict) (e : exn) :
  _fix_common_issues py T kw = Raise e -> e = TypeError.
Proof. unfold _fix_common_issues. apply convert_fields_raises. Qed.

(** The validator on a dictionary, attempt by attempt. *)
Lemma validate_and_fix_json_dict (kw : dict) (w : World) :
  validate_and_fix_json py T (VDict kw) false w =
  match model_new T kw with
  | Ok x => (Ok x, w)
  | Raise _ =>
      match _fix_common_issues py T kw with
      | Raise e => (Raise e, w)
      | Ok fixed =>
          match model_new T fixed with
          | Ok x => (Ok x, w)
          | Raise _ =>
              lift (model_new T (filter (fun kv => Dict.mem (fst kv) (model_fields T)) kw))
                (snd (print_exn "Warning: Could not fully validate data: " ValidationError w))
          end
      end
  end.
Proof.
  unfold validate_and_fix_json, try_except, lift, bind; cbn [call_schema].
  destruct (model_new T kw) as [x | e] eqn:E1; [reflexivity |].
  apply model_new_raises in E1; subst e; cbn [is_ValidationError].
  destruct (_fix_common_issues py T kw) as [fixed | e]; [| reflexivity].
  destruct (model_new T fixed) as [x | e] eqn:E2; [reflexivity |].
  apply model_new_raises in E2; subst e; cbn [is_ValidationError].
  reflexivity.
Qed.

(** Keyword arguments that name no field play no part in construction, so
    dropping them changes nothing: the last attempt of the validator, made
    on the first mapping without such arguments, fails as the first did. *)
Lemma get_known_field {A} (fs : Fields) (name : string) (kw : list (string * A)) :
  Dict.mem name fs = true ->
  Dict.get name (filter (fun kv => Dict.mem (fst kv) fs) kw) = Dict.get name kw.
Proof.
  intros Hname. induction kw as [| [k v] kw IH]; [reflexivity |].
  cbn [filter fst]. destruct (Dict.mem k fs) eqn:Hk; cbn [Dict.get].
  - rewrite IH. reflexivity.
  - destruct (String.eqb name k) eqn:Enk; [| exact IH].
    apply String.eqb_eq in Enk. subst k. congruence.
Qed.

Lemma construct_known_fields (fs known : Fields) (kw : dict) :
  (forall f, In f fs -> Dict.mem (fst f) known = true) ->
  construct fs (filter (fun kv => Dict.mem (fst kv) known) kw) = construct fs kw.
Proof.
  induction fs as [| f fs IH]; intros Hin; [reflexivity |].
  cbn [construct]. rewrite (get_known_field known (fst f) kw).
  - rewrite IH; [reflexivity |]. intros g Hg. apply Hin. right; exact Hg.
  - apply Hin. left; reflexivity.
Qed.

Lemma mem_of_In (fs : Fields) (f : string * FieldInfo) :
  In f fs -> Dict.mem (fst f) fs = true.
Proof.
  unfold Dict.mem. induction fs as [| [k fi] fs IH]; intros Hin; [contradiction |].
  cbn [Dict.get]. destruct (String.eqb (fst f) k) eqn:E; [reflexivity |].
  destruct Hin as [<- | Hin]; [| exact (IH Hin)].
  cbn [fst] in E. rewrite String.eqb_refl in E. discriminate.
Qed.

Lemma last_attempt_repeats_first (kw : dict) :
  model_new T (filter (fun kv => Dict.mem (fst kv) (model_fields T)) kw)
  = model_new T kw.
Proof.
  unfold model_new. rewrite construct_known_fields; [reflexivity |].
  intros f Hf. apply mem_of_In. exact Hf.
Qed.

(** So a dictionary that neither validates nor is mended by the repair
    step makes the validator raise, after the warning. *)
Lemma unrepaired_mapping_raises (kw fixed : dict) (w : World) :
  model_new T kw = Raise ValidationError ->
  _fix_common_issues py T kw = Ok fixed ->
  model_new T fixed = Raise ValidationError ->
  validate_and_fix_json py T (VDict kw) false w
  = (Raise ValidationError,
     snd (print_exn "Warning: Could not fully validate data: " ValidationError w)).
Proof.
  intros H1 Hf H2. rewrite validate_and_fix_json_dict, H1, Hf, H2.
  rewrite last_attempt_repeats_first, H1. reflexivity.
Qed.

(** Whatever the validator is given, it answers with an instance or with an
    exception that [except Exception] catches, and it touches nothing of the
    world but the printed output. *)
Lemma validate_and_fix_json_frame (data : value) (w : World) :
  exists r w',
    validate_and_fix_json py T data false w = (r, w')
    /\ backend w' = backend w /\ llm_calls w' = llm_calls w
    /\ stdin w' = stdin w /\ clock w' = clock w
    /\ (forall e, r = Raise e -> is_Exception e = true).
Proof.
  destruct data;
    try (do 2 eexists; split; [reflexivity |]; repeat split;
         intros e [= <-]; reflexivity).
  rewrite validate_and_fix_json_dict.
  destruct (model_new T d) as [x | e0].
  { do 2 eexists; split; [reflexivity |]; repeat split; discriminate. }
  destruct (_fix_common_issues py T d) as [fixed | e1] eqn:Ef.
  2:{ do 2 eexists; split; [reflexivity |]; repeat split.
      intros e [= <-]. apply fix_common_issues_raises in Ef. subst; reflexivity. }
  destruct (model_new T fixed) as [x | e2].
  { do 2 eexists; split; [reflexivity |]; repeat split; discriminate. }
  unfold lift. do 2 eexists; split; [reflexivity |]; repeat split.
  intros e E. apply model_new_raises in E. subst; reflexivity.
Qed.

(** The guard every stage puts around the validator: whatever the validator
    raises is caught, reported, and replaced by the stage's own artifact. *)
Lemma validation_is_absorbed (data : value) (error_line : string) (minimal : T)
    (w : World) :
  exists x w',
    try_except (validate_and_fix_json py T data false) is_Exception
      (fun e => print_exn error_line e ;; ret minimal) w = (Ok x, w')
    /\ backend w' = backend w /\ llm_calls w' = llm_calls w.
Proof.
  destruct (validate_and_fix_json_frame data w)
    as (r & w1 & E & Hb & Hc & _ & _ & Hexn).
  unfold try_except. rewrite E. destruct r as [x | e].
  - do 2 eexists; split; [reflexivity | split; assumption].
  - rewrite (Hexn e eq_refl). unfold print_exn, ret, bind; cbn.
    do 2 eexists; split; [reflexivity | split; assumption].
Qed.

End ValidatorFacts.

(** C1 (the code departs from the claim).  The validator does not return
    an instance for every dictionary.  Given a dictionary that lacks a
    required field, here the finance mapping with a pricing strategy and
    nothing else, the first construction fails; the repair step, which is
    to "ensure required fields exist", puts under each missing key the
    default of its field, pydantic's [PydanticUndefined], which the field
    does not accept; the second construction fails as well; and the third,
    which is to "return partial model", is made on the first mapping again
    and raises the [ValidationError] that the caller gets, after the
    warning. *)
Theorem C1_validator_raises_on_a_missing_field (py : Interpreter) (w : World) :
  model_new FinancialModel incomplete_finance = Raise ValidationError
  /\ _fix_common_issues py FinancialModel incomplete_finance
     = Ok [ ("pricing_strategy", VStr "Freemium");
            ("unit_economics", VUndefined);
            ("revenue_projections", VUndefined);
            ("cost_structure", VUndefined);
            ("roi_model", VUndefined);
            ("break_even_analysis", VUndefined) ]
  /\ model_new FinancialModel
       (filter (fun kv => Dict.mem (fst kv) (model_fields FinancialModel)) incomplete_finance)
     = Raise ValidationError
  /\ validate_and_fix_json py FinancialModel (VDict incomplete_finance) false w
     = (Raise ValidationError,
        mkWorld (stdin w)
          (stdout w ++ [PrintedExn "Warning: Could not fully validate data: " ValidationError])
          (backend w) (llm_calls w) (clock w)).
Proof.
  split; [reflexivity |]. split; [reflexivity |]. split; [reflexivity |].
  rewrite validate_and_fix_json_dict. reflexivity.
Qed.

(** A string is no record: keyword arguments whose [risks] list holds a
    string construct no Risk instance. *)
Lemma RiskAnalysis_rejects_text_risk (kw : dict) (s : string) (rest : list value) :
  Dict.get "risks" kw = Some (VList (VStr s :: rest)) ->
  model_new RiskAnalysis kw = Raise ValidationError.
Proof.
  intros Hr. unfold model_new.
  cbn [model_fields RiskAnalysis_model RiskAnalysis_fields construct fst snd].
  rewrite Hr. reflexivity.
Qed.

(** C5, as amended.  Given [{"risks": "single risk text"}] and the Risk
    schema, the repair step does wrap the scalar into a one-element list,
    but a risk must be a record, so no keyword mapping with that list
    constructs an instance: the validator raises [ValidationError], and
    [RiskAgent.analyze], handed that mapping by the extractor (under an
    interpreter that lets [json.loads] enter one object), answers with its
    hand-built artifact of four empty lists. *)
Theorem C5_single_risk_text_is_rejected
    (py : Interpreter) (w : World)
    (client_input : ClientInput) (discovery : DiscoveryOutput) (strategy : StrategyOutput)
    (lines : list string) :
  (exists fixed,
      _fix_common_issues py RiskAnalysis single_risk_mapping = Ok fixed
      /\ Dict.get "risks" fixed = Some (VList [VStr "single risk text"]))
  /\ (forall kw,
        Dict.get "risks" kw = Some (VList [VStr "single risk text"]) ->
        model_new RiskAnalysis kw = Raise ValidationError)
  /\ fst (validate_and_fix_json py RiskAnalysis (VDict single_risk_mapping) false w)
     = Raise ValidationError
  /\ (1 <= recursion_limit py ->
      extract_json py single_risk_text = Ok (VDict single_risk_mapping)
      /\ fst (RiskAgent_analyze py client_input discovery strategy
                (stub_world single_risk_text lines))
         = Ok (mkRiskAnalysis [] [] [] [])).
Proof.
  split; [eexists; split; reflexivity |].
  split; [intros kw Hk; eapply RiskAnalysis_rejects_text_risk; exact Hk |].
  split; [rewrite validate_and_fix_json_dict; reflexivity |].
  intros Hdepth.
  assert (E : extract_json py single_risk_text = Ok (VDict single_risk_mapping)).
  { destruct py as [str [| depth] digits message]; cbn [recursion_limit] in Hdepth; [lia |].
    vm_compute. reflexivity. }
  split; [exact E |].
  unfold RiskAgent_analyze, run_stage, bind, generate, lift, try_except, stub_world;
    cbn [backend llm_calls stdin stdout clock].
  rewrite E. cbn [truthy single_risk_mapping negb].
  rewrite validate_and_fix_json_dict. reflexivity.
Qed.

Lemma C5_witness :
  model_new RiskAnalysis
    [ ("risks", VList [VStr "single risk text"]); ("mitigations", VList []);
      ("compliance_flags", VList []); ("legal_considerations", VList []) ]
  = Raise ValidationError
  /\ fst (RiskAgent_analyze cpython example_client
            (mkDiscoveryOutput "" [] [] [] "" "") (mkStrategyOutput [] [] "" "" [])
            (stub_world single_risk_text []))
     = Ok (mkRiskAnalysis [] [] [] []).
Proof.
  destruct (C5_single_risk_text_is_rejected cpython (stub_world "" [])
              example_client
              (mkDiscoveryOutput "" [] [] [] "" "") (mkStrategyOutput [] [] "" "" []) [])
    as (_ & Hrejects & _ & Hstage).
  split; [apply Hrejects; reflexivity |].
  apply Hstage. cbn. lia.
Defined.

(** The claim as stated fails: the validator returns no instance for this
    mapping. *)
Lemma C5_counterexample :
  ~ (forall (py : Interpreter) (w : World),
        exists inst w',
          validate_and_fix_json py RiskAnalysis (VDict single_risk_mapping) false w
          = (Ok inst, w')).
Proof.
  intros Hall.
  destruct (Hall cpython (stub_world "" [])) as (inst & w' & E).
  vm_compute in E. discriminate.
Qed.

(** ** The discovery stage *)

(** C4, as amended.  With a generation client that always answers
    [not json at all], the extractor finds nothing, the fallback mapping is
    built from the response, and it validates: the artifact's
    [problem_statement] is the response text (its first 200 characters), not
    the client's goal.  This holds for every client input, the spec's
    example among them. *)
Theorem C4_problem_statement_is_the_response
    (py : Interpreter) (client_input : ClientInput)
    (lines : list string) :
  extract_json py "not json at all" = Ok VNone
  /\ fst (DiscoveryAgent_analyze py client_input
            (stub_world "not json at all" lines))
     = Ok (mkDiscoveryOutput "not json at all" [] ["not json at all"] []
             "To be determined" "To be determined")
  /\ (exists d,
         fst (DiscoveryAgent_analyze py example_client
                (stub_world "not json at all" lines)) = Ok d
         /\ problem_statement d = "not json at all"
         /\ problem_statement d <> goal example_client).
Proof.
  assert (E : extract_json py "not json at all" = Ok VNone) by (vm_compute; reflexivity).
  assert (R : forall ci,
             fst (DiscoveryAgent_analyze py ci
                    (stub_world "not json at all" lines))
             = Ok (mkDiscoveryOutput "not json at all" [] ["not json at all"] []
                     "To be determined" "To be determined")).
  { intros ci.
    unfold DiscoveryAgent_analyze, run_stage, bind, generate, lift, try_except, stub_world;
      cbn [backend llm_calls stdin stdout clock].
    rewrite E. cbn [truthy negb].
    rewrite validate_and_fix_json_dict. reflexivity. }
  split; [exact E |]. split; [apply R |].
  eexists; split; [apply R |]. split; [reflexivity | discriminate].
Qed.

(** The claim as stated fails: the artifact's [problem_statement] is not
    the client's goal. *)
Lemma C4_counterexample :
  ~ (forall (py : Interpreter) (w : World),
        (forall n call, backend w n call = Ok "not json at all") ->
        exists d w',
          DiscoveryAgent_analyze py example_client w = (Ok d, w')
          /\ problem_statement d = "Increase ARR").
Proof.
  intros Hall.
  destruct (Hall cpython (stub_world "not json at all" []) (fun _ _ => eq_refl))
    as (d & w' & E & Hp).
  vm_compute in E. injection E as <- _. discriminate.
Qed.

(** ** The pipeline under malformed model output *)

Lemma returns_bind {A B} (c : M A) (k : A -> M B) (w : World)
    (P : A -> World -> Prop) (Q : B -> World -> Prop) :
  returns c w P ->
  (forall a w', P a w' -> returns (k a) w' Q) ->
  returns (bind c k) w Q.
Proof.
  intros (a & w' & E & HP) Hk. unfold returns, bind. rewrite E.
  apply (Hk a w' HP).
Qed.

Lemma returns_print (s : string) (w : World) :
  returns (print s) w (fun _ w' => backend w' = backend w).
Proof. do 2 eexists; split; reflexivity. Qed.

(** After a step of the pipeline: name its result and the world it leaves,
    and restate what is known of that world's backend against the first
    world. *)
Ltac next_world :=
  let a := fresh "a" in
  let w' := fresh "w" in
  let Hw := fresh "Hw" in
  intros a w' Hw; cbv beta in Hw;
  repeat match goal with
         | Hprev : backend ?w0 = backend _ |- _ =>
             match type of Hw with
             | backend _ = backend w0 => rewrite Hprev in Hw; clear Hprev
             end
         end.

(** Steps of a computation, one at a time. *)
Lemma bind_ok {A B} (c : M A) (k : A -> M B) (w w1 : World) (a : A) :
  c w = (Ok a, w1) -> bind c k w = k a w1.
Proof. intros E. unfold bind. rewrite E. reflexivity. Qed.

Lemma bind_raise {A B} (c : M A) (k : A -> M B) (w w1 : World) (e : exn) :
  c w = (Raise e, w1) -> bind c k w = (Raise e, w1).
Proof. intros E. unfold bind. rewrite E. reflexivity. Qed.

Lemma bind_print {B} (s : string) (k : unit -> M B) (w : World) :
  bind (print s) k w
  = k tt (mkWorld (stdin w) (stdout w ++ [Printed s])%list (backend w) (llm_calls w) (clock w)).
Proof. reflexivity. Qed.

Lemma append_empty_r (s : string) : s ++ "" = s.
Proof. induction s as [| c s IH]; cbn; [reflexivity | rewrite IH; reflexivity]. Qed.

Section Stages.

Variable py : Interpreter.

(** A stage whose generation call is answered with a text on which the
    extractor returns, returns an artifact: what the validator raises is
    caught, and the hand-built artifact returned. *)
Lemma run_stage_returns (T : Type) `{BaseModel T}
    (prompt system_prompt : string) (fallback : string -> dict)
    (error_line : string) (minimal : T) (w : World) :
  (exists text v,
      backend w (List.length (llm_calls w)) (mkCall prompt system_prompt true) = Ok text
      /\ extract_json py text = Ok v) ->
  returns (run_stage py T prompt system_prompt fallback error_line minimal) w
    (fun _ w' => backend w' = backend w).
Proof.
  intros (text & v & Ht & Ev). unfold returns, run_stage, bind at 1, generate. rewrite Ht.
  unfold bind, lift. rewrite Ev.
  set (w1 := mkWorld _ _ _ _ _).
  set (data := if negb (truthy v) then _ else _).
  destruct (validation_is_absorbed py data error_line minimal w1)
    as (x & w2 & E & Hb & _).
  exists x, w2. split; [exact E | exact Hb].
Qed.

Lemma generate_report_returns (self : BusinessConsultantOrchestrator)
    (client_input : ClientInput) (w : World) :
  always_extractable py w ->
  returns (generate_report py self client_input) w
    (fun r w' => holds_report (sections (stitcher (snd r))) (fst r)
                 /\ backend w' = backend w).
Proof.
  intros Hb.
  assert (Hstage : forall w', backend w' = backend w ->
            forall p s, exists text v,
              backend w' (List.length (llm_calls w')) (mkCall p s true) = Ok text
              /\ extract_json py text = Ok v).
  { intros w' Hw' p s. rewrite Hw'. apply Hb. }
  unfold generate_report, DiscoveryAgent_analyze, MarketAgent_analyze,
    StrategyAgent_analyze, OpsAgent_analyze, FinanceAgent_analyze, RiskAgent_analyze.
  cbv zeta.
  repeat
    (eapply returns_bind;
     [ first [ apply returns_print
             | apply run_stage_returns; apply Hstage;
               first [ assumption | reflexivity ] ]
     | next_world ]).
  (* the metrics *)
  eapply returns_bind with (P := fun _ w' => backend w' = backend w).
  { unfold returns, lift.
    match goal with
    | |- context [generate_from_agents ?g ?f ?s ?e] =>
        destruct (generate_from_agents_kpi g f s e) as (rev & ops & fin & tg & E & _);
        rewrite E
    end.
    do 2 eexists; split; [reflexivity | exact Hw]. }
  clear Hw. next_world.
  repeat (eapply returns_bind; [apply returns_print | next_world]).
  (* the report *)
  unfold build_full_report, FullReport_new.
  cbn [sections stitcher with_stitcher add_discovery add_market_analysis add_strategy
       add_execution_plan add_financial_model add_risk_analysis add_kpi_metrics
       sec_discovery sec_market_analysis sec_strategy sec_execution_plan
       sec_financial_model sec_risk_analysis sec_kpi_dashboard].
  unfold returns, bind, datetime_now, ret, print, holds_report.
  do 2 eexists; split; [reflexivity |].
  cbn [fst snd sections stitcher with_stitcher add_kpi_metrics
       discovery market_analysis strategy execution_plan financial_model
       risk_analysis kpi_dashboard backend
       sec_discovery sec_market_analysis sec_strategy sec_execution_plan
       sec_financial_model sec_risk_analysis sec_kpi_dashboard
       add_discovery add_market_analysis add_strategy
       add_execution_plan add_financial_model add_risk_analysis].
  split; [reflexivity | assumption].
Qed.

End Stages.

(** Where the extractor returns on every response, the pipeline returns
    normally with a report, and the stitcher holds all seven sections, each
    an instance of its model and each the section of the report. *)
Lemma pipeline_completes_when_the_extractor_returns
    (py : Interpreter) (self : BusinessConsultantOrchestrator)
    (client_input : ClientInput) (w : World) :
  always_extractable py w ->
  exists report self' w',
    generate_report py self client_input w = (Ok (report, self'), w')
    /\ holds_report (sections (stitcher self')) report.
Proof.
  intros Hex.
  destruct (generate_report_returns py self client_input w Hex)
    as ([report self'] & w' & E & Hs & _).
  exists report, self', w'. split; [exact E | exact Hs].
Qed.

(** Text without white space is its own trimmed text. *)
Lemma strip_no_space (s : string) :
  all_chars (fun c => negb (isspace c)) s = true -> strip s = s.
Proof.
  intros Hs. unfold strip.
  assert (Hl : lstrip s = s).
  { destruct s as [| c r]; [reflexivity |]. cbn [all_chars] in Hs.
    apply andb_true_iff in Hs. destruct Hs as [Hc _].
    apply negb_true_iff in Hc. cbn [lstrip]. rewrite Hc. reflexivity. }
  rewrite Hl. clear Hl.
  induction s as [| c r IH]; [reflexivity |].
  cbn [all_chars] in Hs. apply andb_true_iff in Hs. destruct Hs as [Hc Hr].
  apply negb_true_iff in Hc. cbn [rstrip]. rewrite (IH Hr).
  destruct r; [rewrite Hc |]; reflexivity.
Qed.

Lemma brackets_no_space (n : nat) :
  all_chars (fun c => negb (isspace c)) (times "[" n) = true.
Proof. induction n as [| n IH]; [reflexivity |]. cbn [times append all_chars]. exact IH. Qed.

Lemma length_brackets (n : nat) : String.length (times "[" n) = n.
Proof. induction n as [| n IH]; [reflexivity |]. cbn [times append String.length]. rewrite IH. reflexivity. Qed.

(** One more opening bracket than the decoder may enter: it raises
    [RecursionError] at the last of them, whatever follows. *)
Lemma scan_once_too_deep (py : Interpreter) (depth : nat) :
  forall (fuel : nat) (rest : string),
    2 * depth < fuel ->
    Json.scan_once py fuel depth (times "[" (S depth) ++ rest) = Raise RecursionError.
Proof.
  induction depth as [| depth IH]; intros fuel rest Hfuel.
  - destruct fuel as [| fuel]; [lia |]. reflexivity.
  - destruct fuel as [| [| fuel]]; try lia.
    change (times "[" (S (S depth)) ++ rest)
      with (String "["%char (times "[" (S depth) ++ rest)).
    cbn [Json.scan_once].
    change (Ascii.eqb "["%char dquote) with false.
    change (Ascii.eqb "["%char "{"%char) with false.
    change (Ascii.eqb "["%char "["%char) with true.
    cbv iota.
    change (times "[" (S depth) ++ rest)
      with (String "["%char (times "[" depth ++ rest)).
    change (Json.skip_ws (String "["%char (times "[" depth ++ rest)))
      with (String "["%char (times "[" depth ++ rest)).
    cbv iota.
    change (String "["%char (times "[" depth ++ rest))
      with (times "[" (S depth) ++ rest).
    cbn [Json.elements]. rewrite (IH fuel rest); [reflexivity | lia].
Qed.

Lemma extract_json_too_deep (py : Interpreter) :
  extract_json py (too_deep py) = Raise RecursionError.
Proof.
  unfold extract_json, loads_or, too_deep.
  rewrite (strip_no_space _ (brackets_no_space _)).
  unfold Json.loads.
  change (Json.skip_ws (times "[" (S (recursion_limit py))))
    with (times "[" (S (recursion_limit py))).
  rewrite <- (append_empty_r (times "[" (S (recursion_limit py)))) at 2.
  rewrite scan_once_too_deep; [reflexivity |].
  rewrite length_brackets. lia.
Qed.

Lemma extract_json_long_integer :
  extract_json cpython long_integer_text
  = Raise (ValueError "Exceeds the limit for integer string conversion").
Proof. vm_compute. reflexivity. Qed.

(** The discovery stage, and with it [generate_report], raises what the
    extractor raises on the first response. *)
Lemma generate_report_raises_with_the_extractor
    (py : Interpreter) (self : BusinessConsultantOrchestrator)
    (client_input : ClientInput) (lines : list string) (text : string) (e : exn) :
  extract_json py text = Raise e ->
  generate_report py self client_input (stub_world text lines)
  = (Raise e,
     mkWorld (map Line lines) [Printed "🔍 Starting Discovery Phase..."]
       (fun _ _ => Ok text) [discovery_call client_input] 0).
Proof.
  intros E. unfold generate_report. rewrite bind_print.
  apply bind_raise.
  unfold DiscoveryAgent_analyze, run_stage.
  erewrite bind_ok; [| reflexivity].
  apply bind_raise. unfold lift. rewrite E. reflexivity.
Qed.

(** C2 (the code departs from the claim).  Ill-formed output can stop the
    pipeline.  When every generation call returns nothing but opening
    brackets, one more than the decoder may enter, [json.loads] raises
    [RecursionError]; when every call returns text around an object with an
    integer of 4301 digits, [json.loads] raises [ValueError] on the object
    that the third step of the extractor finds.  The extractor catches
    [JSONDecodeError] only, and the stages call the extractor outside their
    guard: the exception leaves the discovery stage and [generate_report],
    after one request, and no report is built. *)
Theorem C2_pipeline_raises_on_ill_formed_output
    (py : Interpreter) (self : BusinessConsultantOrchestrator)
    (client_input : ClientInput) (lines : list string) :
  always_ill_formed py (stub_world (too_deep py) lines)
  /\ extract_json py (too_deep py) = Raise RecursionError
  /\ generate_report py self client_input (stub_world (too_deep py) lines)
     = (Raise RecursionError,
        mkWorld (map Line lines) [Printed "🔍 Starting Discovery Phase..."]
          (fun _ _ => Ok (too_deep py)) [discovery_call client_input] 0)
  /\ always_ill_formed cpython (stub_world long_integer_text lines)
  /\ generate_report cpython self client_input (stub_world long_integer_text lines)
     = (Raise (ValueError "Exceeds the limit for integer string conversion"),
        mkWorld (map Line lines) [Printed "🔍 Starting Discovery Phase..."]
          (fun _ _ => Ok long_integer_text) [discovery_call client_input] 0).
Proof.
  split; [| split; [apply extract_json_too_deep |
            split; [apply generate_report_raises_with_the_extractor;
                    apply extract_json_too_deep |
            split; [| apply generate_report_raises_with_the_extractor;
                      apply extract_json_long_integer]]]].
  - intros n call. exists (too_deep py). split; [reflexivity |].
    intros v Hv. pose proof (extract_json_too_deep py) as E.
    unfold extract_json, loads_or in E. rewrite Hv in E. discriminate E.
  - intros n call. exists long_integer_text. split; [reflexivity |].
    intros v Hv. vm_compute in Hv. discriminate Hv.
Qed.

(** ** Entry validation *)






(** Runs [get_client_input] symbolically: the tests on the trimmed lines
    are decided by case analysis, in the order the program makes them. *)
Ltac run_entry :=
  unfold get_client_input, bind, input, print, sys_exit, raise, ret;
  repeat (cbn [stdin stdout backend llm_calls clock truthy negb];
          match goal with
          | |- context [String.eqb (strip ?x) ""] =>
              let E := fresh "E" in
              destruct (String.eqb (strip x) "") eqn:E
          end);
  cbn [stdin stdout backend llm_calls clock truthy negb].


(** What [get_client_input] raises, it raises without a generation
    request: the end of input, an interrupt, or the exit with status 1. *)
Lemma get_client_input_raises (w w' : World) (e : exn) :
  get_client_input w = (Raise e, w') ->
  (e = EOFError \/ e = KeyboardInterrupt \/ e = SystemExit 1)
  /\ llm_calls w' = llm_calls w.
Proof.
  destruct w as [sin out be calls clk].
  destruct sin as [| [b |] [| [i |] [| [g |] [| [c |] [| [a |] rest]]]]];
    run_entry; try discriminate.
  all: intros [= <- <-]; cbn [llm_calls]; split; auto.
Qed.









Section Entry.

Variable py : Interpreter.
Variable save_report : BusinessConsultantOrchestrator -> FullReport -> M string.

(** What [main] makes of an exception of [get_client_input]: an exit passes
    through, an interrupt is answered with its line and status 0, anything
    else is reported and answered with status 1. *)
Lemma main_when_entry_raises (w w1 : World) (e : exn) :
  get_client_input w = (Raise e, w1) ->
  main py save_report w
  = match e with
    | SystemExit code => (Raise (SystemExit code), w1)
    | KeyboardInterrupt =>
        (Raise (SystemExit 0),
         mkWorld (stdin w1)
           (stdout w1 ++ [Printed (nl ++ nl ++ "Process interrupted by user.")])
           (backend w1) (llm_calls w1) (clock w1))
    | _ =>
        (Raise (SystemExit 1),
         mkWorld (stdin w1) (stdout w1 ++ [PrintedExn (nl ++ "❌ Error: ") e])
           (backend w1) (llm_calls w1) (clock w1))
    end.
Proof.
  intros E. unfold main, try_except, bind. rewrite E.
  destruct e; reflexivity.
Qed.

(** [main] lets the exit of [get_client_input] through, turns the end of
    input into an exit with status 1 and an interrupt into an exit with
    status 0; none of these paths reaches a stage. *)
Lemma main_stops_at_entry (w w' : World) (e : exn) :
  get_client_input w = (Raise e, w') ->
  exists code w'',
    main py save_report w = (Raise (SystemExit code), w'')
    /\ (code = 0%Z \/ code = 1%Z)
    /\ llm_calls w'' = llm_calls w.
Proof.
  intros E. destruct (get_client_input_raises w w' e E) as [[-> | [-> | ->]] Hc];
    rewrite (main_when_entry_raises _ _ _ E);
    do 2 eexists; (split; [reflexivity |]); cbn [llm_calls]; split; auto.
Qed.

End Entry.




(* ===================================================================== *)
(** * Further properties                                                   *)
(* ===================================================================== *)

(** ** What the decoder and the extractor raise *)

Ltac split_matches H :=
  repeat match type of H with
         | context [match ?x with _ => _ end] =>
             let E := fresh "E" in destruct x eqn:E; try discriminate H
         | context [if ?x then _ else _] =>
             let E := fresh "E" in destruct x eqn:E; try discriminate H
         end.

Lemma number_raises (py : Interpreter) (s : string) (e : exn) :
  Json.number py s = Some (Raise e) ->
  exists count, e = ValueError (int_too_long py count).
Proof.
  unfold Json.number. intros H.
  destruct (Json.int_part s) as [[[[neg n] count] r] |]; [| discriminate H].
  destruct (Json.frac_part n r) as [[[mant k] r1] |].
  { destruct (Json.exp_part r1) as [[x r2] |]; discriminate H. }
  destruct (Json.exp_part r) as [[x r2] |]; [discriminate H |].
  unfold Json.int_of in H.
  destruct ((640 <? count)%nat && (0 <? int_max_str_digits py)%nat
            && (int_max_str_digits py <? count)%nat);
    [| discriminate H].
  injection H as <-. eexists; reflexivity.
Qed.

(** The cases of a character the decoder tests in [H]: those in which it
    raises [JSONDecodeError] or returns are closed. *)
Ltac by_character c H :=
  destruct c as [[] [] [] [] [] [] [] []]; cbv beta iota in H;
  try (left; congruence); try discriminate H.

Lemma decoder_raises (py : Interpreter) (fuel : nat) :
  (forall depth s e, Json.scan_once py fuel depth s = Raise e -> (e = JSONDecodeError \/ interpreter_limit py e))
  /\ (forall depth s acc e, Json.members py fuel depth s acc = Raise e -> (e = JSONDecodeError \/ interpreter_limit py e))
  /\ (forall depth s e, Json.elements py fuel depth s = Raise e -> (e = JSONDecodeError \/ interpreter_limit py e)).
Proof.
  induction fuel as [| fuel (IHs & IHm & IHe)].
  - repeat split; intros; cbn in *; left; congruence.
  - repeat split.
    + intros depth s e H. cbn [Json.scan_once] in H.
      destruct s as [| c rest]; [left; congruence |].
      destruct (Ascii.eqb c dquote).
      { split_matches H; left; congruence. }
      destruct (Ascii.eqb c "{"%char).
      { destruct depth as [| depth]; [right; left; congruence |].
        assert (Hm : exists r, Json.members py fuel depth r [] = Raise e).
        { split_matches H; injection H as <-; eexists; eassumption. }
        destruct Hm as [r Hm]. eapply IHm; exact Hm. }
      destruct (Ascii.eqb c "["%char).
      { destruct depth as [| depth]; [right; left; congruence |].
        assert (Hm : exists r, Json.elements py fuel depth r = Raise e).
        { split_matches H; injection H as <-; eexists; eassumption. }
        destruct Hm as [r Hm]. eapply IHe; exact Hm. }
      destruct (Json.literal (String c rest)); [discriminate H |].
      destruct (Json.number py (String c rest)) as [x |] eqn:En.
      { subst x. right; right. eapply number_raises; exact En. }
      destruct (Json.constant (String c rest)); [discriminate H | left; congruence].
    + intros depth s acc e H. cbn [Json.members] in H.
      destruct s as [| c r]; [left; congruence |].
      destruct (Ascii.eqb c dquote); [| left; congruence].
      destruct (Json.scanstring r) as [[key r1] |]; [| left; congruence].
      destruct (Json.skip_ws r1) as [| c2 r2]; [left; congruence |].
      by_character c2 H.
      destruct (Json.scan_once py fuel depth (Json.skip_ws r2)) as [[v r3] | e'] eqn:Es.
      * destruct (Json.skip_ws r3) as [| c4 r4]; [left; congruence |].
        by_character c4 H. eapply IHm; exact H.
      * injection H as <-. eapply IHs; exact Es.
    + intros depth s e H. cbn [Json.elements] in H.
      destruct (Json.scan_once py fuel depth s) as [[v r] | e'] eqn:Es.
      * destruct (Json.skip_ws r) as [| c4 r4]; [left; congruence |].
        by_character c4 H.
        destruct (Json.elements py fuel depth (Json.skip_ws r4)) as [[l r''] | e'] eqn:Ee;
          [discriminate H |].
        injection H as <-. eapply IHe; exact Ee.
      * injection H as <-. eapply IHs; exact Es.
Qed.

Lemma loads_raises (py : Interpreter) (s : string) (e : exn) :
  Json.loads py s = Raise e -> e = JSONDecodeError \/ interpreter_limit py e.
Proof.
  unfold Json.loads. intros H.
  destruct (Json.scan_once py _ _ _) as [[v rest] | e'] eqn:Es.
  - destruct (Json.skip_ws rest); [discriminate H | left; congruence].
  - injection H as <-. eapply (proj1 (decoder_raises py _)); exact Es.
Qed.

Lemma loads_or_raises (py : Interpreter) (s : string) (otherwise : result value) (e : exn) :
  loads_or py s otherwise = Raise e ->
  interpreter_limit py e \/ otherwise = Raise e.
Proof.
  unfold loads_or. intros H.
  destruct (Json.loads py s) as [v | e'] eqn:El; [discriminate H |].
  destruct (loads_raises py s e' El) as [-> | Hl].
  - right. exact H.
  - destruct (is_JSONDecodeError e'); [right; exact H |].
    injection H as <-. left. exact Hl.
Qed.

Lemma first_loads_raises (py : Interpreter) (matches : list string) (e : exn) :
  first_loads py matches = Raise e -> interpreter_limit py e.
Proof.
  induction matches as [| x rest IH]; cbn [first_loads]; [discriminate |].
  intros H. destruct (loads_or_raises py x _ e H) as [Hl | Hr]; [exact Hl | exact (IH Hr)].
Qed.

(** The extractor raises nothing but what [json.loads] raises at a limit
    of the interpreter; a [JSONDecodeError] never leaves it. *)
Lemma extract_json_raises (py : Interpreter) (text : string) (e : exn) :
  extract_json py text = Raise e -> interpreter_limit py e.
Proof.
  unfold extract_json. intros H.
  destruct (loads_or_raises py _ _ e H) as [Hl | Hr]; [exact Hl |].
  destruct (Re.findall json_block_pattern text) as [| m0 rest].
  - eapply first_loads_raises; exact Hr.
  - destruct (loads_or_raises py _ _ e Hr) as [Hl | Hr']; [exact Hl |].
    eapply first_loads_raises; exact Hr'.
Qed.

(** ** The pipeline, request by request *)

Lemma outcome_bind {A B} (c : M A) (k : A -> M B) (w : World)
    (P : A -> World -> Prop) (Q : B -> World -> Prop) (E : exn -> World -> Prop) :
  outcome c w P E ->
  (forall a w', P a w' -> outcome (k a) w' Q E) ->
  outcome (bind c k) w Q E.
Proof.
  unfold outcome, bind. intros Hc Hk.
  destruct (c w) as [[a | e] w']; [apply Hk; exact Hc | exact Hc].
Qed.

Lemma reached_start (w : World) : reached w [] w.
Proof. unfold reached. rewrite app_nil_r. repeat split. Qed.

Lemma outcome_print (s : string) (w wc : World) (made : list LLMCall)
    (E : exn -> World -> Prop) :
  reached w made wc ->
  outcome (print s) wc (fun _ w' => reached w made w') E.
Proof. intros H. exact H. Qed.

Section Requests.

Variable py : Interpreter.

(** The guard around the validator, with all it leaves untouched. *)
Lemma guarded_validation_frame (T : Type) `{BaseModel T}
    (data : value) (error_line : string) (minimal : T) (w : World) :
  exists x w',
    try_except (validate_and_fix_json py T data false) is_Exception
      (fun e => print_exn error_line e ;; ret minimal) w = (Ok x, w')
    /\ reached w [] w'.
Proof.
  destruct (validate_and_fix_json_frame py data w)
    as (r & w1 & E & Hb & Hc & Hi & Hk & Hexn).
  unfold try_except. rewrite E. destruct r as [x | e].
  - do 2 eexists; split; [reflexivity |].
    unfold reached. rewrite app_nil_r. auto.
  - rewrite (Hexn e eq_refl). unfold print_exn, ret, bind; cbn.
    do 2 eexists; split; [reflexivity |].
    unfold reached; cbn. rewrite app_nil_r. auto.
Qed.

(** A stage makes one request, in JSON mode, with its own prompts; it
    returns an artifact unless the backend fails, and then what the backend
    raised is raised, or the extractor raises on the answer, and then what
    the extractor raised is raised. *)
Lemma outcome_run_stage (T : Type) `{BaseModel T}
    (prompt system_prompt : string) (fallback : string -> dict)
    (error_line : string) (minimal : T) (w wc : World) (made : list LLMCall) :
  reached w made wc ->
  outcome (run_stage py T prompt system_prompt fallback error_line minimal) wc
    (fun _ w' => reached w (made ++ [mkCall prompt system_prompt true]) w')
    (fun e w' => transport_failure w e w' \/ decoding_failure py w e w').
Proof.
  intros (Hb & Hi & Hk & Hc).
  pose (call := mkCall prompt system_prompt true).
  pose (w1 := mkWorld (stdin wc) (stdout wc) (backend wc) (llm_calls wc ++ [call])%list
                (clock wc)).
  assert (Erun :
    run_stage py T prompt system_prompt fallback error_line minimal wc
    = match backend wc (List.length (llm_calls wc)) call with
      | Ok text =>
          match extract_json py text with
          | Ok v =>
              try_except
                (validate_and_fix_json py T
                   (if negb (truthy v) then VDict (fallback text) else v) false)
                is_Exception (fun e => print_exn error_line e ;; ret minimal) w1
          | Raise e => (Raise e, w1)
          end
      | Raise e => (Raise e, w1)
      end).
  { unfold run_stage, bind at 1, generate. fold call. fold w1.
    destruct (backend wc (List.length (llm_calls wc)) call) as [text |]; [| reflexivity].
    unfold bind at 1, lift. destruct (extract_json py text); reflexivity. }
  unfold outcome. rewrite Erun.
  destruct (backend wc (List.length (llm_calls wc)) call) as [text | e] eqn:Ebk.
  - destruct (extract_json py text) as [v | e] eqn:Ex.
    + destruct (guarded_validation_frame T
                  (if negb (truthy v) then VDict (fallback text) else v)
                  error_line minimal w1)
        as (x & w2 & E & Hb2 & Hi2 & Hk2 & Hc2).
      rewrite E. unfold reached.
      rewrite Hb2, Hi2, Hk2, Hc2, app_nil_r. subst w1; cbn [backend stdin clock llm_calls].
      rewrite Hc, app_assoc. auto.
    + right. exists made, call, text. subst w1; cbn [llm_calls].
      rewrite Hc, <- app_assoc. split; [reflexivity |].
      rewrite <- Hc, <- Hb. split; [exact Ebk | exact Ex].
  - left. exists made, call. subst w1; cbn [llm_calls].
    rewrite Hc, <- app_assoc. split; [reflexivity |].
    rewrite <- Hc, <- Hb. exact Ebk.
Qed.

Lemma generate_report_outcome (self : BusinessConsultantOrchestrator)
    (client_input : ClientInput) (w : World) :
  outcome (generate_report py self client_input) w
    (fun r w' =>
       holds_report (sections (stitcher (snd r))) (fst r)
       /\ reached w (requests_of client_input (fst r)) w'
       /\ generated_at (fst r) = clock w
       /\ generate_from_agents (kpi_generator self)
            (Some (financial_model (fst r))) (Some (strategy (fst r)))
            (Some (execution_plan (fst r)))
          = Ok (kpi_dashboard (fst r))
       /\ executive_summary (fst r)
          = generate_executive_summary py (stitcher (snd r)))
    (fun e w' => transport_failure w e w' \/ decoding_failure py w e w').
Proof.
  pose proof (reached_start w) as Hstart.
  unfold generate_report, DiscoveryAgent_analyze, MarketAgent_analyze,
    StrategyAgent_analyze, OpsAgent_analyze, FinanceAgent_analyze, RiskAgent_analyze.
  cbv zeta.
  repeat
    (eapply outcome_bind;
     [ first [ apply outcome_print; eassumption
             | apply outcome_run_stage; eassumption ]
     | let a := fresh "a" in let w' := fresh "w" in let Hr := fresh "Hr" in
       intros a w' Hr; cbv beta in Hr ]).
  (* the metrics, the last lines, the report *)
  match goal with
  | |- context [generate_from_agents ?g ?f ?s ?e] =>
      destruct (generate_from_agents_kpi g f s e) as (rev & ops & fin & tg & Ek & _)
  end.
  match goal with
  | Hlast : reached w _ ?wc |- outcome _ ?wc _ _ =>
      destruct Hlast as (Hb & Hi & Hk & Hc)
  end.
  unfold outcome, bind, lift. rewrite Ek.
  unfold print, build_full_report, FullReport_new, bind, datetime_now, ret.
  cbn [sections stitcher with_stitcher add_discovery add_market_analysis add_strategy
       add_execution_plan add_financial_model add_risk_analysis add_kpi_metrics
       sec_discovery sec_market_analysis sec_strategy sec_execution_plan
       sec_financial_model sec_risk_analysis sec_kpi_dashboard
       fst snd backend stdin stdout clock llm_calls kpi_generator
       discovery market_analysis strategy execution_plan financial_model
       risk_analysis kpi_dashboard generated_at executive_summary].
  split; [reflexivity |].
  split; [unfold reached; cbn [backend stdin clock llm_calls]; auto |].
  split; [exact Hk |].
  split; [exact Ek | reflexivity].
Qed.

End Requests.

(** X1.  [generate_report] fails in two ways only.  When it raises, what it
    raises is what the backend answered to the last generation request
    made, or what the extractor raised on the text of that answer: a
    [RecursionError] or the [ValueError] of an integer too long to convert,
    which [json.loads] raises and the extractor does not catch.  Nothing
    else of a run (text that is not JSON, validation) can end it. *)
Theorem generate_report_fails_in_transport_or_decoding
    (py : Interpreter) (self : BusinessConsultantOrchestrator)
    (client_input : ClientInput) (w w' : World) (e : exn) :
  generate_report py self client_input w = (Raise e, w') ->
  transport_failure w e w'
  \/ (decoding_failure py w e w' /\ interpreter_limit py e).
Proof.
  intros E. pose proof (generate_report_outcome py self client_input w) as H.
  unfold outcome in H. rewrite E in H.
  destruct H as [H | H]; [left; exact H | right].
  split; [exact H |].
  destruct H as (made & call & text & _ & _ & Hx).
  eapply extract_json_raises; exact Hx.
Qed.

Lemma generate_report_fails_in_transport_or_decoding_witness :
  (transport_failure (down_world [])
     (BackendError "connection refused")
     (snd (generate_report cpython new_orchestrator example_client (down_world [])))
   \/ (decoding_failure cpython (down_world [])
         (BackendError "connection refused")
         (snd (generate_report cpython new_orchestrator example_client (down_world [])))
       /\ interpreter_limit cpython (BackendError "connection refused")))
  /\ (transport_failure (stub_world (too_deep cpython) []) RecursionError
        (snd (generate_report cpython new_orchestrator example_client
                (stub_world (too_deep cpython) [])))
      \/ (decoding_failure cpython (stub_world (too_deep cpython) []) RecursionError
            (snd (generate_report cpython new_orchestrator example_client
                    (stub_world (too_deep cpython) [])))
          /\ interpreter_limit cpython RecursionError)).
Proof.
  split.
  - apply (generate_report_fails_in_transport_or_decoding cpython new_orchestrator
             example_client).
    vm_compute. reflexivity.
  - apply (generate_report_fails_in_transport_or_decoding cpython new_orchestrator
             example_client).
    vm_compute. reflexivity.
Defined.

(** X2.  A report that [generate_report] returns cost exactly six generation
    requests, made in the order discovery, market, strategy, operations,
    finance, risk, all in JSON mode, each with the prompt built from the
    client input and the sections of this very report that came before it;
    the run reads no input and leaves backend and clock as they were. *)
Theorem generate_report_makes_six_requests
    (py : Interpreter) (self self' : BusinessConsultantOrchestrator)
    (client_input : ClientInput) (w w' : World) (r : FullReport) :
  generate_report py self client_input w = (Ok (r, self'), w') ->
  llm_calls w' = (llm_calls w ++ requests_of client_input r)%list
  /\ stdin w' = stdin w /\ backend w' = backend w /\ clock w' = clock w.
Proof.
  intros E. pose proof (generate_report_outcome py self client_input w) as H.
  unfold outcome in H. rewrite E in H. cbn [fst snd] in H.
  destruct H as (_ & (Hb & Hi & Hk & Hc) & _). auto.
Qed.

Lemma generate_report_makes_six_requests_witness :
  exists r self' w',
    generate_report cpython new_orchestrator example_client
      (stub_world "not json at all" []) = (Ok (r, self'), w')
    /\ llm_calls w' = requests_of example_client r.
Proof.
  destruct (generate_report_returns cpython new_orchestrator example_client
              (stub_world "not json at all" []))
    as ([r self'] & w' & E & _).
  { intros n call. exists "not json at all", VNone. split; reflexivity. }
  exists r, self', w'. split; [exact E |].
  apply (generate_report_makes_six_requests cpython new_orchestrator self'
           example_client (stub_world "not json at all" []) w' r E).
Defined.

Lemma append_assoc (a b c : string) : (a ++ b) ++ c = a ++ (b ++ c).
Proof. induction a as [| x a IH]; cbn; [reflexivity | rewrite IH; reflexivity]. Qed.

Lemma join_two (sep a b : string) (more : list string) :
  exists rest, join sep (a :: b :: more) = a ++ sep ++ b ++ rest.
Proof.
  destruct more as [| c more].
  - exists "". cbn [join]. rewrite append_empty_r. reflexivity.
  - exists (sep ++ join sep (c :: more)). reflexivity.
Qed.

(** X3.  The derived parts of a returned report are derived from its own
    sections: the summary is the executive summary of the report's sections
    and opens with the problem statement and the recommendation, in this
    order; the dashboard is the metrics of the report's finance, strategy
    and execution sections; the time stamp is the clock's. *)
Theorem report_is_derived_from_its_sections
    (py : Interpreter) (self self' : BusinessConsultantOrchestrator)
    (client_input : ClientInput) (w w' : World) (r : FullReport) :
  generate_report py self client_input w = (Ok (r, self'), w') ->
  executive_summary r
  = generate_executive_summary py (mkReportStitcher (sections_of r))
  /\ (exists rest,
        executive_summary r
        = "**Problem Statement**: " ++ problem_statement (discovery r)
          ++ (nl ++ nl)
          ++ "**Strategic Recommendation**: " ++ recommendation (strategy r)
          ++ rest)
  /\ generate_from_agents (kpi_generator self)
       (Some (financial_model r)) (Some (strategy r)) (Some (execution_plan r))
     = Ok (kpi_dashboard r)
  /\ generated_at r = clock w
  /\ sections (stitcher self') = sections_of r.
Proof.
  intros E. pose proof (generate_report_outcome py self client_input w) as H.
  unfold outcome in H. rewrite E in H. cbn [fst snd] in H.
  destruct H as (Hs & _ & Ht & Hk & Hx).
  unfold holds_report in Hs.
  assert (Hsum : executive_summary r
                 = generate_executive_summary py
                     (mkReportStitcher (sections_of r))).
  { rewrite Hx. unfold generate_executive_summary. cbn [sections].
    rewrite Hs. reflexivity. }
  split; [exact Hsum |]. split; [| auto].
  rewrite Hsum. unfold generate_executive_summary, sections_of.
  cbn [sections problem_part recommendation_part sec_discovery sec_strategy app].
  destruct (join_two (nl ++ nl)
              ("**Problem Statement**: " ++ problem_statement (discovery r))
              ("**Strategic Recommendation**: " ++ recommendation (strategy r))
              (roi_part py
                 (mkSections (Some (discovery r)) (Some (market_analysis r))
                    (Some (strategy r)) (Some (execution_plan r))
                    (Some (financial_model r)) (Some (risk_analysis r))
                    (Some (kpi_dashboard r)))
               ++ risk_part py
                    (mkSections (Some (discovery r)) (Some (market_analysis r))
                       (Some (strategy r)) (Some (execution_plan r))
                       (Some (financial_model r)) (Some (risk_analysis r))
                       (Some (kpi_dashboard r))))%list)
    as (rest & Hj).
  exists rest. rewrite Hj.
  rewrite !append_assoc. reflexivity.
Qed.

Lemma report_is_derived_from_its_sections_witness :
  exists r self' w',
    generate_report cpython new_orchestrator example_client
      (stub_world "not json at all" []) = (Ok (r, self'), w')
    /\ generated_at r = 0%Z
    /\ sections (stitcher self') = sections_of r.
Proof.
  destruct (generate_report_returns cpython new_orchestrator example_client
              (stub_world "not json at all" []))
    as ([r self'] & w' & E & _).
  { intros n call. exists "not json at all", VNone. split; reflexivity. }
  exists r, self', w'. split; [exact E |].
  destruct (report_is_derived_from_its_sections cpython new_orchestrator self'
              example_client (stub_world "not json at all" []) w' r E)
    as (_ & _ & _ & Ht & Hs).
  split; [exact Ht | exact Hs].
Defined.

(** ** The entry point *)

(** Reading the client input changes nothing but the input left and the
    output. *)
Lemma get_client_input_frame (w w' : World) (r : result ClientInput) :
  get_client_input w = (r, w') ->
  backend w' = backend w /\ llm_calls w' = llm_calls w /\ clock w' = clock w.
Proof.
  destruct w as [sin out be calls clk].
  destruct sin as [| [b |] [| [i |] [| [g |] [| [c |] [| [a |] rest]]]]];
    run_entry.
  all: intros [= <- <-]; cbn [backend llm_calls clock]; auto.
Qed.

(** X4.  No exception but [SystemExit] leaves [main]: it ends normally, or
    with an exit whose status is 0 after an interrupt, 1 after any other
    error, and whatever status an exit raised inside carried. *)
Theorem main_ends_normally_or_exits
    (py : Interpreter)
    (save_report : BusinessConsultantOrchestrator -> FullReport -> M string)
    (w : World) :
  exists w',
    main py save_report w = (Ok tt, w')
    \/ exists code, main py save_report w = (Raise (SystemExit code), w').
Proof.
  unfold main, try_except.
  match goal with
  | |- context [match ?c w with _ => _ end] => destruct (c w) as [[[] | e] w1]
  end.
  - exists w1. left. reflexivity.
  - destruct e; cbn [is_KeyboardInterrupt is_Exception orb];
      unfold bind, print, print_exn, sys_exit, raise;
      eexists; right; eexists; reflexivity.
Qed.

(** X5.  A transport failure is fatal.  When the client input is accepted
    and the backend fails on the first generation request, [main] reports
    the error and exits with status 1; one request was made, and the report
    is neither built nor saved, whatever saving would do. *)
Theorem main_exits_on_transport_failure
    (py : Interpreter)
    (save_report : BusinessConsultantOrchestrator -> FullReport -> M string)
    (w w1 : World) (client_input : ClientInput) (e : exn) :
  get_client_input w = (Ok client_input, w1) ->
  backend w (List.length (llm_calls w)) (discovery_call client_input) = Raise e ->
  is_Exception e = true ->
  exists w',
    main py save_report w = (Raise (SystemExit 1), w')
    /\ llm_calls w' = (llm_calls w ++ [discovery_call client_input])%list
    /\ last (stdout w') (Printed "") = PrintedExn (nl ++ "❌ Error: ") e
    /\ (forall other_save,
          main py other_save w = main py save_report w).
Proof.
  intros Hin Hbk He.
  destruct (get_client_input_frame w w1 _ Hin) as (Hb & Hc & _).
  assert (Hrun : forall save,
            main py save w
            = (Raise (SystemExit 1),
               mkWorld (stdin w1)
                 (stdout w1 ++ [Printed (nl ++ rule)]
                    ++ [Printed "Generating Business Report..."]
                    ++ [Printed (rule ++ nl)]
                    ++ [Printed "🔍 Starting Discovery Phase..."]
                    ++ [PrintedExn (nl ++ "❌ Error: ") e])%list
                 (backend w1)
                 (llm_calls w1 ++ [discovery_call client_input])%list
                 (clock w1))).
  { intros save.
    unfold main, try_except.
    rewrite (bind_ok _ _ _ _ _ Hin).
    do 3 (erewrite (bind_ok (print _)); [| reflexivity]).
    erewrite bind_raise; cycle 1.
    { unfold generate_report.
      erewrite (bind_ok (print _)); [| reflexivity].
      apply bind_raise.
      unfold DiscoveryAgent_analyze, run_stage.
      apply bind_raise.
      unfold generate. cbn [backend llm_calls stdin stdout clock].
      fold (discovery_call client_input).
      rewrite Hb, Hc, Hbk. reflexivity. }
    destruct e; try discriminate He;
      cbn [is_KeyboardInterrupt is_Exception orb];
      unfold print_exn, print, sys_exit, raise, bind;
      cbn [backend llm_calls stdin stdout clock fst snd];
      rewrite <- ?app_assoc, ?Hb, ?Hc; cbn [app]; reflexivity. }
  eexists. split; [apply Hrun |].
  cbn [llm_calls stdout]. split; [rewrite Hc; reflexivity |].
  split.
  - rewrite !app_assoc. apply last_last.
  - intros other_save. rewrite !Hrun. reflexivity.
Qed.

Lemma main_exits_on_transport_failure_witness :
  exists w',
    main cpython no_save (down_world valid_lines) = (Raise (SystemExit 1), w')
    /\ llm_calls w' = [discovery_call
                         (mkClientInput "Acme Freight" "Logistics" "Increase ARR"
                            "Bootstrapped" None)].
Proof.
  destruct (main_exits_on_transport_failure cpython no_save (down_world valid_lines)
              (snd (get_client_input (down_world valid_lines)))
              (mkClientInput "Acme Freight" "Logistics" "Increase ARR" "Bootstrapped" None)
              (BackendError "connection refused"))
    as (w' & E & Hc & _).
  - vm_compute. reflexivity.
  - reflexivity.
  - reflexivity.
  - exists w'. split; [exact E | exact Hc].
Defined.

(** ** The stages on unusable output *)

Lemma length_slice_to (n : nat) (s : string) : String.length (slice_to n s) <= n.
Proof.
  unfold slice_to. revert s. induction n as [| n IH]; intros [| c s]; cbn; try lia.
  specialize (IH s). lia.
Qed.

Section StageFacts.

Variable py : Interpreter.

(** A stage whose request is answered with a text in which the extractor
    finds nothing, or nothing truthy, returns the instance of its fallback
    mapping when that mapping validates; it prints nothing. *)
Lemma run_stage_on_fallback (T : Type) `{BaseModel T}
    (prompt system_prompt : string) (fallback : string -> dict)
    (error_line : string) (minimal x : T) (w : World) (text : string) (v : value) :
  backend w (List.length (llm_calls w)) (mkCall prompt system_prompt true) = Ok text ->
  extract_json py text = Ok v ->
  truthy v = false ->
  model_new T (fallback text) = Ok x ->
  run_stage py T prompt system_prompt fallback error_line minimal w
  = (Ok x, after_request w (mkCall prompt system_prompt true) []).
Proof.
  intros Hbk Hv Hf Hx.
  unfold run_stage, bind at 1, generate. rewrite Hbk.
  unfold bind at 1, lift. rewrite Hv, Hf. cbn [negb].
  unfold try_except. rewrite validate_and_fix_json_dict, Hx.
  unfold after_request. cbn [stdin stdout backend llm_calls clock].
  rewrite app_nil_r. reflexivity.
Qed.

(** Answered with the text of a JSON value that is truthy and no mapping (a
    list, a number, a string, [true]), the stage reports the [TypeError] of
    the validator and returns its hand-built artifact. *)
Lemma run_stage_on_non_mapping (T : Type) `{BaseModel T}
    (prompt system_prompt : string) (fallback : string -> dict)
    (error_line : string) (minimal : T) (w : World) (text : string) (v : value) :
  backend w (List.length (llm_calls w)) (mkCall prompt system_prompt true) = Ok text ->
  extract_json py text = Ok v ->
  truthy v = true ->
  (forall kw, v <> VDict kw) ->
  run_stage py T prompt system_prompt fallback error_line minimal w
  = (Ok minimal,
     after_request w (mkCall prompt system_prompt true) [PrintedExn error_line TypeError]).
Proof.
  intros Hbk Hv Ht Hd.
  unfold run_stage, bind at 1, generate. rewrite Hbk.
  unfold bind at 1, lift. rewrite Hv, Ht. cbn [negb].
  destruct v; try (exfalso; eapply Hd; reflexivity); reflexivity.
Qed.

End StageFacts.

(** X6.  When the extractor finds nothing usable in the response, the
    discovery stage returns the artifact of its fallback mapping and prints
    no error: the problem statement is the response cut to its first 200
    characters, so never longer than that, and the response is the one fact
    gathered; an empty response gives the text "Problem to be clarified"
    and no fact. *)
Theorem discovery_falls_back_on_the_response
    (py : Interpreter) (client_input : ClientInput)
    (w : World) (text : string) (v : value) :
  backend w (List.length (llm_calls w)) (discovery_call client_input) = Ok text ->
  extract_json py text = Ok v ->
  truthy v = false ->
  DiscoveryAgent_analyze py client_input w
  = (Ok (fallback_discovery text), after_request w (discovery_call client_input) [])
  /\ String.length (problem_statement (fallback_discovery text)) <= 200.
Proof.
  intros Hbk Hv Hf. split.
  - unfold DiscoveryAgent_analyze.
    apply run_stage_on_fallback with (text := text) (v := v);
      [exact Hbk | exact Hv | exact Hf |].
    unfold DiscoveryAgent_parse_fallback, fallback_discovery. cbn [truthy].
    destruct (String.eqb text ""); reflexivity.
  - unfold fallback_discovery; cbn [problem_statement].
    destruct (String.eqb text ""); [cbn; lia | apply length_slice_to].
Qed.

Lemma discovery_falls_back_on_the_response_witness :
  DiscoveryAgent_analyze cpython example_client (stub_world "" [])
  = (Ok (mkDiscoveryOutput "Problem to be clarified" [] [] []
           "To be determined" "To be determined"),
     after_request (stub_world "" []) (discovery_call example_client) []).
Proof.
  apply (proj1 (discovery_falls_back_on_the_response cpython example_client
                  (stub_world "" []) "" VNone eq_refl eq_refl eq_refl)).
Defined.

(** X7.  When the extractor finds nothing usable, the market stage and the
    strategy stage return the artifacts of their fallback mappings, built
    from the client input and the discovery artifact alone, and print no
    error: both mappings conform to their schemas. *)
Theorem market_and_strategy_fall_back
    (py : Interpreter) (client_input : ClientInput)
    (discovery : DiscoveryOutput) (market : MarketAnalysis) (w : World)
    (text : string) (v : value) :
  extract_json py text = Ok v ->
  truthy v = false ->
  (backend w (List.length (llm_calls w))
     (mkCall (market_prompt client_input discovery) market_system_prompt true) = Ok text ->
   MarketAgent_analyze py client_input discovery w
   = (Ok (fallback_market client_input discovery),
      after_request w
        (mkCall (market_prompt client_input discovery) market_system_prompt true) []))
  /\ (backend w (List.length (llm_calls w))
        (mkCall (strategy_prompt client_input discovery market) strategy_system_prompt true)
      = Ok text ->
      StrategyAgent_analyze py client_input discovery market w
      = (Ok (fallback_strategy client_input discovery),
         after_request w
           (mkCall (strategy_prompt client_input discovery market)
              strategy_system_prompt true) [])).
Proof.
  intros Hv Hf. split; intros Hbk.
  - unfold MarketAgent_analyze.
    apply run_stage_on_fallback with (text := text) (v := v);
      [exact Hbk | exact Hv | exact Hf | reflexivity].
  - unfold StrategyAgent_analyze.
    apply run_stage_on_fallback with (text := text) (v := v);
      [exact Hbk | exact Hv | exact Hf | reflexivity].
Qed.

Lemma market_and_strategy_fall_back_witness :
  MarketAgent_analyze cpython example_client (fallback_discovery "n/a")
    (stub_world "n/a" [])
  = (Ok (fallback_market example_client (fallback_discovery "n/a")),
     after_request (stub_world "n/a" [])
       (mkCall (market_prompt example_client (fallback_discovery "n/a"))
          market_system_prompt true) []).
Proof.
  apply (proj1 (market_and_strategy_fall_back cpython example_client
                  (fallback_discovery "n/a")
                  (fallback_market example_client (fallback_discovery "n/a"))
                  (stub_world "n/a" []) "n/a" VNone eq_refl eq_refl)).
  reflexivity.
Defined.

(** X8.  When the extractor finds nothing usable, the operations, finance
    and risk stages return the artifacts of their fallback mappings and
    print no error: one task in each of the three plans, the placeholder
    financial model with its ROI entry, one strategic risk with its
    mitigation. *)
Theorem ops_finance_and_risk_fall_back
    (py : Interpreter) (client_input : ClientInput)
    (discovery : DiscoveryOutput) (strategy : StrategyOutput) (w : World)
    (text : string) (v : value) :
  extract_json py text = Ok v ->
  truthy v = false ->
  (backend w (List.length (llm_calls w))
     (mkCall (ops_prompt client_input strategy) ops_system_prompt true) = Ok text ->
   OpsAgent_analyze py client_input discovery strategy w
   = (Ok fallback_execution,
      after_request w (mkCall (ops_prompt client_input strategy) ops_system_prompt true) []))
  /\ (backend w (List.length (llm_calls w))
        (mkCall (finance_prompt client_input discovery strategy) finance_system_prompt true)
      = Ok text ->
      FinanceAgent_analyze py client_input discovery strategy w
      = (Ok fallback_finance,
         after_request w
           (mkCall (finance_prompt client_input discovery strategy)
              finance_system_prompt true) []))
  /\ (backend w (List.length (llm_calls w))
        (mkCall (risk_prompt client_input discovery strategy) risk_system_prompt true)
      = Ok text ->
      RiskAgent_analyze py client_input discovery strategy w
      = (Ok (fallback_risk client_input),
         after_request w
           (mkCall (risk_prompt client_input discovery strategy)
              risk_system_prompt true) []))
  /\ Dict.get "roi" (roi_model fallback_finance) = Some (VStr "To be calculated").
Proof.
  intros Hv Hf. split; [| split; [| split]]; try reflexivity; intros Hbk.
  - unfold OpsAgent_analyze.
    apply run_stage_on_fallback with (text := text) (v := v);
      [exact Hbk | exact Hv | exact Hf | reflexivity].
  - unfold FinanceAgent_analyze.
    apply run_stage_on_fallback with (text := text) (v := v);
      [exact Hbk | exact Hv | exact Hf | reflexivity].
  - unfold RiskAgent_analyze.
    apply run_stage_on_fallback with (text := text) (v := v);
      [exact Hbk | exact Hv | exact Hf | reflexivity].
Qed.

Lemma ops_finance_and_risk_fall_back_witness :
  RiskAgent_analyze cpython example_client (fallback_discovery "n/a")
    (fallback_strategy example_client (fallback_discovery "n/a")) (stub_world "n/a" [])
  = (Ok (fallback_risk example_client),
     after_request (stub_world "n/a" [])
       (mkCall (risk_prompt example_client (fallback_discovery "n/a")
                  (fallback_strategy example_client (fallback_discovery "n/a")))
          risk_system_prompt true) []).
Proof.
  apply (proj1 (proj2 (proj2
           (ops_finance_and_risk_fall_back cpython example_client
              (fallback_discovery "n/a")
              (fallback_strategy example_client (fallback_discovery "n/a"))
              (stub_world "n/a" []) "n/a" VNone eq_refl eq_refl)))).
  reflexivity.
Defined.

(** X9.  Answered with the text of a JSON value that is truthy but no
    mapping (a list, a number, a string), the discovery stage reports the
    validator's [TypeError] and returns the artifact it builds by hand from
    the client input: the goal as problem statement, business and industry
    as the facts gathered. *)
Theorem discovery_answers_non_mapping_by_hand
    (py : Interpreter) (client_input : ClientInput)
    (w : World) (text : string) (v : value) :
  backend w (List.length (llm_calls w)) (discovery_call client_input) = Ok text ->
  extract_json py text = Ok v ->
  truthy v = true ->
  (forall kw, v <> VDict kw) ->
  DiscoveryAgent_analyze py client_input w
  = (Ok (minimal_discovery client_input),
     after_request w (discovery_call client_input)
       [PrintedExn "Error validating discovery output: " TypeError]).
Proof.
  intros Hbk Hv Ht Hd. unfold DiscoveryAgent_analyze.
  apply run_stage_on_non_mapping with (text := text) (v := v); assumption.
Qed.

Lemma discovery_answers_non_mapping_by_hand_witness :
  fst (DiscoveryAgent_analyze cpython example_client (stub_world "[1, 2]" []))
  = Ok (mkDiscoveryOutput "Increase ARR" [] ["B2B SaaS for logistics"; "Logistics"] []
          "B2B SaaS for logistics" "To be determined").
Proof.
  rewrite (discovery_answers_non_mapping_by_hand cpython example_client
             (stub_world "[1, 2]" []) "[1, 2]" (VList [VInt 1; VInt 2]) eq_refl).
  - reflexivity.
  - vm_compute. reflexivity.
  - reflexivity.
  - intros kw. discriminate.
Defined.

(** ** The repair step *)


Lemma get_set {A} (k k' : string) (v : A) (d : list (string * A)) :
  Dict.get k (Dict.set k' v d) = if String.eqb k k' then Some v else Dict.get k d.
Proof.
  induction d as [| [k0 v0] d IH]; cbn [Dict.set Dict.get].
  - destruct (String.eqb k k'); reflexivity.
  - destruct (String.eqb k' k0) eqn:E0; cbn [Dict.get].
    + apply String.eqb_eq in E0. subst k0. destruct (String.eqb k k'); reflexivity.
    + rewrite IH. destruct (String.eqb k k') eqn:E; [| reflexivity].
      apply String.eqb_eq in E. subst k'. rewrite E0. reflexivity.
Qed.

Lemma keys_set {A} (k : string) (v : A) (d : list (string * A)) :
  map fst (Dict.set k v d)
  = (if Dict.mem k d then map fst d else map fst d ++ [k])%list.
Proof.
  unfold Dict.mem.
  induction d as [| [k0 v0] d IH]; cbn [Dict.set Dict.get map fst app]; [reflexivity |].
  destruct (String.eqb k k0) eqn:E0; cbn [map fst].
  - apply String.eqb_eq in E0. subst k0. reflexivity.
  - rewrite IH. destruct (Dict.get k d); reflexivity.
Qed.

Lemma mem_get {A} (k : string) (d : list (string * A)) :
  Dict.mem k d = false -> Dict.get k d = None.
Proof. unfold Dict.mem. destruct (Dict.get k d); [discriminate | reflexivity]. Qed.

Lemma mem_false_not_In {A} (k : string) (d : list (string * A)) :
  Dict.mem k d = false <-> ~ In k (map fst d).
Proof.
  unfold Dict.mem. induction d as [| [k0 v0] d IH]; cbn [Dict.get map fst In].
  - split; [intros _ [] | reflexivity].
  - destruct (String.eqb k k0) eqn:E.
    + apply String.eqb_eq in E. subst k0. split; [discriminate | intros N; exfalso; auto].
    + apply String.eqb_neq in E. rewrite IH. split.
      * intros N [E' | I]; [congruence | auto].
      * intros N I. apply N. right. exact I.
Qed.

Lemma extends_refl names l : extends_by names l l.
Proof. exists []. split; [symmetry; apply app_nil_r | intros x []]. Qed.

Lemma extends_trans names a b c :
  extends_by names b a -> extends_by names c b -> extends_by names c a.
Proof.
  intros (x & -> & Hx) (y & -> & Hy). exists (x ++ y)%list. split.
  - symmetry. apply app_assoc.
  - apply incl_app; assumption.
Qed.

Lemma extends_set names (k : string) (v : value) (d : dict) :
  In k names -> extends_by names (map fst (Dict.set k v d)) (map fst d).
Proof.
  intros Hk. rewrite keys_set. destruct (Dict.mem k d); [apply extends_refl |].
  exists [k]. split; [reflexivity |]. intros x [<- | []]. exact Hk.
Qed.

Section RepairFacts.

Variable py : Interpreter.

Lemma ensure_field_keys names (d : dict) (f : string * FieldInfo) :
  In (fst f) names -> extends_by names (map fst (ensure_field d f)) (map fst d).
Proof.
  destruct f as [name fi]. cbn [fst]. intros Hn. unfold ensure_field.
  destruct (Dict.mem name d); [apply extends_refl |].
  destruct (negb (is_Ellipsis (f_default fi))); [apply extends_set; exact Hn |].
  destruct (f_default_factory fi); [apply extends_set; exact Hn |].
  destruct (empty_value_for (f_annotation fi));
    [apply extends_set; exact Hn | apply extends_refl].
Qed.

Lemma ensure_field_get (d : dict) (f : string * FieldInfo) (k : string) :
  Dict.mem k d = true \/ k <> fst f ->
  Dict.get k (ensure_field d f) = Dict.get k d.
Proof.
  destruct f as [name fi]. cbn [fst]. intros Hk. unfold ensure_field.
  destruct (Dict.mem name d) eqn:Em; [reflexivity |].
  assert (Hne : String.eqb k name = false).
  { apply String.eqb_neq. intros ->. destruct Hk as [Hk | Hk]; congruence. }
  destruct (negb (is_Ellipsis (f_default fi))); [rewrite get_set, Hne; reflexivity |].
  destruct (f_default_factory fi); [rewrite get_set, Hne; reflexivity |].
  destruct (empty_value_for (f_annotation fi)); [rewrite get_set, Hne |]; reflexivity.
Qed.

Lemma ensure_fields_keys names (fs : Fields) (d : dict) :
  incl (map fst fs) names ->
  extends_by names (map fst (fold_left ensure_field fs d)) (map fst d).
Proof.
  revert d. induction fs as [| f fs IH]; intros d Hn; cbn [fold_left].
  - apply extends_refl.
  - eapply extends_trans.
    + apply (ensure_field_keys names d f). apply Hn. left. reflexivity.
    + apply IH. intros x Hx. apply Hn. right. exact Hx.
Qed.

Lemma ensure_fields_get (fs : Fields) (d : dict) (k : string) :
  Dict.mem k d = true \/ ~ In k (map fst fs) ->
  Dict.get k (fold_left ensure_field fs d) = Dict.get k d.
Proof.
  revert d. induction fs as [| f fs IH]; intros d Hk; cbn [fold_left]; [reflexivity |].
  assert (Hstep : Dict.get k (ensure_field d f) = Dict.get k d).
  { apply ensure_field_get. destruct Hk as [Hk | Hk]; [left; exact Hk |].
    right. intros ->. apply Hk. left. reflexivity. }
  rewrite IH; [exact Hstep |].
  destruct Hk as [Hk | Hk].
  - left. unfold Dict.mem in *. rewrite Hstep. exact Hk.
  - right. intros Hin. apply Hk. right. exact Hin.
Qed.

(** The second loop writes under the key of its field only, and only where
    the key is present. *)
Lemma convert_field_keys (d d' : dict) (f : string * FieldInfo) :
  convert_field py d f = Ok d' -> map fst d' = map fst d.
Proof.
  destruct f as [name fi]. unfold convert_field.
  destruct (Dict.get name d) as [v |] eqn:Eg; [| intros [= <-]; reflexivity].
  assert (Hm : Dict.mem name d = true) by (unfold Dict.mem; rewrite Eg; reflexivity).
  assert (Hs : forall u, map fst (Dict.set name u d) = map fst d).
  { intros u. rewrite keys_set, Hm. reflexivity. }
  assert (Hs1 : forall (b : bool) u, map fst (if b then Dict.set name u d else d) = map fst d).
  { intros [] u; [apply Hs | reflexivity]. }
  assert (Hs2 : forall (b : bool) u u',
             map fst (Dict.set name u' (if b then Dict.set name u d else d)) = map fst d).
  { intros b u u'. rewrite keys_set. unfold Dict.mem.
    destruct b; [rewrite get_set, String.eqb_refl; apply Hs | rewrite Eg; reflexivity]. }
  destruct (origin_of (f_annotation fi)) as [[| |] |];
    try (intros [= <-]; reflexivity);
    (destruct (existsb is_NoneType (args_of (f_annotation fi)));
     [ destruct (filter _ _) as [| a ?];
       [ intros [= <-]
       | destruct (isinstance v a) as [b |]; [| discriminate];
         destruct (negb b && negb (is_None v)); intros [= <-] ]
     | intros [= <-] ]);
    try reflexivity; try apply Hs1; try apply Hs2; try apply Hs.
Qed.

Lemma convert_field_get (d d' : dict) (f : string * FieldInfo) (k : string) :
  k <> fst f ->
  convert_field py d f = Ok d' -> Dict.get k d' = Dict.get k d.
Proof.
  destruct f as [name fi]. cbn [fst]. intros Hk. unfold convert_field.
  apply String.eqb_neq in Hk.
  destruct (Dict.get name d) as [v |] eqn:Eg; [| intros [= <-]; reflexivity].
  assert (Hs1 : forall (b : bool) u,
             Dict.get k (if b then Dict.set name u d else d) = Dict.get k d).
  { intros [] u; [rewrite get_set, Hk |]; reflexivity. }
  assert (Hs2 : forall (b : bool) u u',
             Dict.get k (Dict.set name u' (if b then Dict.set name u d else d))
             = Dict.get k d).
  { intros b u u'. rewrite get_set, Hk. apply Hs1. }
  destruct (origin_of (f_annotation fi)) as [[| |] |];
    try (intros [= <-]; reflexivity);
    (destruct (existsb is_NoneType (args_of (f_annotation fi)));
     [ destruct (filter _ _) as [| a ?];
       [ intros [= <-]
       | destruct (isinstance v a) as [b |]; [| discriminate];
         destruct (negb b && negb (is_None v)); intros [= <-] ]
     | intros [= <-] ]);
    try reflexivity; try apply Hs1; try apply Hs2;
    try (rewrite get_set, Hk; reflexivity).
Qed.

Lemma convert_fields_keys (fs : Fields) (d d' : dict) :
  convert_fields py d fs = Ok d' -> map fst d' = map fst d.
Proof.
  revert d. induction fs as [| f fs IH]; intros d; cbn [convert_fields].
  - intros [= <-]. reflexivity.
  - destruct (convert_field py d f) as [d1 |] eqn:E1; [| discriminate].
    intros E. rewrite (IH _ E). eapply convert_field_keys. exact E1.
Qed.

Lemma convert_fields_get (fs : Fields) (d d' : dict) (k : string) :
  ~ In k (map fst fs) ->
  convert_fields py d fs = Ok d' -> Dict.get k d' = Dict.get k d.
Proof.
  revert d. induction fs as [| f fs IH]; intros d Hk; cbn [convert_fields].
  - intros [= <-]. reflexivity.
  - destruct (convert_field py d f) as [d1 |] eqn:E1; [| discriminate].
    intros E. rewrite (IH d1); [| intros Hin; apply Hk; right; exact Hin | exact E].
    eapply convert_field_get; [| exact E1].
    intros ->. apply Hk. left. reflexivity.
Qed.

(** What the second loop leaves under the key of its own field. *)
Lemma convert_field_own (d : dict) (name : string) (fi : FieldInfo) (v : value) :
  In (f_annotation fi) schema_annotations ->
  Dict.get name d = Some v ->
  exists d',
    convert_field py d (name, fi) = Ok d'
    /\ Dict.get name d'
       = Some (match f_annotation fi with
               | t_List _ => as_list v
               | t_Optional _ =>
                   if isinstance_str v || is_None v then v else VStr (py_str py v)
               | _ => v
               end).
Proof.
  intros Ha Eg. unfold convert_field. rewrite Eg.
  cbn [schema_annotations In] in Ha.
  destruct Ha as [<- | [<- | [<- | [<- | [<- | [<- | []]]]]]];
    cbn [origin_of args_of existsb is_NoneType annotation_eqb orb filter negb isinstance];
    unfold as_list.
  - eexists; split; [reflexivity | exact Eg].
  - destruct (isinstance_list v); cbn [negb];
      (eexists; split; [reflexivity |]); [exact Eg | rewrite get_set, String.eqb_refl; reflexivity].
  - destruct (isinstance_list v); cbn [negb];
      (eexists; split; [reflexivity |]); [exact Eg | rewrite get_set, String.eqb_refl; reflexivity].
  - destruct (isinstance_list v); cbn [negb];
      (eexists; split; [reflexivity |]); [exact Eg | rewrite get_set, String.eqb_refl; reflexivity].
  - eexists; split; [reflexivity | exact Eg].
  - destruct (isinstance_str v), (is_None v); cbn [negb andb orb];
      (eexists; split; [reflexivity |]);
      try exact Eg; rewrite get_set, String.eqb_refl; reflexivity.
Qed.

Lemma convert_field_total (d : dict) (f : string * FieldInfo) :
  In (f_annotation (snd f)) schema_annotations ->
  exists d', convert_field py d f = Ok d'.
Proof.
  destruct f as [name fi]. cbn [snd]. intros Ha.
  destruct (Dict.get name d) as [v |] eqn:Eg.
  - destruct (convert_field_own d name fi v Ha Eg) as (d' & E & _). exists d'. exact E.
  - exists d. unfold convert_field. rewrite Eg. reflexivity.
Qed.

Lemma convert_fields_total (fs : Fields) (d : dict) :
  uses_schema_annotations fs ->
  exists d', convert_fields py d fs = Ok d'.
Proof.
  intros Hfs. revert d. induction Hfs as [| f fs Hf _ IH]; intros d; cbn [convert_fields].
  - exists d. reflexivity.
  - destruct (convert_field_total d f Hf) as (d1 & ->). apply IH.
Qed.

Lemma convert_fields_own (fs : Fields) (d : dict) (name : string) (fi : FieldInfo)
    (v : value) :
  uses_schema_annotations fs ->
  NoDup (map fst fs) ->
  In (name, fi) fs ->
  Dict.get name d = Some v ->
  exists d',
    convert_fields py d fs = Ok d'
    /\ Dict.get name d'
       = Some (match f_annotation fi with
               | t_List _ => as_list v
               | t_Optional _ =>
                   if isinstance_str v || is_None v then v else VStr (py_str py v)
               | _ => v
               end).
Proof.
  intros Hfs. revert d.
  induction Hfs as [| f fs Hf Hfs IH]; intros d Hnd Hin Eg; [contradiction |].
  cbn [map] in Hnd. apply NoDup_cons_iff in Hnd. destruct Hnd as [Hfresh Hnd].
  cbn [convert_fields]. destruct Hin as [-> | Hin].
  - destruct (convert_field_own d name fi v Hf Eg) as (d1 & -> & Eg1).
    destruct (convert_fields_total fs d1 Hfs) as (d' & E').
    exists d'. split; [exact E' |].
    rewrite (convert_fields_get fs d1 d' name Hfresh E'). exact Eg1.
  - destruct (convert_field_total d f Hf) as (d1 & E1). rewrite E1.
    apply IH; [exact Hnd | exact Hin |].
    rewrite (convert_field_get d d1 f name); [exact Eg | | exact E1].
    intros ->. apply Hfresh. apply (in_map fst) in Hin. exact Hin.
Qed.

(** The first loop gives a missing field its default. *)
Lemma ensure_fields_default (fs : Fields) (d : dict) (name : string) (fi : FieldInfo) :
  NoDup (map fst fs) ->
  In (name, fi) fs ->
  Dict.mem name d = false ->
  is_Ellipsis (f_default fi) = false ->
  Dict.get name (fold_left ensure_field fs d) = Some (f_default fi).
Proof.
  revert d. induction fs as [| f fs IH]; intros d Hnd Hin Hm He; [contradiction |].
  cbn [map] in Hnd. apply NoDup_cons_iff in Hnd. destruct Hnd as [Hfresh Hnd].
  cbn [fold_left]. destruct Hin as [-> | Hin].
  - assert (E1 : Dict.get name (ensure_field d (name, fi)) = Some (f_default fi)).
    { unfold ensure_field. rewrite Hm, He. cbn [negb].
      rewrite get_set, String.eqb_refl. reflexivity. }
    rewrite ensure_fields_get; [exact E1 |].
    left. unfold Dict.mem. rewrite E1. reflexivity.
  - apply IH; try assumption.
    unfold Dict.mem. rewrite ensure_field_get; [exact Hm |].
    right. intros ->. apply Hfresh. apply (in_map fst) in Hin. exact Hin.
Qed.

Lemma construct_missing (fs : Fields) (kw : dict) (f : string * FieldInfo) :
  In f fs ->
  field_value (snd f) (Dict.get (fst f) kw) = None ->
  construct fs kw = None.
Proof.
  induction fs as [| g fs IH]; intros Hin Hv; [contradiction |].
  cbn [construct]. destruct Hin as [-> | Hin].
  - rewrite Hv. reflexivity.
  - rewrite (IH Hin Hv). destruct (field_value (snd g) _); reflexivity.
Qed.


(** A mapping without one of the model's required fields is rejected
    twice: the first loop puts pydantic's [PydanticUndefined] under the
    missing key, which no annotation of the schemas accepts, alone or
    wrapped in a list. *)
Lemma missing_required_field_raises (T : Type) `{BaseModel T}
    (kw : dict) (name : string) (a : annotation) (w : World) :
  uses_schema_annotations (model_fields T) ->
  NoDup (map fst (model_fields T)) ->
  In (name, required a) (model_fields T) ->
  a <> t_Optional t_str ->
  Dict.mem name kw = false ->
  validate_and_fix_json py T (VDict kw) false w
  = (Raise ValidationError,
     mkWorld (stdin w)
       (stdout w ++ [PrintedExn "Warning: Could not fully validate data: " ValidationError])
       (backend w) (llm_calls w) (clock w)).
Proof.
  intros Hfs Hnd Hin Hopt Hm.
  assert (Ha : In a schema_annotations).
  { unfold uses_schema_annotations in Hfs. rewrite Forall_forall in Hfs.
    apply (Hfs (name, required a) Hin). }
  assert (E1 : model_new T kw = Raise ValidationError).
  { unfold model_new. rewrite (construct_missing _ kw (name, required a) Hin); [reflexivity |].
    cbn [fst snd]. rewrite (mem_get _ _ Hm). reflexivity. }
  destruct (convert_fields_own (model_fields T)
              (fold_left (ensure_field) (model_fields T) kw) name (required a) VUndefined
              Hfs Hnd Hin) as (fixed & Ef & Eg).
  { rewrite (ensure_fields_default (model_fields T) kw name (required a) Hnd Hin Hm);
      reflexivity. }
  assert (E2 : model_new T fixed = Raise ValidationError).
  { unfold model_new. rewrite (construct_missing _ fixed (name, required a) Hin); [reflexivity |].
    cbn [fst snd]. rewrite Eg. cbn [f_annotation required].
    cbn [schema_annotations In] in Ha.
    destruct Ha as [<- | [<- | [<- | [<- | [<- | [<- | []]]]]]];
      try reflexivity. congruence. }
  rewrite (unrepaired_mapping_raises py kw fixed w E1 Ef E2). reflexivity.
Qed.

End RepairFacts.

(** The models of [schemas.py] have distinct field names and the listed
    annotations. *)
Lemma stage_schemas_are_plain :
  Forall (fun fs => uses_schema_annotations fs /\ NoDup (map fst fs)) stage_schemas.
Proof.
  unfold stage_schemas, uses_schema_annotations.
  repeat (apply Forall_cons; [split |]); try apply Forall_nil.
  all: try (repeat (apply Forall_cons; [cbn; tauto |]); apply Forall_nil).
  all: cbn [map fst DiscoveryOutput_fields MarketAnalysis_fields StrategyOutput_fields
              ExecutionPlan_fields FinancialModel_fields RiskAnalysis_fields
              KPIMetrics_fields];
    repeat (apply NoDup_cons; [cbn; intuition discriminate |]); apply NoDup_nil.
Qed.

Lemma plain_schema (fs : Fields) :
  In fs stage_schemas -> uses_schema_annotations fs /\ NoDup (map fst fs).
Proof.
  intros Hin. pose proof stage_schemas_are_plain as Hall.
  rewrite Forall_forall in Hall. exact (Hall fs Hin).
Qed.

(** X10.  The repair step never removes or reorders a key of the mapping
    it is given: the keys of the repaired copy are those of the input, in
    their order, followed by field names of the schema only; and whatever
    stands under a key that is no field of the schema is left as it is. *)
Theorem repair_keeps_what_it_was_given
    (py : Interpreter) (T : Type) `{BaseModel T} (kw fixed : dict) :
  _fix_common_issues py T kw = Ok fixed ->
  (exists added,
      map fst fixed = (map fst kw ++ added)%list
      /\ incl added (map fst (model_fields T)))
  /\ (forall k, Dict.mem k (model_fields T) = false -> Dict.get k fixed = Dict.get k kw).
Proof.
  unfold _fix_common_issues. intros E. split.
  - rewrite (convert_fields_keys py _ _ _ E).
    apply (ensure_fields_keys (map fst (model_fields T))). apply incl_refl.
  - intros k Hk. apply mem_false_not_In in Hk.
    rewrite (convert_fields_get py _ _ _ k Hk E).
    apply ensure_fields_get. right. exact Hk.
Qed.

Lemma repair_keeps_what_it_was_given_witness :
  (exists added,
      map fst [("note", VInt 1); ("compliance_flags", VStr "GDPR");
               ("risks", VList []); ("mitigations", VList []);
               ("legal_considerations", VList [])]
      = (map fst [("note", VInt 1); ("compliance_flags", VStr "GDPR")] ++ added)%list
      /\ incl added (map fst (model_fields RiskAnalysis)))
  /\ (forall k, Dict.mem k (model_fields RiskAnalysis) = false ->
        Dict.get k [("note", VInt 1); ("compliance_flags", VList [VStr "GDPR"]);
                    ("risks", VList [VUndefined]); ("mitigations", VList [VUndefined]);
                    ("legal_considerations", VList [VUndefined])]
        = Dict.get k [("note", VInt 1); ("compliance_flags", VStr "GDPR")]).
Proof.
  apply (@repair_keeps_what_it_was_given cpython RiskAnalysis RiskAnalysis_model
           [("note", VInt 1); ("compliance_flags", VStr "GDPR")]
           [("note", VInt 1); ("compliance_flags", VList [VStr "GDPR"]);
            ("risks", VList [VUndefined]); ("mitigations", VList [VUndefined]);
            ("legal_considerations", VList [VUndefined])]).
  reflexivity.
Defined.

(** X11.  For a model with the annotations of [schemas.py], the repair
    step does not raise, and under a key that the mapping gives it changes
    only two kinds of value: a value that is no list under a list field
    (wrapped in a one-element list, or replaced by the empty list when it is
    falsy), and a value that is neither text nor [None] under an
    [Optional[str]] field (replaced by its [str()]).  A text field or a
    dictionary field keeps the value it was given, whatever its type: a
    number given for a text field is not converted. *)
Theorem repair_changes_list_and_optional_fields_only
    (py : Interpreter) (T : Type) `{BaseModel T}
    (kw : dict) (name : string) (fi : FieldInfo) (v : value) :
  uses_schema_annotations (model_fields T) ->
  NoDup (map fst (model_fields T)) ->
  In (name, fi) (model_fields T) ->
  Dict.get name kw = Some v ->
  exists fixed,
    _fix_common_issues py T kw = Ok fixed
    /\ Dict.get name fixed
       = Some (match f_annotation fi with
               | t_List _ => as_list v
               | t_Optional _ =>
                   if isinstance_str v || is_None v then v else VStr (py_str py v)
               | _ => v
               end).
Proof.
  intros Hfs Hnd Hin Eg. unfold _fix_common_issues.
  apply convert_fields_own; try assumption.
  rewrite ensure_fields_get; [exact Eg |].
  left. unfold Dict.mem. rewrite Eg. reflexivity.
Qed.

Lemma repair_changes_list_and_optional_fields_only_witness :
  exists fixed,
    _fix_common_issues cpython DiscoveryOutput
      [("problem_statement", VInt 5); ("key_assumptions", VStr "one")] = Ok fixed
    /\ Dict.get "problem_statement" fixed = Some (VInt 5).
Proof.
  apply (@repair_changes_list_and_optional_fields_only cpython DiscoveryOutput
           DiscoveryOutput_model
           [("problem_statement", VInt 5); ("key_assumptions", VStr "one")]
           "problem_statement" (required t_str) (VInt 5)).
  - apply (plain_schema DiscoveryOutput_fields). cbn. tauto.
  - apply (plain_schema DiscoveryOutput_fields). cbn. tauto.
  - cbn. tauto.
  - reflexivity.
Defined.

(** X12.  A mapping that lacks a required field of the model is never
    repaired: the validator prints its warning and raises
    [ValidationError], whatever else the mapping holds.  (The repair step
    fills the missing key with the field's default, which for a required
    field is pydantic's [PydanticUndefined].) *)
Theorem missing_required_field_is_not_repaired
    (py : Interpreter) (T : Type) `{BaseModel T}
    (kw : dict) (name : string) (a : annotation) (w : World) :
  uses_schema_annotations (model_fields T) ->
  NoDup (map fst (model_fields T)) ->
  In (name, required a) (model_fields T) ->
  a <> t_Optional t_str ->
  Dict.mem name kw = false ->
  validate_and_fix_json py T (VDict kw) false w
  = (Raise ValidationError,
     mkWorld (stdin w)
       (stdout w ++ [PrintedExn "Warning: Could not fully validate data: " ValidationError])
       (backend w) (llm_calls w) (clock w)).
Proof. apply missing_required_field_raises. Qed.

Lemma missing_required_field_is_not_repaired_witness :
  fst (validate_and_fix_json cpython FinancialModel
         (VDict [("pricing_strategy", VStr "Freemium")]) false (stub_world "" []))
  = Raise ValidationError.
Proof.
  rewrite (@missing_required_field_is_not_repaired cpython FinancialModel FinancialModel_model
             [("pricing_strategy", VStr "Freemium")] "roi_model" (t_Dict t_Any)
             (stub_world "" [])).
  - reflexivity.
  - apply (plain_schema FinancialModel_fields). cbn. tauto.
  - apply (plain_schema FinancialModel_fields). cbn. tauto.
  - cbn. tauto.
  - discriminate.
  - reflexivity.
Defined.

(** X13.  When the response holds a non-empty JSON object that lacks any
    one of the six fields of the discovery schema, the discovery stage
    keeps nothing of it: the validator's warning and the stage's error line
    are printed, and the artifact is the one built by hand from the client
    input. *)
Theorem discovery_discards_an_incomplete_answer
    (py : Interpreter) (client_input : ClientInput)
    (w : World) (text : string) (kw : dict) (name : string) :
  backend w (List.length (llm_calls w)) (discovery_call client_input) = Ok text ->
  extract_json py text = Ok (VDict kw) ->
  kw <> [] ->
  In name (map fst DiscoveryOutput_fields) ->
  Dict.mem name kw = false ->
  DiscoveryAgent_analyze py client_input w
  = (Ok (minimal_discovery client_input),
     after_request w (discovery_call client_input)
       [ PrintedExn "Warning: Could not fully validate data: " ValidationError;
         PrintedExn "Error validating discovery output: " ValidationError ]).
Proof.
  intros Hbk Hext Hkw Hname Hm.
  assert (Hraise : forall w1,
             validate_and_fix_json py DiscoveryOutput (VDict kw) false w1
             = (Raise ValidationError,
                mkWorld (stdin w1)
                  (stdout w1 ++ [PrintedExn "Warning: Could not fully validate data: "
                                   ValidationError])
                  (backend w1) (llm_calls w1) (clock w1))).
  { intros w1.
    destruct (plain_schema DiscoveryOutput_fields) as [Hfs Hnd]; [cbn; tauto |].
    cbn [map fst DiscoveryOutput_fields In] in Hname.
    destruct Hname as [<- | [<- | [<- | [<- | [<- | [<- | []]]]]]];
      (refine (@missing_required_field_raises py DiscoveryOutput
                 DiscoveryOutput_model kw _ _ w1 Hfs Hnd _ _ Hm);
       [cbn; repeat first [left; reflexivity | right] | discriminate]). }
  unfold DiscoveryAgent_analyze, run_stage, bind at 1, generate.
  fold (discovery_call client_input). rewrite Hbk.
  unfold bind at 1, lift. rewrite Hext.
  destruct kw as [| kv kw']; [congruence |]. cbn [truthy negb].
  unfold try_except. rewrite Hraise. cbn [is_Exception].
  unfold after_request, print_exn, bind, ret, minimal_discovery.
  cbn [stdin stdout backend llm_calls clock].
  rewrite <- app_assoc. reflexivity.
Qed.

Lemma discovery_discards_an_incomplete_answer_witness :
  fst (DiscoveryAgent_analyze cpython example_client
         (stub_world (qq "{'problem_statement': 'Churn is high'}") []))
  = Ok (minimal_discovery example_client).
Proof.
  rewrite (discovery_discards_an_incomplete_answer cpython example_client
             (stub_world (qq "{'problem_statement': 'Churn is high'}") [])
             (qq "{'problem_statement': 'Churn is high'}")
             [("problem_statement", VStr "Churn is high")] "target_market").
  - reflexivity.
  - reflexivity.
  - vm_compute. reflexivity.
  - discriminate.
  - cbn. tauto.
  - reflexivity.
Defined.

(** ** Dumping and validating *)

Lemma traverse_map_id {A B} (f : A -> B) (g : B -> option A) (l : list A) :
  (forall x, g (f x) = Some x) -> traverse g (map f l) = Some l.
Proof.
  intros Hgf. induction l as [| x l IH]; [reflexivity |].
  cbn [map traverse]. rewrite Hgf, IH. reflexivity.
Qed.

Lemma validate_dump (a : annotation) :
  round_trips a = true -> forall y : denote a, validate a (dump a y) = Some y.
Proof.
  induction a as [| | | x IH | x IH | x IH]; cbn [round_trips]; intros Hrt y.
  - reflexivity.
  - reflexivity.
  - destruct y. reflexivity.
  - cbn [dump validate]. apply traverse_map_id. exact (IH Hrt).
  - cbn [dump validate]. apply traverse_map_id.
    intros [k v]. unfold on_snd. cbn [fst snd]. rewrite (IH Hrt). reflexivity.
  - apply andb_true_iff in Hrt. destruct Hrt as [Hrt Hx].
    destruct y as [y |]; [| reflexivity].
    cbn [dump]. specialize (IH Hrt y).
    destruct x; try discriminate Hx; cbn [validate dump] in *; rewrite IH; reflexivity.
Qed.

Lemma construct_fresh_key (fs : Fields) (k : string) (v : value) (kw : dict) :
  ~ In k (map fst fs) -> construct fs ((k, v) :: kw) = construct fs kw.
Proof.
  induction fs as [| f fs IH]; intros Hk; [reflexivity |].
  cbn [construct Dict.get].
  destruct (String.eqb (fst f) k) eqn:E.
  - apply String.eqb_eq in E. exfalso. apply Hk. left. exact E.
  - rewrite IH; [reflexivity |]. intros Hin. apply Hk. right. exact Hin.
Qed.

(** Validation undoes [model_dump], field by field. *)
Lemma construct_dump_fields (fs : Fields) (t : fields_type fs) :
  NoDup (map fst fs) ->
  forallb (fun f => round_trips (f_annotation (snd f))) fs = true ->
  construct fs (dump_fields fs t) = Some t.
Proof.
  induction fs as [| f fs IH]; intros Hnd Hrt.
  - destruct t. reflexivity.
  - destruct t as [x xs]. cbn [map] in Hnd. apply NoDup_cons_iff in Hnd.
    destruct Hnd as [Hfresh Hnd].
    cbn [forallb] in Hrt. apply andb_true_iff in Hrt. destruct Hrt as [Hf Hrt].
    cbn [construct dump_fields fst snd Dict.get]. rewrite String.eqb_refl.
    cbn [field_value]. rewrite (validate_dump _ Hf).
    rewrite construct_fresh_key; [| exact Hfresh].
    rewrite (IH xs Hnd Hrt). reflexivity.
Qed.

Section RoundTrip.

Variable py : Interpreter.

(** What validates at once is returned at once, in both modes. *)
Lemma validate_and_fix_json_valid (T : Type) `{BaseModel T}
    (data : value) (strict : bool) (x : T) (w : World) :
  call_schema T data = Ok x ->
  validate_and_fix_json py T data strict w = (Ok x, w).
Proof.
  intros E. unfold validate_and_fix_json, try_except, lift. rewrite E. reflexivity.
Qed.

End RoundTrip.

Ltac round_trip fs t :=
  let E := fresh "E" in
  pose proof (construct_dump_fields fs t) as E;
  match goal with
  | |- context [construct ?F ?D] =>
      change (NoDup (map fst fs) ->
              forallb (fun f => round_trips (f_annotation (snd f))) fs = true ->
              construct F D = Some t) in E
  end;
  rewrite E; [reflexivity | apply (plain_schema fs); cbn; tauto | reflexivity].

(** X14.  Dumping and validating is the identity on every model of
    [schemas.py]: the validator, strict or not, given the [model_dump()] of
    an instance, returns that instance, and prints nothing. *)
Theorem model_dump_validates_back
    (py : Interpreter) (strict : bool) (w : World) :
  (forall x, validate_and_fix_json py DiscoveryOutput
               (VDict (DiscoveryOutput_model_dump x)) strict w = (Ok x, w))
  /\ (forall x, validate_and_fix_json py MarketAnalysis
                  (VDict (MarketAnalysis_model_dump x)) strict w = (Ok x, w))
  /\ (forall x, validate_and_fix_json py StrategyOutput
                  (VDict (StrategyOutput_model_dump x)) strict w = (Ok x, w))
  /\ (forall x, validate_and_fix_json py ExecutionPlan
                  (VDict (ExecutionPlan_model_dump x)) strict w = (Ok x, w))
  /\ (forall x, validate_and_fix_json py FinancialModel
                  (VDict (FinancialModel_model_dump x)) strict w = (Ok x, w))
  /\ (forall x, validate_and_fix_json py RiskAnalysis
                  (VDict (RiskAnalysis_model_dump x)) strict w = (Ok x, w))
  /\ (forall x, validate_and_fix_json py KPIMetrics
                  (VDict (KPIMetrics_model_dump x)) strict w = (Ok x, w)).
Proof.
  repeat split; intros x; apply validate_and_fix_json_valid;
    cbn [call_schema]; unfold model_new.
  - destruct x as [a b c d e f].
    round_trip DiscoveryOutput_fields (a, (b, (c, (d, (e, (f, tt)))))).
  - destruct x as [a b c d e f].
    round_trip MarketAnalysis_fields (a, (b, (c, (d, (e, (f, tt)))))).
  - destruct x as [a b c d e].
    round_trip StrategyOutput_fields (a, (b, (c, (d, (e, tt))))).
  - destruct x as [a b c d e f].
    round_trip ExecutionPlan_fields (a, (b, (c, (d, (e, (f, tt)))))).
  - destruct x as [a b c d e f].
    round_trip FinancialModel_fields (a, (b, (c, (d, (e, (f, tt)))))).
  - destruct x as [a b c d].
    round_trip RiskAnalysis_fields (a, (b, (c, (d, tt)))).
  - destruct x as [a b c d e].
    round_trip KPIMetrics_fields (a, (b, (c, (d, (e, tt))))).
Qed.

(** ** The mapping handed to the renderer *)

(** X15.  After a run of the pipeline, [to_dict] on the orchestrator's
    stitcher returns the content of the report that was returned: its
    summary and the dump of each of its seven sections, under nine keys in
    this order; only the time stamp is read anew. *)
Theorem to_dict_holds_the_generated_report
    (py : Interpreter) (isoformat : Z -> string)
    (self self' : BusinessConsultantOrchestrator)
    (client_input : ClientInput) (w w' w2 : World) (r : FullReport) :
  generate_report py self client_input w = (Ok (r, self'), w') ->
  to_dict py isoformat (stitcher self') w2
  = (Ok [ ("executive_summary", VStr (executive_summary r));
          ("discovery", VDict (DiscoveryOutput_model_dump (discovery r)));
          ("market_analysis", VDict (MarketAnalysis_model_dump (market_analysis r)));
          ("strategy", VDict (StrategyOutput_model_dump (strategy r)));
          ("execution_plan", VDict (ExecutionPlan_model_dump (execution_plan r)));
          ("financial_model", VDict (FinancialModel_model_dump (financial_model r)));
          ("risk_analysis", VDict (RiskAnalysis_model_dump (risk_analysis r)));
          ("kpi_dashboard", VDict (KPIMetrics_model_dump (kpi_dashboard r)));
          ("generated_at", VStr (isoformat (clock w2))) ],
     w2).
Proof.
  intros E. pose proof (generate_report_outcome py self client_input w) as H.
  unfold outcome in H. rewrite E in H. cbn [fst snd] in H.
  destruct H as (Hs & _ & _ & _ & Hx).
  unfold holds_report in Hs.
  unfold to_dict, build_full_report, FullReport_new, bind.
  rewrite <- Hx, Hs.
  cbn [sec_discovery sec_market_analysis sec_strategy sec_execution_plan
       sec_financial_model sec_risk_analysis sec_kpi_dashboard].
  unfold bind, datetime_now, ret. reflexivity.
Qed.

Lemma to_dict_holds_the_generated_report_witness :
  exists r self' w',
    generate_report cpython new_orchestrator example_client (stub_world "" [])
    = (Ok (r, self'), w')
    /\ Dict.get "generated_at"
         (match fst (to_dict cpython no_isoformat (stitcher self') w') with
          | Ok d => d
          | Raise _ => []
          end)
       = Some (VStr "<time>").
Proof.
  destruct (generate_report cpython new_orchestrator example_client (stub_world "" []))
    as [[[r self'] | e] w'] eqn:E; [| vm_compute in E; discriminate E].
  exists r, self', w'. split; [reflexivity |].
  rewrite (to_dict_holds_the_generated_report cpython no_isoformat
             new_orchestrator self' example_client (stub_world "" []) w' w' r E).
  reflexivity.
Defined.

(** X16.  A stitcher that lacks any one of the seven sections cannot be
    rendered: [build_full_report] raises [ValidationError], and so does
    [to_dict] before it writes a single entry, so its empty-mapping
    alternatives for a missing section are never produced.  Nothing is
    printed. *)
Theorem to_dict_raises_without_a_section
    (py : Interpreter) (isoformat : Z -> string)
    (self : ReportStitcher) (w : World) :
  sec_discovery (sections self) = None \/ sec_market_analysis (sections self) = None
  \/ sec_strategy (sections self) = None \/ sec_execution_plan (sections self) = None
  \/ sec_financial_model (sections self) = None \/ sec_risk_analysis (sections self) = None
  \/ sec_kpi_dashboard (sections self) = None ->
  build_full_report py self w = (Raise ValidationError, w)
  /\ to_dict py isoformat self w = (Raise ValidationError, w).
Proof.
  intros Hmiss.
  assert (Hb : build_full_report py self w = (Raise ValidationError, w)).
  { unfold build_full_report, FullReport_new.
    destruct (sections self) as [d m s e f r k]; cbn in Hmiss |- *.
    destruct d, m, s, e, f, r, k; try reflexivity;
      exfalso; intuition discriminate. }
  split; [exact Hb |].
  unfold to_dict, bind. rewrite Hb. reflexivity.
Qed.

Lemma to_dict_raises_without_a_section_witness :
  to_dict cpython no_isoformat (stitcher new_orchestrator) (stub_world "" [])
  = (Raise ValidationError, stub_world "" []).
Proof.
  apply (to_dict_raises_without_a_section cpython no_isoformat
           (stitcher new_orchestrator) (stub_world "" [])).
  left. reflexivity.
Defined.

(** ** What the extractor can return *)

(** A successful match hands the continuation a text no longer than the
    one it started from. *)
Lemma m_length {A} (r : Re.re) :
  forall (s : string) (k : string -> option A) (y : A),
    Re.m r s k = Some y ->
    exists s', String.length s' <= String.length s /\ k s' = Some y.
Proof.
  induction r as [| p | a IHa b IHb | a IHa b IHb | greedy a IHa]; intros s k y; cbn [Re.m].
  - intros E. exists s. split; [lia | exact E].
  - destruct s as [| c s1]; [discriminate |].
    destruct (p c); [| discriminate].
    intros E. exists s1. split; [cbn; lia | exact E].
  - intros E. apply IHa in E. destruct E as (s1 & L1 & E).
    apply IHb in E. destruct E as (s2 & L2 & E).
    exists s2. split; [lia | exact E].
  - unfold Re.or_else. destruct (Re.m a s k) eqn:Ea.
    + intros [= <-]. apply IHa in Ea. exact Ea.
    + apply IHb.
  - generalize (String.length s) at 1 as n. intros n. revert s.
    induction n as [| n IHn]; intros s.
    + intros E. exists s. split; [lia | exact E].
    + assert (Hagain :
        Re.m a s
          (fun s' =>
             if (String.length s' <? String.length s)%nat
             then (fix loop (n : nat) (s : string) {struct n} : option A :=
                     match n with
                     | O => k s
                     | S n' =>
                         let again :=
                           Re.m a s
                             (fun s' =>
                                if (String.length s' <? String.length s)%nat
                                then loop n' s' else None) in
                         if greedy then Re.or_else again (k s)
                         else Re.or_else (k s) again
                     end) n s'
             else None) = Some y ->
        exists s', String.length s' <= String.length s /\ k s' = Some y).
      { intros E. apply IHa in E. destruct E as (s1 & L1 & E).
        destruct (String.length s1 <? String.length s)%nat; [| discriminate].
        apply IHn in E. destruct E as (s2 & L2 & E).
        exists s2. split; [lia | exact E]. }
      cbv zeta. unfold Re.or_else. destruct greedy.
      * match goal with |- match ?x with _ => _ end = _ -> _ => destruct x eqn:Ex end.
        -- intros [= <-]. apply Hagain. exact Ex.
        -- intros E. exists s. split; [lia | exact E].
      * destruct (k s) eqn:Ek.
        -- intros [= <-]. exists s. split; [lia | exact Ek].
        -- exact Hagain.
Qed.

Lemma consumed_opens_object (s1 s' : string) :
  String.length s' <= String.length s1 ->
  opens_object (consumed (String "{"%char s1) s').
Proof.
  intros L. unfold consumed. cbn [String.length].
  replace (S (String.length s1) - String.length s')
    with (S (String.length s1 - String.length s')) by lia.
  cbn [substring]. eexists. reflexivity.
Qed.

Lemma m_lbrace {A} (r : Re.re) (s : string) (k : string -> option A) (y : A) :
  Re.m (Re.Seq Re.lbrace r) s k = Some y ->
  exists s1 s',
    s = String "{"%char s1 /\ String.length s' <= String.length s1 /\ k s' = Some y.
Proof.
  cbn [Re.m Re.lbrace]. destruct s as [| c s1]; [discriminate |].
  destruct (Ascii.eqb "{"%char c) eqn:Ec; [| discriminate].
  apply Ascii.eqb_eq in Ec. subst c.
  intros E. apply m_length in E. destruct E as (s' & L & E).
  exists s1, s'. auto.
Qed.

Lemma json_pattern_opens_object (s x rest : string) :
  json_pattern s = Some (x, rest) -> opens_object x.
Proof.
  unfold json_pattern, json_pattern_re. intros E.
  apply m_lbrace in E. destruct E as (s1 & s' & -> & L & [= <- <-]).
  apply consumed_opens_object. exact L.
Qed.

Lemma json_block_pattern_opens_object (s x rest : string) :
  json_block_pattern s = Some (x, rest) -> opens_object x.
Proof.
  unfold json_block_pattern. intros E.
  apply m_length in E. destruct E as (s1 & _ & E).
  apply m_lbrace in E. destruct E as (s1' & s2 & -> & L & E).
  apply m_length in E. destruct E as (s3 & _ & [= <- <-]).
  apply consumed_opens_object. exact L.
Qed.

Lemma findall_from_Forall {A} (at_start : string -> option (A * string))
    (P : A -> Prop) (fuel : nat) (s : string) :
  (forall s x rest, at_start s = Some (x, rest) -> P x) ->
  Forall P (Re.findall_from at_start fuel s).
Proof.
  intros Hat. revert s. induction fuel as [| fuel IH]; intros s; cbn [Re.findall_from].
  - constructor.
  - destruct (at_start s) as [[x rest] |] eqn:E.
    + specialize (Hat _ _ _ E).
      destruct (String.length rest <? String.length s)%nat.
      * constructor; [exact Hat | apply IH].
      * destruct s; constructor; try exact Hat; try apply IH. constructor.
    + destruct s; [constructor | apply IH].
Qed.

(** The decoder reads a text that opens with a brace as an object. *)
Lemma scan_once_object (py : Interpreter) (fuel depth : nat) (r : string)
    (v : value) (rest : string) :
  Json.scan_once py fuel depth (String "{"%char r) = Ok (v, rest) -> exists d, v = VDict d.
Proof.
  destruct fuel as [| fuel]; [discriminate |].
  cbn [Json.scan_once].
  change (Ascii.eqb "{"%char dquote) with false.
  change (Ascii.eqb "{"%char "{"%char) with true.
  cbv iota. intros E.
  repeat match type of E with
         | context [match ?x with _ => _ end] => destruct x; try discriminate E
         end;
    injection E as <- <-; eexists; reflexivity.
Qed.

Lemma loads_object (py : Interpreter) (s : string) (v : value) :
  opens_object s -> Json.loads py s = Ok v -> exists d, v = VDict d.
Proof.
  intros [r ->]. unfold Json.loads.
  change (Json.skip_ws (String "{"%char r)) with (String "{"%char r).
  destruct (Json.scan_once _ _ _ _) as [[v0 rest] | e] eqn:E; [| discriminate].
  destruct (Json.skip_ws rest); [| discriminate].
  intros [= <-]. eapply scan_once_object. exact E.
Qed.

(** One step of the extractor returns what it parsed, or what the next
    steps return. *)
Lemma loads_or_returns (py : Interpreter) (s : string) (otherwise : result value)
    (v : value) :
  loads_or py s otherwise = Ok v ->
  Json.loads py s = Ok v \/ otherwise = Ok v.
Proof.
  unfold loads_or. destruct (Json.loads py s) as [v0 | e].
  - intros [= <-]. left. reflexivity.
  - destruct (is_JSONDecodeError e); [right; assumption | discriminate].
Qed.

Lemma first_loads_object (py : Interpreter) (matches : list string) (v : value) :
  Forall opens_object matches ->
  first_loads py matches = Ok v -> v = VNone \/ exists d, v = VDict d.
Proof.
  induction 1 as [| x l Hx _ IH]; cbn [first_loads].
  - intros [= <-]. left. reflexivity.
  - intros E. destruct (loads_or_returns py x _ v E) as [El | Er]; [| exact (IH Er)].
    right. eapply loads_object; eassumption.
Qed.

(** X17.  When the extractor returns, it returns [None], a dictionary, or
    the value of the whole trimmed text: its two searches, in a fenced
    block and for a brace-delimited span, yield dictionaries only, so a
    list, a number, a string or a boolean comes out only when the response
    as a whole is that JSON value.  When it raises, it raises what
    [json.loads] raised at a limit of the interpreter, a [RecursionError]
    or the [ValueError] of an integer too long to convert. *)
Theorem extract_json_returns_none_a_dictionary_or_the_whole_text
    (py : Interpreter) (text : string) :
  match extract_json py text with
  | Ok v =>
      v = VNone
      \/ (exists d, v = VDict d)
      \/ Json.loads py (strip text) = Ok v
  | Raise e => interpreter_limit py e
  end.
Proof.
  destruct (extract_json py text) as [v | e] eqn:Ex;
    [| eapply extract_json_raises; exact Ex].
  unfold extract_json in Ex.
  destruct (loads_or_returns py _ _ v Ex) as [El | Er]; [right; right; exact El |].
  clear Ex.
  pose proof (findall_from_Forall json_block_pattern opens_object
                (S (String.length text)) text json_block_pattern_opens_object) as Hblock.
  pose proof (findall_from_Forall json_pattern opens_object
                (S (String.length text)) text json_pattern_opens_object) as Hspan.
  fold (Re.findall json_block_pattern text) in Hblock.
  fold (Re.findall json_pattern text) in Hspan.
  assert (Hrest : first_loads py (Re.findall json_pattern text) = Ok v ->
                  v = VNone \/ (exists d, v = VDict d)
                  \/ Json.loads py (strip text) = Ok v).
  { intros E. destruct (first_loads_object py _ v Hspan E) as [-> | Hd]; auto. }
  destruct (Re.findall json_block_pattern text) as [| m0 rest]; [exact (Hrest Er) |].
  destruct (loads_or_returns py _ _ v Er) as [El | Er']; [| exact (Hrest Er')].
  inversion Hblock as [| ? ? Hm0 _]; subst.
  right; left. eapply loads_object; eassumption.
Qed.

(** ** The metrics as text *)

Lemma filter_metric_lines (py : Interpreter) (d : dict) :
  filter is_metric_line (map (metric_line py) d) = map (metric_line py) d.
Proof.
  induction d as [| kv d IH]; [reflexivity |].
  cbn [map filter]. rewrite IH. reflexivity.
Qed.

Lemma join_head (sep a : string) (rest : list string) :
  exists tail, join sep (a :: rest) = a ++ tail.
Proof.
  destruct rest as [| b rest].
  - exists "". cbn [join]. symmetry. apply append_empty_r.
  - exists (sep ++ join sep (b :: rest)). reflexivity.
Qed.

(** X18.  The text of the metrics opens with the title line and shows, one
    line each and in this order, the entries of the revenue, operational,
    financial and target groups, and nothing else: the customer group of
    the dashboard is never shown. *)
Theorem display_shows_four_groups_of_five
    (py : Interpreter) (self : KPIGenerator) (kpi : KPIMetrics) :
  filter is_metric_line (format_metrics_lines py kpi)
  = map (metric_line py)
      (revenue_metrics kpi ++ operational_metrics kpi
         ++ financial_metrics kpi ++ targets kpi)%list
  /\ (exists rest,
        format_metrics_for_display py self kpi = "# KPI Dashboard" ++ nl ++ rest)
  /\ (forall shown_or_not,
        format_metrics_for_display py self
          (mkKPIMetrics (revenue_metrics kpi) (operational_metrics kpi) shown_or_not
             (financial_metrics kpi) (targets kpi))
        = format_metrics_for_display py self kpi).
Proof.
  split; [| split].
  - unfold format_metrics_lines.
    destruct kpi as [r o c f t]. cbn [revenue_metrics operational_metrics financial_metrics targets].
    rewrite !map_app.
    assert (Hhead : forall h,
               is_metric_line h = false -> filter is_metric_line [h] = []).
    { intros h Hh. cbn [filter]. rewrite Hh. reflexivity. }
    destruct r, o, f, t; cbn [nonempty];
      rewrite ?filter_app, ?filter_metric_lines, ?Hhead by reflexivity;
      cbn [app map]; rewrite <- ?app_assoc, ?app_nil_r; cbn [app]; reflexivity.
  - unfold format_metrics_for_display.
    destruct (format_metrics_lines py kpi) as [| a rest] eqn:E.
    + exfalso. unfold format_metrics_lines in E.
      destruct (nonempty (revenue_metrics kpi)), (nonempty (operational_metrics kpi)),
        (nonempty (financial_metrics kpi)), (nonempty (targets kpi)); discriminate E.
    + assert (Ha : a = "# KPI Dashboard" ++ nl).
      { unfold format_metrics_lines in E.
        destruct (nonempty (revenue_metrics kpi)), (nonempty (operational_metrics kpi)),
          (nonempty (financial_metrics kpi)), (nonempty (targets kpi));
          cbn [app] in E; congruence. }
      subst a. destruct (join_head nl ("# KPI Dashboard" ++ nl) rest) as (tail & ->).
      exists tail. rewrite append_assoc. reflexivity.
  - intros c. destruct kpi; reflexivity.
Qed.

(** ** [generate_json] *)

Lemma search_no_brace (s : string) :
  contains "{"%char s = false -> search object_span s = None.
Proof.
  induction s as [| c s IH]; [reflexivity |].
  cbn [contains]. intros Hc. apply orb_false_iff in Hc. destruct Hc as [Hc Hs].
  cbn [search]. unfold object_span at 1. cbn [Re.m Re.lbrace]. rewrite Hc.
  exact (IH Hs).
Qed.

Lemma contains_app (c : ascii) (a b : string) :
  contains c (a ++ b) = contains c a || contains c b.
Proof.
  induction a as [| x a IH]; [reflexivity |].
  cbn [append contains]. rewrite IH. apply orb_assoc.
Qed.

(** A greedy [.*] hands what follows it the suffixes of the text, the
    shortest first. *)
Lemma star_any_from_the_end {A} (s : string) (k : string -> option A) :
  Re.m (Re.Star true (Re.Chr Re.any)) s k = from_the_end k s.
Proof.
  cbn [Re.m].
  match goal with |- ?f (String.length s) s = _ => set (loop := f) end.
  assert (H : forall n s, String.length s <= n -> loop n s = from_the_end k s).
  { clear s. induction n as [| n IH]; intros s Hn.
    - destruct s as [| c s']; [reflexivity | cbn [String.length] in Hn; lia].
    - destruct s as [| c s']; [reflexivity |].
      cbn [String.length] in Hn.
      subst loop. cbn [from_the_end Re.any String.length Re.m].
      replace (String.length s' <? S (String.length s'))%nat with true
        by (symmetry; apply Nat.ltb_lt; lia).
      rewrite IH by lia. reflexivity. }
  apply H. lia.
Qed.


Lemma object_span_at_brace (r : string) :
  object_span (String "{"%char r)
  = from_the_end (closing_brace (String "{"%char r)) r.
Proof.
  unfold object_span. cbn [Re.m Re.lbrace].
  change (Ascii.eqb "{"%char "{"%char) with true. cbv iota.
  apply (star_any_from_the_end r).
Qed.

Lemma from_the_end_no_brace (whole s : string) :
  contains "}"%char s = false -> from_the_end (closing_brace whole) s = None.
Proof.
  induction s as [| c s IH]; [reflexivity |].
  cbn [contains]. intros Hc. apply orb_false_iff in Hc. destruct Hc as [Hc Hs].
  cbn [from_the_end]. rewrite (IH Hs).
  unfold closing_brace. cbn [Re.m Re.rbrace Re.or_else]. rewrite Hc. reflexivity.
Qed.

(** The greedy [.*] stops at the last closing brace. *)
Lemma from_the_end_last_brace (whole inside after : string) :
  contains "}"%char after = false ->
  from_the_end (closing_brace whole) (inside ++ String "}"%char after)
  = Some (consumed whole after).
Proof.
  intros Ha. induction inside as [| c inside IH].
  - cbn [append from_the_end]. rewrite (from_the_end_no_brace whole after Ha).
    reflexivity.
  - cbn [append from_the_end]. rewrite IH. reflexivity.
Qed.

Lemma length_app (a b : string) :
  String.length (a ++ b) = String.length a + String.length b.
Proof. induction a as [| x a IH]; cbn; [reflexivity | rewrite IH; reflexivity]. Qed.

Lemma consumed_app (a b : string) : consumed (a ++ b) b = a.
Proof.
  unfold consumed.
  replace (String.length (a ++ b) - String.length b) with (String.length a).
  - induction a as [| c a IH]; cbn [append String.length substring].
    + destruct b; reflexivity.
    + rewrite IH. reflexivity.
  - rewrite length_app. lia.
Qed.

Lemma object_span_no_closing_brace (s : string) :
  contains "}"%char s = false -> object_span s = None.
Proof.
  destruct s as [| c r]; [reflexivity |].
  cbn [contains]. intros Hc. apply orb_false_iff in Hc. destruct Hc as [_ Hr].
  destruct (Ascii.eqb "{"%char c) eqn:Ec.
  - apply Ascii.eqb_eq in Ec. subst c. rewrite object_span_at_brace.
    apply from_the_end_no_brace. exact Hr.
  - unfold object_span. cbn [Re.m Re.lbrace]. rewrite Ec. reflexivity.
Qed.

Lemma search_no_closing_brace (s : string) :
  contains "}"%char s = false -> search object_span s = None.
Proof.
  induction s as [| c s IH]; [reflexivity |].
  intros Hc. cbn [search]. rewrite (object_span_no_closing_brace _ Hc).
  cbn [contains] in Hc. apply orb_false_iff in Hc. exact (IH (proj2 Hc)).
Qed.

(** The search skips what stands before the first opening brace. *)
Lemma search_skips (before s : string) :
  contains "{"%char before = false ->
  search object_span (before ++ String "{"%char s)
  = search object_span (String "{"%char s).
Proof.
  induction before as [| c before IH]; [reflexivity |].
  cbn [contains]. intros Hc. apply orb_false_iff in Hc. destruct Hc as [Hc Hb].
  cbn [append]. cbn [search]. unfold object_span at 1. cbn [Re.m Re.lbrace].
  rewrite Hc. exact (IH Hb).
Qed.

(** [re.search] with the pattern of [generate_json] finds the span from the
    first opening brace to the last closing brace. *)
Lemma search_object_span (before inside after : string) :
  contains "{"%char before = false ->
  contains "}"%char after = false ->
  search object_span (before ++ "{" ++ inside ++ "}" ++ after)
  = Some ("{" ++ inside ++ "}").
Proof.
  intros Hb Ha.
  change ("{" ++ inside ++ "}" ++ after) with (String "{"%char (inside ++ String "}"%char after)).
  rewrite (search_skips _ _ Hb). cbn [search].
  rewrite object_span_at_brace, (from_the_end_last_brace _ _ _ Ha).
  f_equal.
  change (String "{"%char (inside ++ String "}"%char after))
    with ("{" ++ inside ++ "}" ++ after).
  replace ("{" ++ inside ++ "}" ++ after) with (("{" ++ inside ++ "}") ++ after).
  - apply consumed_app.
  - rewrite !append_assoc. reflexivity.
Qed.

(** No closing brace after the first opening one: nothing is found. *)
Lemma search_object_span_none (before rest : string) :
  contains "{"%char before = false ->
  contains "}"%char rest = false ->
  search object_span (before ++ "{" ++ rest) = None.
Proof.
  intros Hb Hr.
  change ("{" ++ rest) with (String "{"%char rest).
  rewrite (search_skips _ _ Hb).
  apply search_no_closing_brace. cbn [contains]. rewrite Hr. reflexivity.
Qed.

(** [generate_json], answered with [text]. *)
Lemma generate_json_on (py : Interpreter) (json_dumps : value -> string)
    (prompt system_prompt : string) (schema : value) (w : World) (text : string) :
  backend w (List.length (llm_calls w))
    (mkCall (with_schema json_dumps prompt schema) system_prompt true) = Ok text ->
  generate_json py json_dumps prompt system_prompt schema w
  = (match Json.loads py text with
     | Ok v => Ok v
     | Raise e =>
         if is_JSONDecodeError e then
           match search object_span text with
           | Some group => Json.loads py group
           | None => Raise (ValueError ("Could not parse JSON from response: "
                                        ++ slice_to 200 text))
           end
         else Raise e
     end,
     after_request w (mkCall (with_schema json_dumps prompt schema) system_prompt true) []).
Proof.
  intros Hbk. unfold generate_json, bind, generate. rewrite Hbk.
  unfold try_except, lift, raise, after_request.
  cbn [stdin stdout backend llm_calls clock]. rewrite app_nil_r.
  destruct (Json.loads py text) as [v | e]; [reflexivity |].
  destruct (is_JSONDecodeError e); [| reflexivity].
  destruct (search object_span text); reflexivity.
Qed.

(** X19.  [generate_json] makes one request, in JSON mode, with the schema
    text after the prompt when a schema is given, and changes nothing else.
    When the whole response is JSON it returns its value, whatever its
    type; when [json.loads] raises on it anything but [JSONDecodeError] (a
    [RecursionError], the [ValueError] of an integer too long), that is
    raised.  When it raises [JSONDecodeError], the span from the first
    opening brace to the last closing brace after it is parsed instead, and
    the outcome of that parse is the outcome of the call: a dictionary when
    it returns, [JSONDecodeError] or whatever else [json.loads] raises when
    it does not.  When no closing brace follows the first opening brace, or
    the response has no opening brace, the call raises a [ValueError] that
    quotes the first 200 characters of the response. *)
Theorem generate_json_returns_the_text_or_a_dictionary
    (py : Interpreter) (json_dumps : value -> string)
    (prompt system_prompt : string) (schema : value)
    (w : World) (text : string) :
  backend w (List.length (llm_calls w))
    (mkCall (with_schema json_dumps prompt schema) system_prompt true) = Ok text ->
  (forall v,
      Json.loads py text = Ok v ->
      generate_json py json_dumps prompt system_prompt schema w
      = (Ok v,
         after_request w
           (mkCall (with_schema json_dumps prompt schema) system_prompt true) []))
  /\ (forall e,
        Json.loads py text = Raise e ->
        is_JSONDecodeError e = false ->
        generate_json py json_dumps prompt system_prompt schema w
        = (Raise e,
           after_request w
             (mkCall (with_schema json_dumps prompt schema) system_prompt true) []))
  /\ (forall before inside after,
        Json.loads py text = Raise JSONDecodeError ->
        text = before ++ "{" ++ inside ++ "}" ++ after ->
        contains "{"%char before = false ->
        contains "}"%char after = false ->
        generate_json py json_dumps prompt system_prompt schema w
        = (Json.loads py ("{" ++ inside ++ "}"),
           after_request w
             (mkCall (with_schema json_dumps prompt schema) system_prompt true) [])
        /\ (forall v, Json.loads py ("{" ++ inside ++ "}") = Ok v -> exists d, v = VDict d))
  /\ (forall before rest,
        Json.loads py text = Raise JSONDecodeError ->
        text = before ++ "{" ++ rest ->
        contains "{"%char before = false ->
        contains "}"%char rest = false ->
        generate_json py json_dumps prompt system_prompt schema w
        = (Raise (ValueError ("Could not parse JSON from response: " ++ slice_to 200 text)),
           after_request w
             (mkCall (with_schema json_dumps prompt schema) system_prompt true) []))
  /\ (Json.loads py text = Raise JSONDecodeError ->
      contains "{"%char text = false ->
      generate_json py json_dumps prompt system_prompt schema w
      = (Raise (ValueError ("Could not parse JSON from response: " ++ slice_to 200 text)),
         after_request w
           (mkCall (with_schema json_dumps prompt schema) system_prompt true) []))
  /\ (truthy schema = false -> with_schema json_dumps prompt schema = prompt)
  /\ (truthy schema = true ->
      with_schema json_dumps prompt schema
      = prompt ++ nl ++ nl ++ "Please respond in JSON format matching this schema:" ++ nl
          ++ json_dumps schema).
Proof.
  intros Hbk. rewrite (generate_json_on py json_dumps prompt system_prompt schema w text Hbk).
  repeat apply conj.
  - intros v ->. reflexivity.
  - intros e -> ->. reflexivity.
  - intros before inside after -> -> Hb Ha. cbn [is_JSONDecodeError].
    rewrite (search_object_span _ _ _ Hb Ha).
    split; [reflexivity |].
    intros v Hv. eapply loads_object; [| exact Hv]. eexists. reflexivity.
  - intros before rest -> -> Hb Hr. cbn [is_JSONDecodeError].
    rewrite (search_object_span_none _ _ Hb Hr). reflexivity.
  - intros -> Hc. cbn [is_JSONDecodeError].
    rewrite (search_no_brace _ Hc). reflexivity.
  - intros Hs. unfold with_schema. rewrite Hs. reflexivity.
  - intros Hs. unfold with_schema. rewrite Hs. reflexivity.
Qed.

Lemma generate_json_returns_the_text_or_a_dictionary_witness :
  generate_json cpython no_dumps "List the risks" "" VNone
    (stub_world (qq "Sure: {'risks': []} Done.") [])
  = (Ok (VDict [("risks", VList [])]),
     after_request (stub_world (qq "Sure: {'risks': []} Done.") [])
       (mkCall "List the risks" "" true) []).
Proof.
  apply (proj1 (proj1 (proj2 (proj2
           (generate_json_returns_the_text_or_a_dictionary cpython no_dumps
              "List the risks" "" VNone
              (stub_world (qq "Sure: {'risks': []} Done.") [])
              (qq "Sure: {'risks': []} Done.") eq_refl)))
           "Sure: " (qq "'risks': []") " Done." eq_refl eq_refl eq_refl eq_refl)).
Defined.

(** ** [clean_json_string] *)

Lemma m_chr {A} (p : ascii -> bool) (s : string) (k : string -> option A) (y : A) :
  Re.m (Re.Chr p) s k = Some y ->
  exists c s1, s = String c s1 /\ p c = true /\ k s1 = Some y.
Proof.
  cbn [Re.m]. destruct s as [| c s1]; [discriminate |].
  destruct (p c) eqn:Ep; [| discriminate].
  intros E. exists c, s1. auto.
Qed.

(** One step of a star over a class of characters. *)
Lemma star_empty {A} (greedy : bool) (a : Re.re) (k : string -> option A) :
  Re.m (Re.Star greedy a) "" k = k "".
Proof. reflexivity. Qed.

Lemma star_step {A} (greedy : bool) (p : ascii -> bool) (c : ascii) (s : string)
    (k : string -> option A) :
  Re.m (Re.Star greedy (Re.Chr p)) (String c s) k
  = let again := if p c then Re.m (Re.Star greedy (Re.Chr p)) s k else None in
    if greedy then Re.or_else again (k (String c s))
    else Re.or_else (k (String c s)) again.
Proof.
  cbn [Re.m String.length]. destruct (p c); [| reflexivity].
  rewrite (proj2 (Nat.ltb_lt (String.length s) (S (String.length s))) (Nat.lt_succ_diag_r _)).
  reflexivity.
Qed.

Section Substitution.

Variable at_start : string -> option (string * string).

(** Where the pattern's first character does not occur, nothing is
    replaced. *)
Variable opening : ascii.
Hypothesis opens_with :
  forall s, match s with
            | String c _ => Ascii.eqb opening c = false
            | EmptyString => True
            end -> at_start s = None.

Lemma sub_from_prefix (a t : string) (n : nat) :
  contains opening a = false ->
  sub_from at_start (String.length a + n) (a ++ t) = a ++ sub_from at_start n t.
Proof.
  induction a as [| c a IH]; [reflexivity |].
  cbn [contains]. intros Hc. apply orb_false_iff in Hc. destruct Hc as [Hc Ha].
  cbn [String.length Nat.add append sub_from].
  rewrite (opens_with (String c (a ++ t)) Hc), (IH Ha). reflexivity.
Qed.

Lemma sub_from_absent (fuel : nat) (s : string) :
  contains opening s = false -> sub_from at_start fuel s = s.
Proof.
  revert s. induction fuel as [| fuel IH]; intros s; [reflexivity |].
  destruct s as [| c s]; cbn [contains sub_from].
  - intros _. rewrite (opens_with "" I). reflexivity.
  - intros Hc. apply orb_false_iff in Hc. destruct Hc as [Hc Hs].
    rewrite (opens_with (String c s) Hc), (IH s Hs). reflexivity.
Qed.

Lemma sub_absent (s : string) :
  contains opening s = false -> sub at_start s = s.
Proof. apply sub_from_absent. Qed.

(** A match after a prefix without the opening character. *)
Lemma sub_after_prefix (a t repl rest : string) :
  contains opening a = false ->
  at_start t = Some (repl, rest) ->
  String.length rest < String.length t ->
  contains opening rest = false ->
  sub at_start (a ++ t) = a ++ repl ++ rest.
Proof.
  intros Ha Ht Hlt Hrest. unfold sub. rewrite length_app.
  replace (S (String.length a + String.length t))
    with (String.length a + S (String.length t)) by lia.
  rewrite (sub_from_prefix a t _ Ha). cbn [sub_from]. rewrite Ht.
  rewrite (proj2 (Nat.ltb_lt _ _) Hlt), (sub_from_absent _ _ Hrest). reflexivity.
Qed.

End Substitution.

Section Shrinking.

Variable at_start : string -> option (string * string).

(** Where no replacement is longer than its match, the text does not grow. *)
Hypothesis shrinks :
  forall s repl rest,
    at_start s = Some (repl, rest) ->
    String.length repl + String.length rest <= String.length s.

Lemma sub_from_length (fuel : nat) (s : string) :
  String.length (sub_from at_start fuel s) <= String.length s.
Proof.
  revert s. induction fuel as [| fuel IH]; intros s; [cbn [sub_from]; lia |].
  cbn [sub_from].
  assert (Hskip : String.length
                    match s with
                    | EmptyString => EmptyString
                    | String c s' => String c (sub_from at_start fuel s')
                    end <= String.length s).
  { destruct s as [| c s']; cbn [String.length]; [lia |]. specialize (IH s'). lia. }
  destruct (at_start s) as [[repl rest] |] eqn:E; [| exact Hskip].
  apply shrinks in E.
  destruct (String.length rest <? String.length s)%nat eqn:El; rewrite length_app.
  - specialize (IH rest). lia.
  - apply Nat.ltb_ge in El. lia.
Qed.

End Shrinking.

Lemma trailing_comma_opens (closing : ascii) (s : string) :
  match s with
  | String c _ => Ascii.eqb ","%char c = false
  | EmptyString => True
  end -> trailing_comma closing s = None.
Proof.
  unfold trailing_comma. cbn [Re.m]. destruct s as [| c s]; [reflexivity |].
  intros ->. reflexivity.
Qed.

Lemma single_quoted_opens (s : string) :
  match s with
  | String c _ => Ascii.eqb squote c = false
  | EmptyString => True
  end -> single_quoted s = None.
Proof.
  unfold single_quoted. cbn [Re.m]. destruct s as [| c s]; [reflexivity |].
  intros ->. reflexivity.
Qed.

Lemma line_comment_opens (s : string) :
  match s with
  | String c _ => Ascii.eqb "/"%char c = false
  | EmptyString => True
  end -> line_comment s = None.
Proof.
  unfold line_comment. cbn [Re.m Re.lit]. destruct s as [| c s]; [reflexivity |].
  intros ->. reflexivity.
Qed.

Lemma block_comment_opens (s : string) :
  match s with
  | String c _ => Ascii.eqb "/"%char c = false
  | EmptyString => True
  end -> block_comment s = None.
Proof.
  unfold block_comment. cbn [Re.m Re.lit]. destruct s as [| c s]; [reflexivity |].
  intros ->. reflexivity.
Qed.

Lemma trailing_comma_shrinks (closing : ascii) (s repl rest : string) :
  trailing_comma closing s = Some (repl, rest) ->
  String.length repl + String.length rest <= String.length s.
Proof.
  unfold trailing_comma. cbn [Re.m]. destruct s as [| c s1]; [discriminate |].
  destruct (Ascii.eqb ","%char c); [| discriminate].
  intros E. apply (m_length Re.ws) in E. destruct E as (s2 & L & E).
  destruct s2 as [| c2 s3]; [discriminate |].
  destruct (Ascii.eqb closing c2); [| discriminate].
  injection E as <- <-. cbn [String.length] in *. lia.
Qed.

Lemma single_quoted_shrinks (s repl rest : string) :
  single_quoted s = Some (repl, rest) ->
  String.length repl + String.length rest <= String.length s.
Proof.
  unfold single_quoted. intros E.
  apply m_chr in E. destruct E as (c & s1 & -> & _ & E).
  apply m_length in E. destruct E as (s2 & L & E).
  apply m_chr in E. destruct E as (c2 & s3 & -> & _ & [= <- <-]).
  cbn [String.length] in *. rewrite length_app. cbn [String.length].
  pose proof (length_slice_to (String.length s1 - S (String.length s3)) s1) as Hc.
  unfold slice_to in Hc. unfold consumed. cbn [String.length]. lia.
Qed.

Lemma line_comment_shrinks (s repl rest : string) :
  line_comment s = Some (repl, rest) ->
  String.length repl + String.length rest <= String.length s.
Proof.
  unfold line_comment. intros E. apply m_length in E. destruct E as (s' & L & E).
  destruct (at_line_end s'); [| discriminate]. injection E as <- <-. cbn. lia.
Qed.

Lemma block_comment_shrinks (s repl rest : string) :
  block_comment s = Some (repl, rest) ->
  String.length repl + String.length rest <= String.length s.
Proof.
  unfold block_comment. intros E. apply m_length in E. destruct E as (s' & L & E).
  injection E as <- <-. cbn. lia.
Qed.

Lemma plain_text_parts (s : string) :
  plain_text s = true ->
  contains ","%char s = false /\ contains squote s = false /\ contains "/"%char s = false.
Proof.
  unfold plain_text. intros H. apply negb_true_iff in H.
  apply orb_false_iff in H. destruct H as [H H3].
  apply orb_false_iff in H. destruct H as [H1 H2]. auto.
Qed.

(** On a text with none of the three opening characters every step is
    the identity. *)
Lemma clean_plain_text (s : string) :
  plain_text s = true -> clean_json_string s = s.
Proof.
  intros H. apply plain_text_parts in H. destruct H as (Hc & Hq & Hs).
  unfold clean_json_string.
  rewrite (sub_absent _ _ (trailing_comma_opens "}"%char) s Hc).
  rewrite (sub_absent _ _ (trailing_comma_opens "]"%char) s Hc).
  rewrite (sub_absent _ _ single_quoted_opens s Hq).
  rewrite (sub_absent _ _ line_comment_opens s Hs).
  rewrite (sub_absent _ _ block_comment_opens s Hs).
  reflexivity.
Qed.

(** X20.  [clean_json_string] leaves a text unchanged when it holds no
    comma, no single quote and no slash, and never returns a text longer
    than the one it was given. *)
Theorem clean_json_string_never_grows_the_text (s : string) :
  String.length (clean_json_string s) <= String.length s
  /\ (plain_text s = true -> clean_json_string s = s).
Proof.
  split; [| apply clean_plain_text].
  unfold clean_json_string, sub.
  pose proof (sub_from_length _ (trailing_comma_shrinks "}"%char)) as H1.
  pose proof (sub_from_length _ (trailing_comma_shrinks "]"%char)) as H2.
  pose proof (sub_from_length _ single_quoted_shrinks) as H3.
  pose proof (sub_from_length _ line_comment_shrinks) as H4.
  pose proof (sub_from_length _ block_comment_shrinks) as H5.
  eapply Nat.le_trans; [apply H5 |].
  eapply Nat.le_trans; [apply H4 |].
  eapply Nat.le_trans; [apply H3 |].
  eapply Nat.le_trans; [apply H2 |].
  apply H1.
Qed.

Lemma clean_json_string_never_grows_the_text_witness :
  clean_json_string (qq "{'a': 1}") = qq "{'a': 1}".
Proof.
  apply (proj2 (clean_json_string_never_grows_the_text (qq "{'a': 1}"))).
  reflexivity.
Defined.

(** White space, then the closing character: the greedy star takes all of
    the white space. *)
Lemma ws_then_closing (closing : ascii) (w rest : string) :
  all_chars isspace w = true ->
  isspace closing = false ->
  Re.m Re.ws (w ++ String closing rest)
    (fun s2 => Re.m (Re.Chr (Ascii.eqb closing)) s2
                 (fun r => Some (String closing "", r)))
  = Some (String closing "", rest).
Proof.
  intros Hw Hc. unfold Re.ws.
  induction w as [| x w IH]; cbn [append].
  - rewrite star_step. rewrite Hc. cbn [Re.or_else Re.m].
    rewrite Ascii.eqb_refl. reflexivity.
  - cbn [all_chars] in Hw. apply andb_true_iff in Hw. destruct Hw as [Hx Hw].
    rewrite star_step, Hx. cbv zeta. rewrite (IH Hw). reflexivity.
Qed.

(** Characters of one line, then the end of the text: the lazy star stops
    at the end only. *)
Lemma rest_of_last_line (b : string) :
  contains LF b = false ->
  Re.m (Re.Star false (Re.Chr not_newline)) b
    (fun rest => if at_line_end rest then Some ("", rest) else None)
  = Some ("", "").
Proof.
  induction b as [| c b IH]; [reflexivity |].
  cbn [contains]. intros H. apply orb_false_iff in H. destruct H as [Hc Hb].
  rewrite star_step. cbv zeta. cbn [at_line_end].
  assert (Hc' : Ascii.eqb c LF = false).
  { rewrite Ascii.eqb_sym. exact Hc. }
  unfold not_newline. rewrite Hc'. cbn [negb Re.or_else]. exact (IH Hb).
Qed.

(** X21.  What [clean_json_string] removes.  A comma that only white space
    separates from a closing brace is dropped; and everything from two
    slashes to the end of the line is dropped as a comment, also inside a
    JSON string: a text whose last line holds a URL comes back cut off
    after the scheme. *)
Theorem clean_json_string_drops_commas_and_comments (a b w : string) :
  plain_text a = true ->
  plain_text b = true ->
  all_chars isspace w = true ->
  clean_json_string (a ++ "," ++ w ++ "}" ++ b) = a ++ "}" ++ b
  /\ (contains LF b = false -> clean_json_string (a ++ "//" ++ b) = a).
Proof.
  intros Ha Hb Hw.
  destruct (plain_text_parts a Ha) as (Hac & Haq & Has).
  destruct (plain_text_parts b Hb) as (Hbc & Hbq & Hbs).
  split.
  - unfold clean_json_string.
    rewrite (sub_after_prefix (trailing_comma "}"%char) ","%char
               (trailing_comma_opens "}"%char) a ("," ++ w ++ "}" ++ b) "}" b Hac).
    + assert (Hplain : plain_text (a ++ "}" ++ b) = true).
      { unfold plain_text. rewrite !contains_app, Hac, Haq, Has, Hbc, Hbq, Hbs. reflexivity. }
      apply clean_plain_text in Hplain. unfold clean_json_string in Hplain.
      rewrite (sub_absent _ _ (trailing_comma_opens "}"%char) (a ++ "}" ++ b)) in Hplain.
      * exact Hplain.
      * rewrite !contains_app, Hac, Hbc. reflexivity.
    + unfold trailing_comma. cbn [Re.m append]. cbn [Ascii.eqb Bool.eqb].
      apply (ws_then_closing "}"%char w b Hw). reflexivity.
    + rewrite !length_app. cbn [String.length]. lia.
    + exact Hbc.
  - intros Hline.
    assert (Hcw : contains ","%char (a ++ "//" ++ b) = false).
    { rewrite !contains_app, Hac, Hbc. reflexivity. }
    assert (Hqw : contains squote (a ++ "//" ++ b) = false).
    { rewrite !contains_app, Haq, Hbq. reflexivity. }
    unfold clean_json_string.
    rewrite (sub_absent _ _ (trailing_comma_opens "}"%char) _ Hcw).
    rewrite (sub_absent _ _ (trailing_comma_opens "]"%char) _ Hcw).
    rewrite (sub_absent _ _ single_quoted_opens _ Hqw).
    rewrite (sub_after_prefix line_comment "/"%char line_comment_opens
               a ("//" ++ b) "" "" Has).
    + cbn [append]. rewrite append_empty_r.
      apply (sub_absent _ _ block_comment_opens a Has).
    + unfold line_comment. cbn [Re.m Re.lit append]. cbn [Ascii.eqb Bool.eqb].
      apply (rest_of_last_line b Hline).
    + cbn. lia.
    + reflexivity.
Qed.

Lemma clean_json_string_drops_commas_and_comments_witness :
  clean_json_string (qq "{'url': 'http:" ++ "//" ++ qq "example.com'}")
  = qq "{'url': 'http:".
Proof.
  apply (proj2 (clean_json_string_drops_commas_and_comments
                  (qq "{'url': 'http:") (qq "example.com'}") ""
                  eq_refl eq_refl eq_refl)).
  reflexivity.
Defined.

(** ** Reuse of an orchestrator *)

Lemma bind_ext {A B} (c : M A) (k1 k2 : A -> M B) (w : World) :
  (forall a w', k1 a w' = k2 a w') -> bind c k1 w = bind c k2 w.
Proof.
  intros Hk. unfold bind. destruct (c w) as [[a | e] w']; [apply Hk | reflexivity].
Qed.

(** X22.  What the stitcher held before a run has no effect on the run:
    the report and the orchestrator that [generate_report] returns are the
    same whatever sections were stored before, since the run replaces all
    seven.  So an orchestrator can be used again, and no section of an
    earlier report finds its way into a later one. *)
Theorem generate_report_ignores_earlier_sections
    (py : Interpreter) (self : BusinessConsultantOrchestrator)
    (earlier : ReportStitcher) (client_input : ClientInput) (w : World) :
  generate_report py (with_stitcher self earlier) client_input w
  = generate_report py self client_input w.
Proof.
  unfold generate_report.
  repeat (apply bind_ext; intros ? ?).
  reflexivity.
Qed.

(** ** The stage on a valid answer *)

Section ValidAnswer.

Variable py : Interpreter.

Lemma run_stage_on_valid (T : Type) `{BaseModel T}
    (prompt system_prompt : string) (fallback : string -> dict)
    (error_line : string) (minimal x : T) (w : World) (text : string) (kw : dict) :
  backend w (List.length (llm_calls w)) (mkCall prompt system_prompt true) = Ok text ->
  extract_json py text = Ok (VDict kw) ->
  kw <> [] ->
  model_new T kw = Ok x ->
  run_stage py T prompt system_prompt fallback error_line minimal w
  = (Ok x, after_request w (mkCall prompt system_prompt true) []).
Proof.
  intros Hbk Hext Hkw Hx.
  unfold run_stage, bind at 1, generate. rewrite Hbk.
  unfold bind at 1, lift. rewrite Hext.
  destruct kw as [| kv kw']; [congruence |]. cbn [truthy negb].
  unfold try_except. rewrite validate_and_fix_json_dict, Hx.
  unfold after_request. cbn [stdin stdout backend llm_calls clock].
  rewrite app_nil_r. reflexivity.
Qed.

End ValidAnswer.

(** X23.  When the response holds a non-empty JSON object that validates
    against the discovery schema, the discovery stage returns exactly the
    instance built from it, after one request and without printing. *)
Theorem discovery_returns_the_valid_answer
    (py : Interpreter) (client_input : ClientInput)
    (w : World) (text : string) (kw : dict) (x : DiscoveryOutput) :
  backend w (List.length (llm_calls w)) (discovery_call client_input) = Ok text ->
  extract_json py text = Ok (VDict kw) ->
  kw <> [] ->
  model_new DiscoveryOutput kw = Ok x ->
  DiscoveryAgent_analyze py client_input w
  = (Ok x, after_request w (discovery_call client_input) []).
Proof.
  intros Hbk Hext Hkw Hx. unfold DiscoveryAgent_analyze.
  eapply run_stage_on_valid; eassumption.
Qed.

Lemma discovery_returns_the_valid_answer_witness :
  fst (DiscoveryAgent_analyze cpython example_client (stub_world discovery_answer []))
  = Ok (mkDiscoveryOutput "Churn is high" ["Users leave early"] [] [] "SaaS"
          "Freight forwarders").
Proof.
  rewrite (discovery_returns_the_valid_answer cpython example_client
             (stub_world discovery_answer []) discovery_answer
             (match extract_json cpython discovery_answer with Ok (VDict kw) => kw | _ => [] end)
             (mkDiscoveryOutput "Churn is high" ["Users leave early"] [] [] "SaaS"
                "Freight forwarders")).
  - reflexivity.
  - reflexivity.
  - vm_compute. reflexivity.
  - vm_compute. discriminate.
  - vm_compute. reflexivity.
Defined.

(** ** The end of [main] *)

(** X24.  Once the client input is read and the report generated, the
    outcome of [main] is decided by saving alone: when the report is saved,
    [main] ends normally after fourteen closing lines, one of which names
    the path that saving returned; an interrupt while saving ends it with
    status 0, any other failure to save is reported and ends it with
    status 1.  No further request is made. *)
Theorem main_ends_as_saving_ends
    (py : Interpreter)
    (save_report : BusinessConsultantOrchestrator -> FullReport -> M string)
    (w w1 w2 : World) (client_input : ClientInput) (r : FullReport)
    (self' : BusinessConsultantOrchestrator) :
  get_client_input w = (Ok client_input, w1) ->
  generate_report py new_orchestrator client_input (announced w1)
  = (Ok (r, self'), w2) ->
  main py save_report w
  = match save_report self' r w2 with
    | (Ok report_path, w3) =>
        (Ok tt,
         mkWorld (stdin w3) (stdout w3 ++ closing_lines report_path)
           (backend w3) (llm_calls w3) (clock w3))
    | (Raise KeyboardInterrupt, w3) =>
        (Raise (SystemExit 0),
         mkWorld (stdin w3)
           (stdout w3 ++ [Printed (nl ++ nl ++ "Process interrupted by user.")])
           (backend w3) (llm_calls w3) (clock w3))
    | (Raise (SystemExit code), w3) => (Raise (SystemExit code), w3)
    | (Raise e, w3) =>
        (Raise (SystemExit 1),
         mkWorld (stdin w3) (stdout w3 ++ [PrintedExn (nl ++ "❌ Error: ") e])
           (backend w3) (llm_calls w3) (clock w3))
    end.
Proof.
  intros Hin Hgen.
  unfold main, try_except.
  rewrite (bind_ok _ _ _ _ _ Hin).
  do 3 (rewrite bind_print; cbn [stdin stdout backend llm_calls clock]).
  match goal with
  | |- context [bind (generate_report _ _ _) _ ?W] =>
      replace W with (announced w1)
        by (unfold announced, print; cbn [stdin stdout backend llm_calls clock snd];
            rewrite <- !app_assoc; reflexivity)
  end.
  rewrite (bind_ok _ _ _ _ _ Hgen). cbv beta iota.
  destruct (save_report self' r w2) as [[report_path | e] w3] eqn:Esave.
  - rewrite (bind_ok _ _ _ _ _ Esave). cbv beta.
    do 13 (rewrite bind_print; cbn [stdin stdout backend llm_calls clock]).
    unfold print, closing_lines. cbn [stdin stdout backend llm_calls clock snd].
    rewrite <- !app_assoc. reflexivity.
  - rewrite (bind_raise _ _ _ _ _ Esave).
    destruct e; cbn [is_KeyboardInterrupt is_Exception orb];
      unfold print_exn, print, sys_exit, raise, bind; reflexivity.
Qed.

Lemma main_ends_as_saving_ends_witness :
  fst (main cpython no_save (stub_world "" valid_lines)) = Ok tt.
Proof.
  destruct (generate_report cpython new_orchestrator
              (mkClientInput "Acme Freight" "Logistics" "Increase ARR" "Bootstrapped" None)
              (announced (snd (get_client_input (stub_world "" valid_lines)))))
    as [[[r self'] | e] w2] eqn:E; [| vm_compute in E; discriminate E].
  rewrite (main_ends_as_saving_ends cpython no_save (stub_world "" valid_lines)
             (snd (get_client_input (stub_world "" valid_lines))) w2
             (mkClientInput "Acme Freight" "Logistics" "Increase ARR" "Bootstrapped" None)
             r self').
  - reflexivity.
  - vm_compute. reflexivity.
  - exact E.
Defined.

(** ** What [get_client_input] returns *)

(** X25.  Given five lines of which the first three are not blank,
    [get_client_input] reads exactly these five and returns them trimmed:
    business, industry and goal as typed, the text "None specified" for
    blank constraints, and no additional context when that line is blank.
    It makes no generation request. *)
Theorem get_client_input_returns_the_trimmed_lines
    (w : World) (b i g c a : string) (rest : list keyboard) :
  stdin w = Line b :: Line i :: Line g :: Line c :: Line a :: rest ->
  strip b <> "" -> strip i <> "" -> strip g <> "" ->
  exists w',
    get_client_input w
    = (Ok (mkClientInput (strip b) (strip i) (strip g)
             (if String.eqb (strip c) "" then "None specified" else strip c)
             (if String.eqb (strip a) "" then None else Some (strip a))),
       w')
    /\ stdin w' = rest
    /\ llm_calls w' = llm_calls w
    /\ backend w' = backend w.
Proof.
  intros Hin Hb Hi Hg.
  destruct w as [sin out be calls clk]. cbn [stdin] in Hin. subst sin.
  run_entry;
    try (exfalso;
         match goal with
         | E : String.eqb (strip ?x) "" = true |- _ =>
             apply String.eqb_eq in E; first [apply Hb; exact E | apply Hi; exact E | apply Hg; exact E]
         end).
  all: eexists; split; [reflexivity |]; cbn [stdin llm_calls backend]; auto.
Qed.

Lemma get_client_input_returns_the_trimmed_lines_witness :
  fst (get_client_input (stub_world "" ["  Acme Freight "; "Logistics"; "Increase ARR"; " "; ""]))
  = Ok (mkClientInput "Acme Freight" "Logistics" "Increase ARR" "None specified" None).
Proof.
  destruct (get_client_input_returns_the_trimmed_lines
              (stub_world "" ["  Acme Freight "; "Logistics"; "Increase ARR"; " "; ""])
              "  Acme Freight " "Logistics" "Increase ARR" " " "" [] eq_refl)
    as (w' & E & _).
  - vm_compute. discriminate.
  - vm_compute. discriminate.
  - vm_compute. discriminate.
  - rewrite E. reflexivity.
Defined.
